(** * A dip-buying trading bot: shallow embedding of [bot.py]

    The bot polls an exchange for the spot price of a fixed list of coins,
    buys a fixed notional amount of a coin once its price has fallen by
    [PRICE_DROP_THRESHOLD] below a reference price, and sells the whole
    position once the price has risen by [PRICE_RISE_THRESHOLD] above the
    buy price.  The decision state (three dictionaries) is kept in a JSON
    file between cycles.

    Modelling choices.
    - Python [float]s are IEEE binary64 numbers: Rocq's primitive [float].
      Python raises [ZeroDivisionError] where IEEE returns an infinity or a
      NaN, so division is a partial operation here.
    - Python [int]s are unbounded: [Z].
    - The three state dictionaries are finite maps keyed by the coin name;
      the price dictionary of one cycle is an insertion-ordered association
      list, because the loop over it fixes the order of the exchange calls.
    - The exchange client is an interface whose calls transform an abstract
      outside world and either return or raise.
    - A Python function is a computation over a store (decision state,
      outside world, order log, disk) that returns a value or raises; what a
      computation wrote to the store before raising stays written, as for
      Python's mutable dictionaries.
    - Prices and amounts are floats: the exchange is taken to quote a
      number, and the state file to hold the numbers the bot wrote.
    - Log lines and the pause between two turns of the main loop have no
      part in the decisions and are left out. *)

From Stdlib Require Import ZArith Floats Lia.
From stdpp Require Import base option list strings gmap fin_maps.

Set Warnings "-inexact-float,-register-all".
Set Default Proof Using "Type".

(** ** Exceptions and results *)

Inductive exn : Type :=
  | ZeroDivisionError
  | KeyError (key : string)
  | OverflowError
  | ValueError
  | TypeError
  | ExchangeError (msg : string).

Inductive result (A : Type) : Type :=
  | Ok (a : A)
  | Raise (e : exn).
Arguments Ok {A} a.
Arguments Raise {A} e.

Definition is_ok {A} (r : result A) : bool :=
  match r with Ok _ => true | Raise _ => false end.

Global Instance result_ret : MRet result := λ A a, Ok a.
Global Instance result_bind : MBind result := λ A B k r,
  match r with Ok a => k a | Raise e => Raise e end.

(** ** Python numbers *)

Module PyNum.

(** A number as Python sees it: [isinstance(x, int)] tells the two apart. *)
Inductive num : Type :=
  | Int (z : Z)
  | Float (f : float).

(** [float(z)]: the nearest binary64 number, ties to even; an integer
    beyond the binary64 range raises [OverflowError]. *)
Definition float_of_int (z : Z) : result float :=
  match binary_normalize prec emax z 0 false with
  | S754_infinity _ => Raise OverflowError
  | sf => Ok (SF2Prim sf)
  end.

(** [x / y] on floats. *)
Definition float_truediv (x y : float) : result float :=
  if PrimFloat.eqb y 0%float then Raise ZeroDivisionError
  else Ok (PrimFloat.div x y).

(** [a / b] on integers: the correctly rounded quotient. *)
Definition int_truediv (a b : Z) : result float :=
  if (b =? 0)%Z then Raise ZeroDivisionError
  else if (a =? 0)%Z then Ok (if (b <? 0)%Z then neg_zero else zero)
  else
    let '(q, e, l) := SFdiv_core_binary prec emax (Z.abs a) 0 (Z.abs b) 0 in
    match binary_round_aux prec emax (xorb (a <? 0)%Z (b <? 0)%Z) q e l with
    | S754_infinity _ => Raise OverflowError
    | sf => Ok (SF2Prim sf)
    end.

(** [math.floor(x)]: an integer; NaN raises [ValueError], an infinity
    [OverflowError]. *)
Definition math_floor (x : float) : result Z :=
  match Prim2SF x with
  | S754_nan => Raise ValueError
  | S754_infinity _ => Raise OverflowError
  | S754_zero _ => Ok 0%Z
  | S754_finite s m e => Ok (Z.shiftl (if s then Z.neg m else Z.pos m) e)
  end.

End PyNum.

(** ** Dictionaries *)

(** [d[key]] on a dictionary with string keys. *)
Definition getitem {V} (d : gmap string V) (key : string) : result V :=
  match d !! key with
  | Some v => Ok v
  | None => Raise (KeyError key)
  end.

(** An insertion-ordered dictionary, as a list of items without repeated
    keys.  [dict_set] is [d[key] = v]: a key that is present keeps its
    place, a new key goes to the end. *)
Definition dict (V : Type) : Type := list (string * V).

Fixpoint dict_set {V} (key : string) (v : V) (d : dict V) : dict V :=
  match d with
  | [] => [(key, v)]
  | (k, w) :: d' =>
      if decide (k = key) then (k, v) :: d' else (k, w) :: dict_set key v d'
  end.

(** ** JSON documents and the disk *)

Inductive json : Type :=
  | JNull
  | JBool (b : bool)
  | JInt (z : Z)
  | JFloat (f : float)
  | JString (s : string)
  | JArray (items : list json)
  | JObject (fields : list (string * json)).

(** [json.dump] of a dictionary of floats.  The order of the fields of an
    object is immaterial to [json.load].  The text that encodes a document
    in the file is the business of Python's [json] module and is not
    modelled: the disk holds documents. *)
Definition json_of_mapping (m : gmap string float) : json :=
  JObject (prod_map id JFloat <$> map_to_list m).

(** [json.load] gives a dictionary for an object; of a repeated key the
    last occurrence counts. *)
Definition dict_of_fields (fields : list (string * json)) : gmap string json :=
  list_to_map (reverse fields).

(** The numbers of a state file are floats, as the bot writes them; a
    document with anything else in their place is refused. *)
Definition float_of_json (j : json) : result float :=
  match j with
  | JFloat f => Ok f
  | _ => Raise TypeError
  end.

Definition mapping_of_json (j : json) : result (gmap string float) :=
  match j with
  | JObject fields =>
      items ← mapM (λ kv, v ← float_of_json kv.2; Ok (kv.1, v)) (reverse fields);
      Ok (list_to_map items)
  | _ => Raise TypeError
  end.

(** ** Configuration (lines 20-31) *)

Definition AMOUNT_TO_BUY : Z := 5.
Definition PRICE_DROP_THRESHOLD : float := 0.05%float.
Definition PRICE_RISE_THRESHOLD : float := 0.10%float.
Definition COINS : list string := ["BTC"; "TON"; "ETH"; "XRP"; "ADA"; "DOGE"].
Definition STATE_FILE : string := "trading_state.json".

(** ** The trading state *)

Record state : Type := State {
  holdings : gmap string float;
  buy_prices : gmap string float;
  reference_prices : gmap string float
}.

Definition empty_state : state := State ∅ ∅ ∅.

(** What the state records about one coin. *)
Definition asset (s : state) (coin : string)
  : option float * option float * option float :=
  (holdings s !! coin, buy_prices s !! coin, reference_prices s !! coin).

(** ** The exchange client *)

(** A value found in the exchange's market description: [None], a number
    or a string. *)
Inductive pyval : Type :=
  | PyNone
  | PyNum (n : PyNum.num)
  | PyStr (s : string).

(** A ticker is a dictionary of numbers, of which the bot reads ['last'];
    a market has a ['precision'] dictionary, of which it reads ['amount']. *)
Definition ticker : Type := gmap string float.
Record market : Type := Market { precision : gmap string pyval }.

(** The calls the bot makes.  Each one may change the outside world [W],
    and returns or raises. *)
Class Exchange (W : Type) : Type := {
  fetch_ticker : string → W → result ticker * W;
  load_markets : W → result (gmap string market) * W;
  create_market_buy_order : string → float → W → result unit * W;
  create_market_sell_order : string → float → W → result unit * W
}.

(** An order handed to the exchange.  The order log of the store keeps
    every order with its outcome: [true] when the exchange accepted it,
    [false] when the call raised. *)
Inductive order : Type :=
  | MarketBuy (symbol : string) (amount : float)
  | MarketSell (symbol : string) (amount : float).

Definition order_symbol (o : order) : string :=
  match o with MarketBuy s _ | MarketSell s _ => s end.

(** ** Stores and computations *)

Record store (W : Type) : Type := Store {
  st : state;
  world : W;
  orders : list (order * bool);
  disk : gmap string json
}.
Arguments Store {W} st world orders disk.
Arguments st {W} s.
Arguments world {W} s.
Arguments orders {W} s.
Arguments disk {W} s.

Definition M (W A : Type) : Type := store W → result A * store W.

Definition ret {W A} (a : A) : M W A := λ s, (Ok a, s).

Definition bind {W A B} (c : M W A) (k : A → M W B) : M W B :=
  λ s, match c s with
       | (Ok a, s') => k a s'
       | (Raise e, s') => (Raise e, s')
       end.

(** [try: c except Exception: ...]: the outcome of [c] as a value.  The
    store keeps what [c] did to it. *)
Definition catch {W A} (c : M W A) : M W (result A) :=
  λ s, let '(r, s') := c s in (Ok r, s').

(** A pure step that may raise. *)
Definition lift {W A} (r : result A) : M W A := λ s, (r, s).

Declare Scope py_scope.
Delimit Scope py_scope with py.
Notation "x <- c ;; k" := (bind c (λ x, k))
  (at level 100, c at next level, right associativity) : py_scope.
Notation "c ;; k" := (bind c (λ _, k))
  (at level 100, right associativity) : py_scope.
Open Scope py_scope.

Fixpoint for_each {W A} (body : A → M W unit) (l : list A) : M W unit :=
  match l with
  | [] => ret tt
  | a :: l' => body a ;; for_each body l'
  end.

(** The orders placed between two stores of one run. *)
Definition placed_during {W} (s s' : store W) : list (order * bool) :=
  drop (length (orders s)) (orders s').

Definition get_state {W} : M W state := λ s, (Ok (st s), s).

Definition put_state {W} (t : state) : M W unit :=
  λ s, (Ok tt, Store t (world s) (orders s) (disk s)).

Definition set_holding {W} (coin : string) (v : float) : M W unit :=
  λ s, let t := st s in
       (Ok tt, Store (State (<[coin := v]> (holdings t)) (buy_prices t)
                            (reference_prices t))
                     (world s) (orders s) (disk s)).

Definition set_buy_price {W} (coin : string) (v : float) : M W unit :=
  λ s, let t := st s in
       (Ok tt, Store (State (holdings t) (<[coin := v]> (buy_prices t))
                            (reference_prices t))
                     (world s) (orders s) (disk s)).

Definition set_reference_price {W} (coin : string) (v : float) : M W unit :=
  λ s, let t := st s in
       (Ok tt, Store (State (holdings t) (buy_prices t)
                            (<[coin := v]> (reference_prices t)))
                     (world s) (orders s) (disk s)).

(** [del d[coin]] raises [KeyError] on a missing key. *)
Definition del_holding {W} (coin : string) : M W unit :=
  λ s, let t := st s in
       match holdings t !! coin with
       | None => (Raise (KeyError coin), s)
       | Some _ =>
           (Ok tt, Store (State (delete coin (holdings t)) (buy_prices t)
                                (reference_prices t))
                         (world s) (orders s) (disk s))
       end.

Definition del_buy_price {W} (coin : string) : M W unit :=
  λ s, let t := st s in
       match buy_prices t !! coin with
       | None => (Raise (KeyError coin), s)
       | Some _ =>
           (Ok tt, Store (State (holdings t) (delete coin (buy_prices t))
                                (reference_prices t))
                         (world s) (orders s) (disk s))
       end.

(** The state as a JSON document with the three keys of line 50-54, and
    back.  The model gives the loaded document its type at once: a document
    of another shape, which Python would load and then fail to use, is
    refused here. *)
Definition json_of_state (s : state) : json :=
  JObject [("holdings", json_of_mapping (holdings s));
           ("buy_prices", json_of_mapping (buy_prices s));
           ("reference_prices", json_of_mapping (reference_prices s))].

Definition state_of_json (j : json) : result state :=
  match j with
  | JObject fields =>
      let d := dict_of_fields fields in
      h ← getitem d "holdings" ≫= mapping_of_json;
      b ← getitem d "buy_prices" ≫= mapping_of_json;
      r ← getitem d "reference_prices" ≫= mapping_of_json;
      Ok (State h b r)
  | _ => Raise TypeError
  end.

(** ** The C library *)

(** [10 ** precision] with a negative [precision] is a float, computed by
    the platform's [pow]; its last digit is not specified, so the function
    is a parameter of the model. *)
Class Libm : Type := { libm_pow : float → float → float }.

Section Bot.
Context {W : Type} `{!Exchange W} `{!Libm}.
Import PyNum.

(** *** Exchange calls as computations *)

Definition call_fetch_ticker (symbol : string) : M W ticker :=
  λ s, let '(r, w) := fetch_ticker symbol (world s) in
       (r, Store (st s) w (orders s) (disk s)).

Definition call_load_markets : M W (gmap string market) :=
  λ s, let '(r, w) := load_markets (world s) in
       (r, Store (st s) w (orders s) (disk s)).

Definition call_create_market_buy_order (symbol : string) (amount : float)
  : M W unit :=
  λ s, let '(r, w) := create_market_buy_order symbol amount (world s) in
       (r, Store (st s) w (orders s ++ [(MarketBuy symbol amount, is_ok r)]) (disk s)).

Definition call_create_market_sell_order (symbol : string) (amount : float)
  : M W unit :=
  λ s, let '(r, w) := create_market_sell_order symbol amount (world s) in
       (r, Store (st s) w (orders s ++ [(MarketSell symbol amount, is_ok r)]) (disk s)).

(** [f"{coin}/USDT"] *)
Definition symbol_of (coin : string) : string := coin +:+ "/USDT".

(** *** [get_current_prices] (lines 62-73) *)

(** The two lines of the [try] (lines 67-69): the last price of a coin. *)
Definition fetch_last (coin : string) : M W float :=
  ticker <- call_fetch_ticker (symbol_of coin) ;;
  lift (getitem ticker "last").

Fixpoint get_current_prices_from (coins : list string)
    (current_prices : dict float) : M W (dict float) :=
  match coins with
  | [] => ret current_prices
  | coin :: coins' =>
      r <- catch (fetch_last coin) ;;
      match r with
      | Ok last =>
          get_current_prices_from coins' (dict_set coin last current_prices)
      | Raise _ => get_current_prices_from coins' current_prices
      end
  end.

Definition get_current_prices (coins : list string) : M W (dict float) :=
  get_current_prices_from coins [].

(** *** [round_amount] (lines 75-78) *)

(** [10 ** precision]: an integer for a natural exponent, a float
    otherwise. *)
Definition pow10 (precision : Z) : result num :=
  if (0 <=? precision)%Z then Ok (Int (10 ^ precision))
  else p ← float_of_int precision; Ok (Float (libm_pow 10%float p)).

(** [amount * factor] *)
Definition mul_factor (amount : float) (factor : num) : result float :=
  match factor with
  | Int z => f ← float_of_int z; Ok (PrimFloat.mul amount f)
  | Float f => Ok (PrimFloat.mul amount f)
  end.

(** [n / factor] for an integer [n] *)
Definition div_factor (n : Z) (factor : num) : result float :=
  match factor with
  | Int z => int_truediv n z
  | Float f => x ← float_of_int n; float_truediv x f
  end.

Definition round_amount (amount : float) (precision : Z) : result float :=
  factor ← pow10 precision;
  scaled ← mul_factor amount factor;
  n ← math_floor (PrimFloat.add scaled 0.5%float);
  div_factor n factor.

(** *** [check_trading_conditions] (lines 80-156) *)

(** [x if isinstance(x, int) else 8] (line 107) *)
Definition amount_precision_of (x : pyval) : Z :=
  match x with
  | PyNum (Int p) => p
  | _ => 8
  end.

(** [(price - base) / base] (lines 93 and 134) *)
Definition price_change (price base : float) : result float :=
  float_truediv (PrimFloat.sub price base) base.

(** The body of the first [try] (lines 99-121). *)
Definition buy (coin : string) (price : float) : M W unit :=
  let symbol := symbol_of coin in
  amount_in_coin <- lift (f ← float_of_int AMOUNT_TO_BUY;
                          float_truediv f price) ;;
  markets <- call_load_markets ;;
  market <- lift (getitem markets symbol) ;;
  x <- lift (getitem (precision market) "amount") ;;
  let amount_precision := amount_precision_of x in
  amount_in_coin <- lift (round_amount amount_in_coin amount_precision) ;;
  call_create_market_buy_order symbol amount_in_coin ;;
  set_holding coin amount_in_coin ;;
  set_buy_price coin price ;;
  set_reference_price coin price.

(** The body of the second [try] (lines 142-151). *)
Definition sell (coin : string) (price amount_to_sell : float) : M W unit :=
  let symbol := symbol_of coin in
  call_create_market_sell_order symbol amount_to_sell ;;
  del_holding coin ;;
  del_buy_price coin ;;
  set_reference_price coin price.

(** The body of the loop (lines 83-154) for one item of
    [current_prices]. *)
Definition check_coin (item : string * float) : M W unit :=
  let '(coin, price) := item in
  state <- get_state ;;
  match reference_prices state !! coin with
  | None => set_reference_price coin price
  | Some _ =>
      match holdings state !! coin with
      | None =>
          reference_price <- lift (getitem (reference_prices state) coin) ;;
          change <- lift (price_change price reference_price) ;;
          if PrimFloat.leb change (PrimFloat.opp PRICE_DROP_THRESHOLD)
          then
            _ <- catch (buy coin price) ;; ret tt
          else if PrimFloat.ltb price reference_price
          then set_reference_price coin price
          else ret tt
      | Some _ =>
          buy_price <- lift (getitem (buy_prices state) coin) ;;
          change <- lift (price_change price buy_price) ;;
          if PrimFloat.leb PRICE_RISE_THRESHOLD change
          then
            amount_to_sell <- lift (getitem (holdings state) coin) ;;
            _ <- catch (sell coin price amount_to_sell) ;; ret tt
          else ret tt
      end
  end.

Definition check_trading_conditions (current_prices : dict float)
  : M W state :=
  for_each check_coin current_prices ;;
  get_state.

(** *** [load_state] and [save_state] (lines 43-60) *)

Definition load_state : M W state :=
  λ s, match disk s !! STATE_FILE with
       | Some document => (state_of_json document, s)
       | None => (Ok empty_state, s)
       end.

Definition save_state (state : state) : M W unit :=
  λ s, (Ok tt, Store (st s) (world s) (orders s)
                     (<[STATE_FILE := json_of_state state]> (disk s))).

(** *** [main] (lines 158-200) *)

(** Lines 169-174: with no reference price at all, take the current
    prices as reference prices. *)
Definition bootstrap : M W unit :=
  state <- get_state ;;
  if decide (reference_prices state = ∅) then
    current_prices <- get_current_prices COINS ;;
    for_each (λ item, set_reference_price item.1 item.2) current_prices ;;
    state <- get_state ;;
    save_state state
  else ret tt.

(** One turn of the [while True] loop (lines 178-191), the pause left
    out. *)
Definition cycle : M W unit :=
  current_prices <- get_current_prices COINS ;;
  state <- check_trading_conditions current_prices ;;
  save_state state.

(** [n] turns of the loop; a turn that raises ends it. *)
Fixpoint cycles (n : nat) : M W unit :=
  match n with
  | O => ret tt
  | S n' => cycle ;; cycles n'
  end.

(** The program, stopped after [n] turns: what the loop raises is caught
    and the state is saved in any case (lines 176-200). *)
Definition main (n : nat) : M W unit :=
  state <- load_state ;;
  put_state state ;;
  bootstrap ;;
  _ <- catch (cycles n) ;;
  state <- get_state ;;
  save_state state.

End Bot.

(** ** A scripted exchange, for concrete runs *)

Module Sim.

(** The outside world of the script: the answers to the ticker requests
    still to come, the market table, and whether orders are accepted. *)
Record sim : Type := Sim {
  quotes : list (result float);
  markets : gmap string market;
  accepts : bool
}.

Definition answer (w : sim) : result unit :=
  if accepts w then Ok tt else Raise (ExchangeError "order rejected").

Global Instance sim_exchange : Exchange sim := {
  fetch_ticker _ w :=
    match quotes w with
    | [] => (Raise (ExchangeError "no quote"), w)
    | q :: qs =>
        (last ← q; Ok ({["last" := last]} : ticker),
         Sim qs (markets w) (accepts w))
    end;
  load_markets w := (Ok (markets w), w);
  create_market_buy_order _ _ w := (answer w, w);
  create_market_sell_order _ _ w := (answer w, w)
}.

(** [pow(10, y)] for a negative integral [y], correctly rounded. *)
Global Instance sim_libm : Libm := {
  libm_pow _ y :=
    match PyNum.math_floor (PrimFloat.opp y) with
    | Ok n => match PyNum.int_truediv 1 (10 ^ n) with
              | Ok f => f
              | Raise _ => zero
              end
    | Raise _ => nan
    end
}.

(** A market whose amount precision is [x]. *)
Definition market_with (x : pyval) : market := Market {["amount" := x]}.

Definition start (t : state) (w : sim) : store sim := Store t w [] ∅.

(** An exchange that quotes nothing, lists BTC with four decimals, and
    accepts orders; and one that refuses them. *)
Definition accepting : sim :=
  Sim [] {["BTC/USDT" := market_with (PyNum (PyNum.Int 4))]} true.
Definition refusing : sim :=
  Sim [] {["BTC/USDT" := market_with (PyNum (PyNum.Int 4))]} false.

(** BTC watched at a reference price of 100, and BTC held since 95. *)
Definition watching (w : sim) : store sim :=
  start (State ∅ ∅ {["BTC" := 100%float]}) w.
Definition holding (w : sim) : store sim :=
  start (State {["BTC" := 0.0526%float]} {["BTC" := 95%float]}
               {["BTC" := 95%float]}) w.

(** Three turns of the main loop in which only BTC is quoted: at 100, at
    98 and at 99. *)
Definition three_quotes : sim :=
  Sim ([Ok 100%float] ++ replicate 5 (Raise (ExchangeError "timeout")) ++
       [Ok 98%float] ++ replicate 5 (Raise (ExchangeError "timeout")) ++
       [Ok 99%float] ++ replicate 5 (Raise (ExchangeError "timeout")))
      {["BTC/USDT" := market_with (PyNum (PyNum.Int 4))]} true.

(** Three coins of which the second cannot be fetched. *)
Definition second_fails : sim :=
  Sim [Ok 1%float; Raise (ExchangeError "timeout"); Ok 3%float] ∅ true.

(** One turn of the main loop in which only BTC is quoted, at 95, with an
    exchange that accepts orders or refuses them. *)
Definition falling (accepted : bool) : sim :=
  Sim ([Ok 95%float] ++ replicate 5 (Raise (ExchangeError "timeout")))
      {["BTC/USDT" := market_with (PyNum (PyNum.Int 4))]} accepted.

(** BTC with a reference price of zero on record, TON watched at 100, and
    BTC with a reference price that is not a number. *)
Definition zero_reference : store sim :=
  start (State ∅ ∅ {["BTC" := 0%float]}) accepting.
Definition watching_ton : store sim :=
  start (State ∅ ∅ {["TON" := 100%float]}) accepting.
Definition nan_reference : store sim :=
  start (State ∅ ∅ {["BTC" := nan]}) accepting.

(** An exchange with a clock for outside world.  Every ticker request is
    answered and advances the clock; the six requests of a turn are
    answered with the same last price: 100 in the first turn, 90 in the
    second, 110 in the third, and so on again.  BTC is listed with four
    decimals, and every order is accepted. *)
Definition tape_price (clock : nat) : float :=
  match (clock / 6) mod 3 with
  | 0 => 100%float
  | 1 => 90%float
  | _ => 110%float
  end.

Definition tape_exchange : Exchange nat := {|
  fetch_ticker _ clock :=
    (Ok ({["last" := tape_price clock]} : ticker), S clock);
  load_markets clock :=
    (Ok {["BTC/USDT" := market_with (PyNum (PyNum.Int 4))]}, clock);
  create_market_buy_order _ _ clock := (Ok tt, clock);
  create_market_sell_order _ _ clock := (Ok tt, clock)
|}.

Definition tape_start : store nat := Store empty_state 0 [] ∅.

End Sim.

(** * Vocabulary of the properties *)

Section Vocabulary.
Context {W : Type} `{!Exchange W} `{!Libm}.
Implicit Types (s : store W) (coin : string) (price : float).
Implicit Types (items : dict float).

(** ** What the buy block and the sell block can do *)

(** What lines 100-110 need from the exchange to arrive at the amount
    [a] of the order, leaving the world [w1]. *)
Definition order_prepared coin price (w : W) (a : float) (w1 : W) : Prop :=
  ∃ raw markets market x,
    PyNum.float_truediv 5%float price = Ok raw ∧
    load_markets w = (Ok markets, w1) ∧
    markets !! symbol_of coin = Some market ∧
    precision market !! "amount" = Some x ∧
    round_amount raw (amount_precision_of x) = Ok a.

(** The state after lines 117-121. *)
Definition bought coin price (a : float) (t : state) : state :=
  State (<[coin := a]> (holdings t)) (<[coin := price]> (buy_prices t))
        (<[coin := price]> (reference_prices t)).

(** The buy block raises before it has placed an order, or places an
    order that the exchange refuses, or one that it accepts. *)
Inductive buy_step coin price s : result unit → store W → Prop :=
  | buy_not_placed e w1 :
      buy_step coin price s (Raise e) (Store (st s) w1 (orders s) (disk s))
  | buy_rejected a w1 e w2 :
      order_prepared coin price (world s) a w1 →
      create_market_buy_order (symbol_of coin) a w1 = (Raise e, w2) →
      buy_step coin price s (Raise e)
        (Store (st s) w2
               (orders s ++ [(MarketBuy (symbol_of coin) a, false)]) (disk s))
  | buy_accepted a w1 w2 :
      order_prepared coin price (world s) a w1 →
      create_market_buy_order (symbol_of coin) a w1 = (Ok tt, w2) →
      buy_step coin price s (Ok tt)
        (Store (bought coin price a (st s)) w2
               (orders s ++ [(MarketBuy (symbol_of coin) a, true)]) (disk s)).

(** The state after lines 147-151. *)
Definition sold coin price (t : state) : state :=
  State (delete coin (holdings t)) (delete coin (buy_prices t))
        (<[coin := price]> (reference_prices t)).

(** The sell block, for an asset with a holding and a buy price, places
    an order that the exchange refuses or accepts. *)
Inductive sell_step coin price (amount : float) s
  : result unit → store W → Prop :=
  | sell_rejected e w1 :
      create_market_sell_order (symbol_of coin) amount (world s)
        = (Raise e, w1) →
      sell_step coin price amount s (Raise e)
        (Store (st s) w1
               (orders s ++ [(MarketSell (symbol_of coin) amount, false)])
               (disk s))
  | sell_accepted w1 :
      create_market_sell_order (symbol_of coin) amount (world s)
        = (Ok tt, w1) →
      sell_step coin price amount s (Ok tt)
        (Store (sold coin price (st s)) w1
               (orders s ++ [(MarketSell (symbol_of coin) amount, true)])
               (disk s)).

(** ** What one turn of the loop can do *)

(** The store after [state['reference_prices'][coin] = price]. *)
Definition with_reference coin price s : store W :=
  Store (State (holdings (st s)) (buy_prices (st s))
               (<[coin := price]> (reference_prices (st s))))
        (world s) (orders s) (disk s).

(** [x == 0], true of both zeros and false of NaN: the divisors on which
    Python raises [ZeroDivisionError]. *)
Definition is_zero (x : float) : bool := PrimFloat.eqb x 0%float.

(** The nine ways through the loop body for one coin and its price. *)
Inductive coin_step coin price s : result unit → store W → Prop :=
  | first_seen :
      reference_prices (st s) !! coin = None →
      coin_step coin price s (Ok tt) (with_reference coin price s)
  | flat_zero ref :
      reference_prices (st s) !! coin = Some ref →
      holdings (st s) !! coin = None →
      is_zero ref = true →
      coin_step coin price s (Raise ZeroDivisionError) s
  | flat_buy ref change r s' :
      reference_prices (st s) !! coin = Some ref →
      holdings (st s) !! coin = None →
      price_change price ref = Ok change →
      PrimFloat.leb change (PrimFloat.opp PRICE_DROP_THRESHOLD) = true →
      buy_step coin price s r s' →
      coin_step coin price s (Ok tt) s'
  | flat_lower ref change :
      reference_prices (st s) !! coin = Some ref →
      holdings (st s) !! coin = None →
      price_change price ref = Ok change →
      PrimFloat.leb change (PrimFloat.opp PRICE_DROP_THRESHOLD) = false →
      PrimFloat.ltb price ref = true →
      coin_step coin price s (Ok tt) (with_reference coin price s)
  | flat_idle ref change :
      reference_prices (st s) !! coin = Some ref →
      holdings (st s) !! coin = None →
      price_change price ref = Ok change →
      PrimFloat.leb change (PrimFloat.opp PRICE_DROP_THRESHOLD) = false →
      PrimFloat.ltb price ref = false →
      coin_step coin price s (Ok tt) s
  | held_unpriced ref amount :
      reference_prices (st s) !! coin = Some ref →
      holdings (st s) !! coin = Some amount →
      buy_prices (st s) !! coin = None →
      coin_step coin price s (Raise (KeyError coin)) s
  | held_zero ref amount buy_price :
      reference_prices (st s) !! coin = Some ref →
      holdings (st s) !! coin = Some amount →
      buy_prices (st s) !! coin = Some buy_price →
      is_zero buy_price = true →
      coin_step coin price s (Raise ZeroDivisionError) s
  | held_sell ref amount buy_price change r s' :
      reference_prices (st s) !! coin = Some ref →
      holdings (st s) !! coin = Some amount →
      buy_prices (st s) !! coin = Some buy_price →
      price_change price buy_price = Ok change →
      PrimFloat.leb PRICE_RISE_THRESHOLD change = true →
      sell_step coin price amount s r s' →
      coin_step coin price s (Ok tt) s'
  | held_idle ref amount buy_price change :
      reference_prices (st s) !! coin = Some ref →
      holdings (st s) !! coin = Some amount →
      buy_prices (st s) !! coin = Some buy_price →
      price_change price buy_price = Ok change →
      PrimFloat.leb PRICE_RISE_THRESHOLD change = false →
      coin_step coin price s (Ok tt) s.

(** ** Orders and stretches of a run *)

(** An entry of the order log that is for the symbol of [coin]. *)
Definition for_coin coin (o : order * bool) : Prop :=
  order_symbol o.1 = symbol_of coin.

Global Instance for_coin_dec coin o : Decision (for_coin coin o).
Proof. unfold for_coin. apply _. Defined.

Definition orders_for coin (l : list (order * bool)) : list (order * bool) :=
  filter (for_coin coin) l.

(** From [s] to [s'] nothing was done about [coin]. *)
Definition quiet coin s s' : Prop :=
  asset (st s') coin = asset (st s) coin ∧
  ∃ new, orders s' = orders s ++ new ∧ Forall (λ o, ¬ for_coin coin o) new.

(** From [s] to [s'] only [coin] was dealt with. *)
Definition focused coin s s' : Prop :=
  (∀ c, c ≠ coin → asset (st s') c = asset (st s) c) ∧
  disk s' = disk s ∧
  ∃ new, orders s' = orders s ++ new ∧ Forall (for_coin coin) new.

(** Nothing but the outside world differs. *)
Definition same_records (s s' : store W) : Prop :=
  st s' = st s ∧ orders s' = orders s ∧ disk s' = disk s.

(** ** Properties of states and numbers *)

(** The asset has a holding exactly when it has a buy price; and so has
    every asset. *)
Definition paired_at (t : state) (coin : string) : Prop :=
  is_Some (holdings t !! coin) ↔ is_Some (buy_prices t !! coin).

Definition paired (t : state) : Prop := ∀ coin, paired_at t coin.

(** The recorded reference and buy prices of the listed coins are not
    zero. *)
Definition nonzero_prices (coins : list string) (t : state) : Prop :=
  ∀ coin x, coin ∈ coins →
    reference_prices t !! coin = Some x ∨ buy_prices t !! coin = Some x →
    is_zero x = false.

(** [x] is [y] or below [y]. *)
Definition not_above (x y : float) : Prop := x = y ∨ PrimFloat.ltb x y = true.

(** [floor(x * 10^p) / 10^p]: cutting off after [p] decimals, for
    comparison with [round_amount]. *)
Definition truncate_amount (amount : float) (precision : Z) : result float :=
  factor ← pow10 precision;
  scaled ← mul_factor amount factor;
  n ← PyNum.math_floor scaled;
  div_factor n factor.

(** ** The position in a coin along the order log *)

(** A log of orders replayed from a position in [coin] (the holding, if
    any): a buy is placed only without a holding, and when the exchange
    accepts it its amount is the holding; a sell is placed only for the
    whole holding, and when the exchange accepts it there is none. *)
Inductive replay coin
  : option float → list (order * bool) → option float → Prop :=
  | replay_end h : replay coin h [] h
  | replay_buy a (accepted : bool) log h' :
      replay coin (if accepted then Some a else None) log h' →
      replay coin None ((MarketBuy (symbol_of coin) a, accepted) :: log) h'
  | replay_sell a (accepted : bool) log h' :
      replay coin (if accepted then None else Some a) log h' →
      replay coin (Some a) ((MarketSell (symbol_of coin) a, accepted) :: log) h'.

(** An entry of the log that is an accepted order for [coin]. *)
Definition accepted_for coin (o : order * bool) : Prop :=
  for_coin coin o ∧ o.2 = true.

(** From [s] to [s'] the log has grown by orders that replay the position
    in [coin], and without an accepted order for [coin] among them its buy
    price is as it was. *)
Definition position_kept coin s s' : Prop :=
  ∃ new, orders s' = orders s ++ new ∧
         replay coin (holdings (st s) !! coin) (orders_for coin new)
                (holdings (st s') !! coin) ∧
         (Forall (λ o, ¬ accepted_for coin o) new →
          buy_prices (st s') !! coin = buy_prices (st s) !! coin).

(** From [s] to [s'] the log has grown by at most [n] orders, each for one
    of [coins]. *)
Definition placed_within (coins : list string) (n : nat) s s' : Prop :=
  ∃ new, orders s' = orders s ++ new ∧ length new ≤ n ∧
         Forall (λ o, order_symbol o.1 ∈ symbol_of <$> coins) new.

(** The store with another content of the disk. *)
Definition with_disk (d : gmap string json) s : store W :=
  Store (st s) (world s) (orders s) d.

(** The start of [main] (lines 162-174): load the state, and take the
    initial prices where there is no reference price. *)
Definition startup : M W unit :=
  state <- load_state ;;
  put_state state ;;
  bootstrap.

(** ** Quotes, frames and states of the further properties *)

(** A price that is the ['last'] entry of a ticker that the exchange
    returned for the coin's USDT pair. *)
Definition quoted (coin : string) (price : float) : Prop :=
  ∃ w ticker w', fetch_ticker (symbol_of coin) w = (Ok ticker, w') ∧
                 ticker !! "last" = Some price.

(** A computation that neither reads nor writes the disk. *)
Definition disk_blind {A} (c : M W A) : Prop :=
  ∀ d s, c (with_disk d s) = ((c s).1, with_disk d (c s).2).

(** Two stores that differ at most in the content of the state file. *)
Definition same_but_file s s' : Prop :=
  st s = st s' ∧ world s = world s' ∧ orders s = orders s' ∧
  ∀ x, <[STATE_FILE := x]> (disk s) = <[STATE_FILE := x]> (disk s').

(** No reference price and no buy price on record is zero. *)
Definition all_nonzero (t : state) : Prop :=
  ∀ coin x,
    reference_prices t !! coin = Some x ∨ buy_prices t !! coin = Some x →
    is_zero x = false.

(** A float that is neither zero, nor infinite, nor NaN; and one that is
    NaN. *)
Definition finite_nonzero (x : float) : bool :=
  match Prim2SF x with
  | S754_finite _ _ _ => true
  | _ => false
  end.

Definition is_nan (x : float) : bool :=
  match Prim2SF x with
  | S754_nan => true
  | _ => false
  end.

(** A coin without holding whose reference price is not a number. *)
Definition blocked coin s : Prop :=
  holdings (st s) !! coin = None ∧
  ∃ ref, reference_prices (st s) !! coin = Some ref ∧ is_nan ref = true.

(** A binary64 value with the sign [b]: zero, finite or infinite with
    that sign, or not a number. *)
Definition signed (b : bool) (x : spec_float) : Prop :=
  match x with
  | S754_nan => True
  | S754_zero c | S754_infinity c | S754_finite c _ _ => c = b
  end.

End Vocabulary.

(** * Properties *)

(** ** Symbols *)

Lemma string_app_length (a b : string) :
  String.length (a +:+ b) = String.length a + String.length b.
Proof.
  induction a as [|c a IH]; [done|].
  change (S (String.length (a +:+ b)) = S (String.length a + String.length b)).
  by rewrite IH.
Qed.

Lemma string_app_inj_r (a b t : string) : a +:+ t = b +:+ t → a = b.
Proof.
  revert b. induction a as [|c a IH]; intros [|d b] Heq.
  - done.
  - apply (f_equal String.length) in Heq.
    rewrite !string_app_length in Heq. simpl in Heq. lia.
  - apply (f_equal String.length) in Heq.
    rewrite !string_app_length in Heq. simpl in Heq. lia.
  - change (String c (a +:+ t) = String d (b +:+ t)) in Heq.
    injection Heq as -> Heq. f_equal. by apply IH.
Qed.

Section Facts.
Context {W : Type} `{!Exchange W} `{!Libm}.
Implicit Types (s : store W) (coin : string) (price : float).
Implicit Types (items : dict float).

Lemma symbol_of_inj coin coin' : symbol_of coin = symbol_of coin' → coin = coin'.
Proof. apply string_app_inj_r. Qed.

Lemma float_of_int_AMOUNT_TO_BUY :
  PyNum.float_of_int AMOUNT_TO_BUY = Ok 5%float.
Proof. reflexivity. Qed.

(** ** The order log only grows *)

Lemma placed_during_app s s' new :
  orders s' = orders s ++ new → placed_during s s' = new.
Proof. unfold placed_during. intros ->. by rewrite drop_app_length. Qed.

Lemma placed_during_refl s : placed_during s s = [].
Proof. apply placed_during_app. by rewrite app_nil_r. Qed.

(** ** The three outcomes of the buy block *)

Lemma buy_sound coin price s r s' :
  buy coin price s = (r, s') → buy_step coin price s r s'.
Proof.
  unfold buy, bind, lift, call_load_markets, call_create_market_buy_order,
    set_holding, set_buy_price, set_reference_price.
  rewrite float_of_int_AMOUNT_TO_BUY. cbn [mbind result_bind].
  destruct (PyNum.float_truediv 5 price) as [raw|e] eqn:Hraw.
  2:{ intros [= <- <-]. destruct s. apply buy_not_placed. }
  destruct (load_markets (world s)) as [[markets|e] w1] eqn:Hload.
  2:{ intros [= <- <-]. apply buy_not_placed. }
  cbn [st world orders disk].
  destruct (getitem markets (symbol_of coin)) as [market|e] eqn:Hmarket.
  2:{ intros [= <- <-]. apply buy_not_placed. }
  destruct (getitem (precision market) "amount") as [x|e] eqn:Hx.
  2:{ intros [= <- <-]. apply buy_not_placed. }
  destruct (round_amount raw (amount_precision_of x)) as [a|e] eqn:Hround.
  2:{ intros [= <- <-]. apply buy_not_placed. }
  assert (order_prepared coin price (world s) a w1) as Hprep.
  { exists raw, markets, market, x. unfold getitem in *.
    repeat case_match; naive_solver. }
  destruct (create_market_buy_order (symbol_of coin) a w1)
    as [[[]|e] w2] eqn:Horder; cbn [st world orders disk is_ok].
  - intros [= <- <-]. by eapply buy_accepted.
  - intros [= <- <-]. by eapply buy_rejected.
Qed.

(** ** The two outcomes of the sell block *)

Lemma sell_sound coin price amount s r s' :
  is_Some (holdings (st s) !! coin) →
  is_Some (buy_prices (st s) !! coin) →
  sell coin price amount s = (r, s') → sell_step coin price amount s r s'.
Proof.
  intros [h Hh] [b Hb].
  unfold sell, bind, call_create_market_sell_order, del_holding,
    del_buy_price, set_reference_price.
  destruct (create_market_sell_order (symbol_of coin) amount (world s))
    as [[[]|e] w1] eqn:Horder; cbn [st world orders disk is_ok holdings
                                    buy_prices reference_prices].
  - rewrite Hh. cbn [st world orders disk is_ok holdings buy_prices
                     reference_prices]. rewrite Hb.
    intros [= <- <-]. by apply sell_accepted.
  - intros [= <- <-]. by apply sell_rejected.
Qed.

(** ** The outcomes of the loop body *)

Lemma price_change_zero price base :
  is_zero base = true → price_change price base = Raise ZeroDivisionError.
Proof. unfold is_zero, price_change, PyNum.float_truediv. by intros ->. Qed.

Lemma price_change_nonzero price base :
  is_zero base = false →
  price_change price base = Ok (PrimFloat.div (PrimFloat.sub price base) base).
Proof. unfold is_zero, price_change, PyNum.float_truediv. by intros ->. Qed.

Lemma price_change_Ok price base change :
  price_change price base = Ok change → is_zero base = false.
Proof.
  unfold is_zero, price_change, PyNum.float_truediv.
  by destruct (PrimFloat.eqb base 0).
Qed.

Lemma check_coin_sound coin price s r s' :
  check_coin (coin, price) s = (r, s') → coin_step coin price s r s'.
Proof.
  unfold check_coin, bind, get_state, lift, catch, ret, getitem,
    set_reference_price.
  cbn [st].
  destruct (reference_prices (st s) !! coin) as [ref|] eqn:Href.
  2:{ intros [= <- <-]. by apply first_seen. }
  destruct (holdings (st s) !! coin) as [amount|] eqn:Hhold.
  - destruct (buy_prices (st s) !! coin) as [buy_price|] eqn:Hbuy.
    2:{ intros [= <- <-]. by eapply held_unpriced. }
    destruct (is_zero buy_price) eqn:Hz.
    { rewrite (price_change_zero _ _ Hz).
      intros [= <- <-]. by eapply held_zero. }
    rewrite (price_change_nonzero _ _ Hz).
    destruct (PrimFloat.leb PRICE_RISE_THRESHOLD _) eqn:Hrise.
    2:{ intros [= <- <-].
        eapply held_idle; eauto using price_change_nonzero. }
    destruct (sell coin price amount s) as [r2 s2] eqn:Hsell.
    intros [= <- <-].
    eapply held_sell; eauto using price_change_nonzero.
    apply sell_sound; eauto.
  - destruct (is_zero ref) eqn:Hz.
    { rewrite (price_change_zero _ _ Hz).
      intros [= <- <-]. by eapply flat_zero. }
    rewrite (price_change_nonzero _ _ Hz).
    destruct (PrimFloat.leb _ _) eqn:Hdrop.
    { destruct (buy coin price s) as [r2 s2] eqn:Hbuy.
      intros [= <- <-].
      eapply flat_buy; eauto using buy_sound, price_change_nonzero. }
    destruct (PrimFloat.ltb price ref) eqn:Hlt.
    + intros [= <- <-].
      eapply flat_lower; eauto using price_change_nonzero.
    + intros [= <- <-].
      eapply flat_idle; eauto using price_change_nonzero.
Qed.

(** ** What a stretch of the run leaves alone *)

Lemma quiet_refl coin s : quiet coin s s.
Proof. split; [done|]. exists []. by rewrite app_nil_r. Qed.

Lemma quiet_trans coin s1 s2 s3 :
  quiet coin s1 s2 → quiet coin s2 s3 → quiet coin s1 s3.
Proof.
  intros [Ha (n1 & Ho1 & Hf1)] [Hb (n2 & Ho2 & Hf2)]. split; [congruence|].
  exists (n1 ++ n2). rewrite Ho2, Ho1, (assoc_L (++)). split; [done|].
  by apply Forall_app.
Qed.

Lemma focused_refl coin s : focused coin s s.
Proof. repeat split. exists []. by rewrite app_nil_r. Qed.

Lemma focused_with_reference coin price s :
  focused coin s (with_reference coin price s).
Proof.
  split; [|split; [done|exists []; by rewrite app_nil_r]].
  intros c Hc. unfold asset, with_reference. cbn.
  by rewrite lookup_insert_ne.
Qed.

Lemma buy_step_focused coin price s r s' :
  buy_step coin price s r s' → focused coin s s'.
Proof.
  destruct 1; (split; [|split; [done|]]); cbn; try done.
  - exists []. by rewrite app_nil_r.
  - eexists. split; [done|]. by apply Forall_singleton.
  - intros c Hc. unfold asset, bought. cbn. by rewrite !lookup_insert_ne.
  - eexists. split; [done|]. by apply Forall_singleton.
Qed.

Lemma sell_step_focused coin price amount s r s' :
  sell_step coin price amount s r s' → focused coin s s'.
Proof.
  destruct 1; (split; [|split; [done|]]); cbn; try done.
  - eexists. split; [done|]. by apply Forall_singleton.
  - intros c Hc. unfold asset, sold. cbn.
    by rewrite !lookup_delete_ne, lookup_insert_ne.
  - eexists. split; [done|]. by apply Forall_singleton.
Qed.

Lemma coin_step_focused coin price s r s' :
  coin_step coin price s r s' → focused coin s s'.
Proof.
  destruct 1; eauto using focused_refl, focused_with_reference,
    buy_step_focused, sell_step_focused.
Qed.

Lemma focused_quiet coin coin' s s' :
  coin' ≠ coin → focused coin' s s' → quiet coin s s'.
Proof.
  intros Hne (Hframe & _ & new & Ho & Hf). split; [by apply Hframe|].
  exists new. split; [done|]. eapply Forall_impl; [exact Hf|].
  unfold for_coin. intros o -> Hs. by apply symbol_of_inj in Hs.
Qed.

(** ** The loop *)

Lemma for_each_app {A} (body : A → M W unit) (l1 l2 : list A) s :
  for_each body (l1 ++ l2) s =
    match for_each body l1 s with
    | (Ok _, s1) => for_each body l2 s1
    | (Raise e, s1) => (Raise e, s1)
    end.
Proof.
  revert s. induction l1 as [|a l1 IH]; intros s; [done|].
  cbn [for_each app]. unfold bind.
  destruct (body a s) as [[[]|e] s1]; [apply IH|done].
Qed.

(** A property of stores that every turn of the loop body keeps is kept
    by the loop, however it ends. *)
Lemma for_each_invariant {A} (body : A → M W unit) (P : store W → Prop) l :
  (∀ a s r s', a ∈ l → P s → body a s = (r, s') → P s') →
  ∀ s, P s → P (for_each body l s).2.
Proof.
  induction l as [|a l IH]; intros Hbody s HP; [done|].
  cbn [for_each]. unfold bind.
  destruct (body a s) as [[[]|e] s1] eqn:Ha.
  - apply IH.
    + intros ?????. apply Hbody. by right.
    + eapply Hbody; [by left|done..].
  - eapply Hbody; [by left|done..].
Qed.

Lemma check_coins_quiet coin items s :
  coin ∉ items.*1 → quiet coin s (for_each check_coin items s).2.
Proof.
  intros Hnotin.
  apply (for_each_invariant check_coin (quiet coin s)); [|apply quiet_refl].
  intros [c p] s1 r s2 Hin Hq Hstep.
  eapply quiet_trans; [exact Hq|].
  eapply (focused_quiet coin c).
  - intros ->. apply Hnotin. apply list_elem_of_fmap. by exists (coin, p).
  - eapply coin_step_focused, check_coin_sound, Hstep.
Qed.

(** The loop seen from one coin: either it ends early, before the coin's
    turn, or the coin has its turn in a store [s1] that differs from the
    first one only in what concerns other coins, and so does the last
    store from the one after the coin's turn. *)
Lemma check_coins_focus coin price items s :
  NoDup items.*1 → (coin, price) ∈ items →
  let '(r, s') := for_each check_coin items s in
  (∃ e, r = Raise e ∧ quiet coin s s') ∨
  (∃ s1 r1 s2, quiet coin s s1 ∧ check_coin (coin, price) s1 = (r1, s2) ∧
               quiet coin s2 s' ∧ (r = Ok tt → r1 = Ok tt)).
Proof.
  intros Hnodup Hin.
  apply list_elem_of_split in Hin as (pre & post & ->).
  rewrite fmap_app, fmap_cons in Hnodup. cbn in Hnodup.
  apply NoDup_app in Hnodup as (_ & Hpre & Hpost).
  apply NoDup_cons in Hpost as [Hpost _].
  assert (coin ∉ pre.*1) as Hpre' by (intros Hc; eapply Hpre; [done|by left]).
  rewrite for_each_app.
  pose proof (check_coins_quiet coin pre s Hpre') as Hq1.
  destruct (for_each check_coin pre s) as [[[]|e] s1]; cbn in Hq1.
  2:{ left. eauto. }
  cbn [for_each]. unfold bind at 1.
  destruct (check_coin (coin, price) s1) as [r1 s2] eqn:Hstep.
  pose proof (check_coins_quiet coin post s2 Hpost) as Hq2.
  destruct r1 as [[]|e1].
  - destruct (for_each check_coin post s2) as [r s']. cbn in Hq2.
    right. exists s1, (Ok tt), s2. eauto.
  - right. exists s1, (Raise e1), s2.
    split; [done|]. split; [done|]. split; [apply quiet_refl|]. done.
Qed.

(** ** The orders placed for one coin *)

Lemma orders_for_all coin l : Forall (for_coin coin) l → orders_for coin l = l.
Proof.
  unfold orders_for. induction 1 as [|o l Ho _ IH]; [done|].
  by rewrite filter_cons_True, IH.
Qed.

Lemma orders_for_none coin l :
  Forall (λ o, ¬ for_coin coin o) l → orders_for coin l = [].
Proof.
  unfold orders_for. induction 1 as [|o l Ho _ IH]; [done|].
  by rewrite filter_cons_False.
Qed.

Lemma orders_for_app coin l k :
  orders_for coin (l ++ k) = orders_for coin l ++ orders_for coin k.
Proof. apply filter_app. Qed.

Lemma elem_of_orders_for coin l o :
  o ∈ orders_for coin l ↔ for_coin coin o ∧ o ∈ l.
Proof. apply list_elem_of_filter. Qed.

Lemma quiet_placed coin s s' :
  quiet coin s s' → orders_for coin (placed_during s s') = [].
Proof.
  intros [_ (new & Ho & Hf)]. rewrite (placed_during_app _ _ _ Ho).
  by apply orders_for_none.
Qed.

Lemma focused_placed coin s s' :
  focused coin s s' →
  orders s' = orders s ++ placed_during s s' ∧
  Forall (for_coin coin) (placed_during s s').
Proof.
  intros (_ & _ & new & Ho & Hf). by rewrite (placed_during_app _ _ _ Ho).
Qed.

(** ** One coin's view of a decision step *)

Lemma check_trading_conditions_eq items s :
  check_trading_conditions items s =
    match for_each check_coin items s with
    | (Ok _, s') => (Ok (st s'), s')
    | (Raise e, s') => (Raise e, s')
    end.
Proof.
  unfold check_trading_conditions, bind, get_state.
  by destruct (for_each check_coin items s) as [[[]|e] s'].
Qed.

Lemma check_trading_conditions_state items s t s' :
  check_trading_conditions items s = (Ok t, s') → t = st s'.
Proof.
  rewrite check_trading_conditions_eq.
  destruct (for_each check_coin items s) as [[[]|e] s1]; congruence.
Qed.

Lemma decision_focus coin price items s r s' :
  NoDup items.*1 → (coin, price) ∈ items →
  check_trading_conditions items s = (r, s') →
  (is_ok r = false ∧ asset (st s') coin = asset (st s) coin ∧
   orders_for coin (placed_during s s') = []) ∨
  (∃ s1 r1 s2,
     asset (st s1) coin = asset (st s) coin ∧
     check_coin (coin, price) s1 = (r1, s2) ∧
     asset (st s') coin = asset (st s2) coin ∧
     orders_for coin (placed_during s s') = placed_during s1 s2 ∧
     (is_ok r = true → r1 = Ok tt)).
Proof.
  intros Hnodup Hin. rewrite check_trading_conditions_eq.
  pose proof (check_coins_focus coin price items s Hnodup Hin) as Hfocus.
  destruct (for_each check_coin items s) as [r0 s0].
  destruct Hfocus as [(e & -> & Hq)|(s1 & r1 & s2 & Hq1 & Hstep & Hq2 & Hok)].
  - intros [= <- <-]. left. split; [done|]. split; [apply Hq|].
    by apply quiet_placed.
  - intros Hr. right. exists s1, r1, s2.
    pose proof (check_coin_sound _ _ _ _ _ Hstep) as Hstep'.
    assert (s0 = s') as -> by (destruct r0 as [[]|]; congruence).
    destruct Hq1 as [Ha1 (n1 & Ho1 & Hf1)].
    destruct Hq2 as [Ha2 (n2 & Ho2 & Hf2)].
    destruct (focused_placed coin s1 s2) as [Hmid Hfmid];
      [by eapply coin_step_focused|].
    split; [done|]. split; [done|]. split; [done|]. split.
    + rewrite (placed_during_app s s' (n1 ++ placed_during s1 s2 ++ n2)).
      * rewrite !orders_for_app, (orders_for_none _ _ Hf1),
          (orders_for_none _ _ Hf2), (orders_for_all _ _ Hfmid).
        by rewrite app_nil_r.
      * rewrite Ho2, Hmid, Ho1. by rewrite <- !(assoc_L (++)).
    + intros Hisok. apply Hok. destruct r0 as [[]|]; [done|].
      injection Hr as <-. done.
Qed.

(** ** The loop body, case by case *)

Lemma check_coin_first coin price s :
  reference_prices (st s) !! coin = None →
  check_coin (coin, price) s = (Ok tt, with_reference coin price s).
Proof.
  intros Href. unfold check_coin, bind, get_state. cbn [st]. by rewrite Href.
Qed.

Lemma check_coin_flat coin price s ref :
  reference_prices (st s) !! coin = Some ref →
  holdings (st s) !! coin = None →
  check_coin (coin, price) s =
    match price_change price ref with
    | Raise e => (Raise e, s)
    | Ok change =>
        if PrimFloat.leb change (PrimFloat.opp PRICE_DROP_THRESHOLD)
        then (Ok tt, (buy coin price s).2)
        else if PrimFloat.ltb price ref
             then (Ok tt, with_reference coin price s)
             else (Ok tt, s)
    end.
Proof.
  intros Href Hflat.
  unfold check_coin, bind, get_state, lift, catch, ret, getitem.
  cbn [st]. rewrite Href, Hflat.
  destruct (price_change price ref) as [change|e]; [|done].
  destruct (PrimFloat.leb change _); [|by destruct (PrimFloat.ltb price ref)].
  by destruct (buy coin price s).
Qed.

Lemma check_coin_held coin price s ref amount buy_price :
  reference_prices (st s) !! coin = Some ref →
  holdings (st s) !! coin = Some amount →
  buy_prices (st s) !! coin = Some buy_price →
  check_coin (coin, price) s =
    match price_change price buy_price with
    | Raise e => (Raise e, s)
    | Ok change =>
        if PrimFloat.leb PRICE_RISE_THRESHOLD change
        then (Ok tt, (sell coin price amount s).2)
        else (Ok tt, s)
    end.
Proof.
  intros Href Hheld Hbuy.
  unfold check_coin, bind, get_state, lift, catch, ret, getitem.
  cbn [st]. rewrite Href, Hheld, Hbuy.
  destruct (price_change price buy_price) as [change|e]; [|done].
  destruct (PrimFloat.leb _ change); [|done].
  by destruct (sell coin price amount s).
Qed.

Lemma buy_prepared coin price s amount w1 :
  order_prepared coin price (world s) amount w1 →
  buy coin price s =
    match create_market_buy_order (symbol_of coin) amount w1 with
    | (Ok _, w2) =>
        (Ok tt, Store (bought coin price amount (st s)) w2
                      (orders s ++ [(MarketBuy (symbol_of coin) amount, true)])
                      (disk s))
    | (Raise e, w2) =>
        (Raise e, Store (st s) w2
                        (orders s ++ [(MarketBuy (symbol_of coin) amount, false)])
                        (disk s))
    end.
Proof.
  intros (raw & markets & market & x & Hraw & Hload & Hmarket & Hx & Hround).
  unfold buy, bind, lift, call_load_markets, call_create_market_buy_order,
    set_holding, set_buy_price, set_reference_price, getitem.
  rewrite float_of_int_AMOUNT_TO_BUY. cbn [mbind result_bind].
  rewrite Hraw, Hload. cbn [st world orders disk].
  rewrite Hmarket, Hx, Hround.
  by destruct (create_market_buy_order (symbol_of coin) amount w1)
    as [[[]|e] w2].
Qed.

Lemma sell_held coin price amount s h b :
  holdings (st s) !! coin = Some h →
  buy_prices (st s) !! coin = Some b →
  sell coin price amount s =
    match create_market_sell_order (symbol_of coin) amount (world s) with
    | (Ok _, w1) =>
        (Ok tt, Store (sold coin price (st s)) w1
                      (orders s ++ [(MarketSell (symbol_of coin) amount, true)])
                      (disk s))
    | (Raise e, w1) =>
        (Raise e, Store (st s) w1
                        (orders s ++ [(MarketSell (symbol_of coin) amount, false)])
                        (disk s))
    end.
Proof.
  intros Hh Hb.
  unfold sell, bind, call_create_market_sell_order, del_holding,
    del_buy_price, set_reference_price.
  destruct (create_market_sell_order (symbol_of coin) amount (world s))
    as [[[]|e] w1]; cbn [st world orders disk is_ok holdings buy_prices
                         reference_prices]; [|done].
  rewrite Hh. cbn [st world orders disk is_ok holdings buy_prices
                   reference_prices]. by rewrite Hb.
Qed.

Lemma asset_eq (t t' : state) coin :
  asset t' coin = asset t coin →
  holdings t' !! coin = holdings t !! coin ∧
  buy_prices t' !! coin = buy_prices t !! coin ∧
  reference_prices t' !! coin = reference_prices t !! coin.
Proof. unfold asset. by intros [= -> -> ->]. Qed.

Lemma asset_bought coin price amount t :
  asset (bought coin price amount t) coin = (Some amount, Some price, Some price).
Proof. unfold asset, bought. cbn. by rewrite !lookup_insert_eq. Qed.

Lemma asset_sold coin price t :
  asset (sold coin price t) coin = (None, None, Some price).
Proof.
  unfold asset, sold. cbn. by rewrite !lookup_delete_eq, lookup_insert_eq.
Qed.

Lemma placed_during_same s s' : orders s' = orders s → placed_during s s' = [].
Proof. intros Ho. apply placed_during_app. by rewrite app_nil_r. Qed.

(** The log of one turn of the loop holds at most one order, and tells
    what the turn did to the state. *)
Lemma coin_step_placed coin price s r s' :
  coin_step coin price s r s' →
  match placed_during s s' with
  | [] =>
      holdings (st s') !! coin = holdings (st s) !! coin ∧
      buy_prices (st s') !! coin = buy_prices (st s) !! coin
  | [(MarketBuy symbol a, true)] =>
      symbol = symbol_of coin ∧ st s' = bought coin price a (st s)
  | [(MarketSell symbol a, true)] =>
      symbol = symbol_of coin ∧ holdings (st s) !! coin = Some a ∧
      st s' = sold coin price (st s)
  | [(_, false)] => st s' = st s
  | _ => False
  end.
Proof.
  destruct 1;
    repeat match goal with
           | H : buy_step _ _ _ _ _ |- _ => destruct H
           | H : sell_step _ _ _ _ _ _ |- _ => destruct H
           end;
    first [ rewrite placed_during_same by reflexivity
          | erewrite placed_during_app by reflexivity ];
    by cbn.
Qed.

Lemma coin_step_single coin price s r s' o :
  coin_step coin price s r s' → o ∈ placed_during s s' →
  placed_during s s' = [o].
Proof.
  intros Hstep Hin. apply coin_step_placed in Hstep.
  destruct (placed_during s s') as [|o1 [|o2 l]].
  - by apply elem_of_nil in Hin.
  - by apply list_elem_of_singleton in Hin as ->.
  - by destruct o1 as [[] []].
Qed.

(** An order for a coin in the log of a decision step was placed in the
    coin's turn, and is the only one for the coin. *)
Lemma decision_order coin price items s r s' o :
  NoDup items.*1 → (coin, price) ∈ items →
  check_trading_conditions items s = (r, s') →
  o ∈ placed_during s s' → for_coin coin o →
  ∃ s1 r1 s2,
    asset (st s1) coin = asset (st s) coin ∧
    check_coin (coin, price) s1 = (r1, s2) ∧
    asset (st s') coin = asset (st s2) coin ∧
    placed_during s1 s2 = [o] ∧
    orders_for coin (placed_during s s') = [o].
Proof.
  intros Hnodup Hin Hrun Ho Hfor.
  assert (o ∈ orders_for coin (placed_during s s')) as Ho'
    by by apply elem_of_orders_for.
  destruct (decision_focus _ _ _ _ _ _ Hnodup Hin Hrun)
    as [(_ & _ & Hnone)|(s1 & r1 & s2 & Ha1 & Hstep & Ha2 & Hlog & _)].
  - rewrite Hnone in Ho'. by apply elem_of_nil in Ho'.
  - rewrite Hlog in Ho'. exists s1, r1, s2.
    pose proof (coin_step_single _ _ _ _ _ _
                  (check_coin_sound _ _ _ _ _ Hstep) Ho') as Hone.
    by rewrite Hlog.
Qed.

(** C1. An asset without a holding and with a reference price, whose price
    change against the reference price is at most minus the drop threshold:
    in the asset's turn, if the exchange supplies the precision of the
    amount and accepts the order, the turn ends with the ordered amount as
    holding and the price as buy price and as reference price.  And within
    any decision step over a price dictionary, an accepted buy order for an
    asset means that the asset was in that situation, and leaves it with
    the ordered amount as holding and the price as buy price and reference
    price at the end of the step. *)
Theorem buy_on_drop :
  (∀ (s : store W) coin price reference_price change amount w1 w2,
     holdings (st s) !! coin = None →
     reference_prices (st s) !! coin = Some reference_price →
     price_change price reference_price = Ok change →
     PrimFloat.leb change (PrimFloat.opp PRICE_DROP_THRESHOLD) = true →
     order_prepared coin price (world s) amount w1 →
     create_market_buy_order (symbol_of coin) amount w1 = (Ok tt, w2) →
     ∃ s', check_coin (coin, price) s = (Ok tt, s') ∧
           asset (st s') coin = (Some amount, Some price, Some price) ∧
           placed_during s s' = [(MarketBuy (symbol_of coin) amount, true)]) ∧
  (∀ items (s : store W) coin price r s' amount,
     NoDup items.*1 → (coin, price) ∈ items →
     check_trading_conditions items s = (r, s') →
     (MarketBuy (symbol_of coin) amount, true) ∈ placed_during s s' →
     asset (st s') coin = (Some amount, Some price, Some price) ∧
     holdings (st s) !! coin = None ∧
     ∃ reference_price change,
       reference_prices (st s) !! coin = Some reference_price ∧
       price_change price reference_price = Ok change ∧
       PrimFloat.leb change (PrimFloat.opp PRICE_DROP_THRESHOLD) = true).
Proof.
  split.
  - intros s coin price ref change amount w1 w2 Hflat Href Hchange Hdrop
      Hprep Horder.
    eexists. rewrite (check_coin_flat _ _ _ _ Href Hflat), Hchange, Hdrop.
    rewrite (buy_prepared _ _ _ _ _ Hprep), Horder. cbn [snd].
    split; [done|]. split; [apply asset_bought|].
    by apply placed_during_app.
  - intros items s coin price r s' amount Hnodup Hin Hrun Hlog.
    destruct (decision_order _ _ _ _ _ _ _ Hnodup Hin Hrun Hlog)
      as (s1 & r1 & s2 & Ha1 & Hstep & Ha2 & Hone & _); [done|].
    apply asset_eq in Ha1 as (Hh & Hb & Hr).
    apply check_coin_sound in Hstep.
    pose proof (coin_step_placed _ _ _ _ _ Hstep) as Hplaced.
    rewrite Hone in Hplaced. destruct Hplaced as [_ Hst].
    split; [rewrite Ha2, Hst; apply asset_bought|].
    rewrite <- Hh, <- Hr.
    destruct Hstep;
      repeat match goal with
             | H : buy_step _ _ _ _ _ |- _ => destruct H
             | H : sell_step _ _ _ _ _ _ |- _ => destruct H
             end;
      first [ rewrite placed_during_same in Hone by reflexivity
            | erewrite placed_during_app in Hone by reflexivity ];
      try discriminate Hone.
    split; [done|]. eauto 10.
Qed.

(** C2, as amended. An asset with a holding and its buy price, whose price
    change against the buy price, computed in binary64, is at least the
    rise threshold.  Within any decision step, an accepted sell order for
    the asset is for the whole recorded holding, and leaves the asset
    without holding and buy price and with the sale price as reference
    price.  In the asset's turn, once the asset has a reference price, the
    order for the whole holding is placed, and if the exchange accepts it
    the turn ends in that state; below the threshold the turn changes
    nothing.  The comparison admits equality of the computed change and
    the threshold: bought at 95, 104.50 sells and 104.49 does not.  A price
    at the boundary may still come out below it: bought at 3.8, the price
    risen by the threshold is 4.18, and the change computed for it is below
    the threshold. *)
Theorem sell_on_rise :
  (∀ items (s : store W) coin price amount r s' sold_amount,
     NoDup items.*1 → (coin, price) ∈ items →
     holdings (st s) !! coin = Some amount →
     check_trading_conditions items s = (r, s') →
     (MarketSell (symbol_of coin) sold_amount, true) ∈ placed_during s s' →
     sold_amount = amount ∧
     asset (st s') coin = (None, None, Some price) ∧
     orders_for coin (placed_during s s')
       = [(MarketSell (symbol_of coin) amount, true)] ∧
     ∃ buy_price change,
       buy_prices (st s) !! coin = Some buy_price ∧
       price_change price buy_price = Ok change ∧
       PrimFloat.leb PRICE_RISE_THRESHOLD change = true) ∧
  (∀ (s : store W) coin price amount buy_price reference_price change,
     holdings (st s) !! coin = Some amount →
     buy_prices (st s) !! coin = Some buy_price →
     reference_prices (st s) !! coin = Some reference_price →
     price_change price buy_price = Ok change →
     (PrimFloat.leb PRICE_RISE_THRESHOLD change = true →
      ∃ s', check_coin (coin, price) s = (Ok tt, s') ∧
        ((∃ w1, create_market_sell_order (symbol_of coin) amount (world s)
                  = (Ok tt, w1) ∧
                asset (st s') coin = (None, None, Some price) ∧
                placed_during s s'
                  = [(MarketSell (symbol_of coin) amount, true)]) ∨
         (∃ e w1, create_market_sell_order (symbol_of coin) amount (world s)
                    = (Raise e, w1) ∧
                  st s' = st s ∧
                  placed_during s s'
                    = [(MarketSell (symbol_of coin) amount, false)]))) ∧
     (PrimFloat.leb PRICE_RISE_THRESHOLD change = false →
      check_coin (coin, price) s = (Ok tt, s))) ∧
  (∃ change, price_change 104.50%float 95%float = Ok change ∧
             PrimFloat.leb PRICE_RISE_THRESHOLD change = true) ∧
  (∃ change, price_change 104.49%float 95%float = Ok change ∧
             PrimFloat.leb PRICE_RISE_THRESHOLD change = false) ∧
  PrimFloat.leb PRICE_RISE_THRESHOLD PRICE_RISE_THRESHOLD = true ∧
  (PrimFloat.mul 3.8%float (PrimFloat.add 1%float PRICE_RISE_THRESHOLD)
     = 4.18%float ∧
   ∃ change, price_change 4.18%float 3.8%float = Ok change ∧
             PrimFloat.leb PRICE_RISE_THRESHOLD change = false).
Proof.
  split; [|split; [|split; [|split; [|split]]]].
  - intros items s coin price amount r s' sold_amount
      Hnodup Hin Hheld Hrun Hlog.
    destruct (decision_order _ _ _ _ _ _ _ Hnodup Hin Hrun Hlog)
      as (s1 & r1 & s2 & Ha1 & Hstep & Ha2 & Hone & Hall); [done|].
    apply asset_eq in Ha1 as (Hh & Hb & _).
    apply check_coin_sound in Hstep.
    pose proof (coin_step_placed _ _ _ _ _ Hstep) as Hplaced.
    rewrite Hone in Hplaced. destruct Hplaced as (_ & Hamount & Hst).
    assert (sold_amount = amount) as -> by congruence.
    split; [done|]. split; [rewrite Ha2, Hst; apply asset_sold|].
    split; [done|]. rewrite <- Hb.
    destruct Hstep;
      repeat match goal with
             | H : buy_step _ _ _ _ _ |- _ => destruct H
             | H : sell_step _ _ _ _ _ _ |- _ => destruct H
             end;
      first [ rewrite placed_during_same in Hone by reflexivity
            | erewrite placed_during_app in Hone by reflexivity ];
      try discriminate Hone.
    eauto 10.
  - intros s coin price amount buy_price ref change Hheld Hbuy Href Hchange.
    rewrite (check_coin_held _ _ _ _ _ _ Href Hheld Hbuy), Hchange.
    split; intros ->; [|done].
    eexists. split; [done|].
    rewrite (sell_held _ _ _ _ _ _ Hheld Hbuy).
    destruct (create_market_sell_order (symbol_of coin) amount (world s))
      as [[[]|e] w1]; cbn [snd].
    + left. exists w1. split; [done|]. split; [apply asset_sold|].
      by apply placed_during_app.
    + right. exists e, w1. split; [done|]. split; [done|].
      by apply placed_during_app.
  - eexists. split; [reflexivity|]. reflexivity.
  - eexists. split; [reflexivity|]. reflexivity.
  - reflexivity.
  - split; [reflexivity|]. eexists. split; [reflexivity|]. reflexivity.
Qed.

(** C3. A failed order leaves the state as it was.  A buy block that
    raises, at whatever line, has changed nothing in the state; a turn
    whose order, buy or sell, the exchange refused ends with the state it
    began with; and within any decision step, a refused order for an asset
    means that the asset's holding, buy price and reference price at the
    end of the step are those of its beginning. *)
Theorem failed_order_keeps_state :
  (∀ (s : store W) coin price e s',
     buy coin price s = (Raise e, s') → st s' = st s) ∧
  (∀ (s : store W) coin price r s' o,
     check_coin (coin, price) s = (r, s') →
     (o, false) ∈ placed_during s s' →
     st s' = st s) ∧
  (∀ items (s : store W) coin price r s' o,
     NoDup items.*1 → (coin, price) ∈ items →
     check_trading_conditions items s = (r, s') →
     (o, false) ∈ placed_during s s' → order_symbol o = symbol_of coin →
     asset (st s') coin = asset (st s) coin).
Proof.
  split; [|split].
  - intros s coin price e s' Hbuy. apply buy_sound in Hbuy.
    by inversion Hbuy.
  - intros s coin price r s' o Hturn Hin. apply check_coin_sound in Hturn.
    pose proof (coin_step_single _ _ _ _ _ _ Hturn Hin) as Hone.
    apply coin_step_placed in Hturn. rewrite Hone in Hturn. by destruct o.
  - intros items s coin price r s' o Hnodup Hin Hrun Hlog Hsym.
    destruct (decision_order _ _ _ _ _ _ _ Hnodup Hin Hrun Hlog)
      as (s1 & r1 & s2 & Ha1 & Hstep & Ha2 & Hone & _); [done|].
    apply check_coin_sound, coin_step_placed in Hstep.
    rewrite Hone in Hstep.
    rewrite Ha2, <- Ha1. by destruct o; rewrite Hstep.
Qed.

(** C8. An asset without a reference price: its turn records the price as
    reference price and does nothing else; so a decision step that returns
    ends with the observed price as the asset's reference price, with its
    holding and buy price as they were (absent if they were absent), and
    without an order for the asset. *)
Theorem first_price_is_reference :
  (∀ (s : store W) coin price,
     reference_prices (st s) !! coin = None →
     check_coin (coin, price) s = (Ok tt, with_reference coin price s)) ∧
  (∀ items (s : store W) coin price t s',
     NoDup items.*1 → (coin, price) ∈ items →
     reference_prices (st s) !! coin = None →
     check_trading_conditions items s = (Ok t, s') →
     reference_prices t !! coin = Some price ∧
     holdings t !! coin = holdings (st s) !! coin ∧
     buy_prices t !! coin = buy_prices (st s) !! coin ∧
     orders_for coin (placed_during s s') = []).
Proof.
  split; [intros s coin price; apply check_coin_first|].
  intros items s coin price t s' Hnodup Hin Href Hrun.
  pose proof (check_trading_conditions_state _ _ _ _ Hrun) as ->.
  destruct (decision_focus _ _ _ _ _ _ Hnodup Hin Hrun)
    as [(? & _)|(s1 & r1 & s2 & Ha1 & Hstep & Ha2 & Hlog & _)]; [done|].
  apply asset_eq in Ha1 as (Hh & Hb & Hr).
  apply asset_eq in Ha2 as (Hh2 & Hb2 & Hr2).
  rewrite Hlog, Hh2, Hb2, Hr2, <- Hh, <- Hb.
  rewrite <- Hr in Href.
  rewrite (check_coin_first _ _ _ Href) in Hstep. injection Hstep as <- <-.
  rewrite placed_during_same by reflexivity.
  cbn. by rewrite lookup_insert_eq.
Qed.

(** C5, first half. An asset without a holding whose price is below its
    reference price without reaching the drop threshold: its turn records
    the price as reference price and does nothing else; a decision step
    that returns ends with the price as the asset's reference price,
    without a holding and without an order for the asset. *)
Lemma lower_price_is_reference :
  (∀ (s : store W) coin price reference_price change,
     holdings (st s) !! coin = None →
     reference_prices (st s) !! coin = Some reference_price →
     price_change price reference_price = Ok change →
     PrimFloat.leb change (PrimFloat.opp PRICE_DROP_THRESHOLD) = false →
     PrimFloat.ltb price reference_price = true →
     check_coin (coin, price) s = (Ok tt, with_reference coin price s)) ∧
  (∀ items (s : store W) coin price reference_price change t s',
     NoDup items.*1 → (coin, price) ∈ items →
     holdings (st s) !! coin = None →
     reference_prices (st s) !! coin = Some reference_price →
     price_change price reference_price = Ok change →
     PrimFloat.leb change (PrimFloat.opp PRICE_DROP_THRESHOLD) = false →
     PrimFloat.ltb price reference_price = true →
     check_trading_conditions items s = (Ok t, s') →
     reference_prices t !! coin = Some price ∧
     holdings t !! coin = None ∧
     buy_prices t !! coin = buy_prices (st s) !! coin ∧
     orders_for coin (placed_during s s') = []).
Proof.
  split.
  - intros s coin price ref change Hflat Href Hchange Hdrop Hlt.
    by rewrite (check_coin_flat _ _ _ _ Href Hflat), Hchange, Hdrop, Hlt.
  - intros items s coin price ref change t s' Hnodup Hin Hflat Href Hchange
      Hdrop Hlt Hrun.
    pose proof (check_trading_conditions_state _ _ _ _ Hrun) as ->.
    destruct (decision_focus _ _ _ _ _ _ Hnodup Hin Hrun)
      as [(? & _)|(s1 & r1 & s2 & Ha1 & Hstep & Ha2 & Hlog & _)]; [done|].
    apply asset_eq in Ha1 as (Hh & Hb & Hr).
    apply asset_eq in Ha2 as (Hh2 & Hb2 & Hr2).
    rewrite Hlog, Hh2, Hb2, Hr2, <- Hb.
    rewrite <- Hr in Href. rewrite <- Hh in Hflat.
    rewrite (check_coin_flat _ _ _ _ Href Hflat), Hchange, Hdrop, Hlt in Hstep.
    injection Hstep as <- <-.
    rewrite placed_during_same by reflexivity.
    cbn. by rewrite lookup_insert_eq.
Qed.

(** ** Holdings and buy prices go together *)

Lemma paired_at_bought c price amount t coin :
  paired_at t coin → paired_at (bought c price amount t) coin.
Proof.
  unfold paired_at, bought. cbn. intros Hp.
  destruct (decide (coin = c)) as [->|Hne].
  - rewrite !lookup_insert_eq. by split.
  - by rewrite !lookup_insert_ne.
Qed.

Lemma paired_at_sold c price t coin :
  paired_at t coin → paired_at (sold c price t) coin.
Proof.
  unfold paired_at, sold. cbn. intros Hp.
  destruct (decide (coin = c)) as [->|Hne].
  - rewrite !lookup_delete_eq. split; intros [? [=]].
  - by rewrite !lookup_delete_ne.
Qed.

Lemma coin_step_paired_at c price s r s' coin :
  coin_step c price s r s' → paired_at (st s) coin → paired_at (st s') coin.
Proof.
  destruct 1;
    repeat match goal with
           | H : buy_step _ _ _ _ _ |- _ => destruct H
           | H : sell_step _ _ _ _ _ _ |- _ => destruct H
           end;
    cbn; auto using paired_at_bought, paired_at_sold.
Qed.

Lemma coin_step_paired coin price s r s' :
  coin_step coin price s r s' → paired (st s) → paired (st s').
Proof. intros Hstep Hp c. by eapply coin_step_paired_at. Qed.

Lemma check_coins_paired_at items s coin :
  paired_at (st s) coin → paired_at (st (for_each check_coin items s).2) coin.
Proof.
  apply (for_each_invariant check_coin (λ s, paired_at (st s) coin)).
  intros [c p] s1 r s2 _ Hp Hstep.
  eapply coin_step_paired_at; [by apply check_coin_sound|done].
Qed.

Lemma check_trading_conditions_store items s :
  (check_trading_conditions items s).2 = (for_each check_coin items s).2.
Proof.
  rewrite check_trading_conditions_eq.
  by destruct (for_each check_coin items s) as [[[]|e] s'].
Qed.

(** ** Fetching prices touches nothing but the outside world *)

Lemma fetch_last_records coin s :
  same_records s (fetch_last coin s).2.
Proof.
  unfold fetch_last, bind, call_fetch_ticker, lift.
  destruct (fetch_ticker (symbol_of coin) (world s)) as [[t|e] w]; by cbn.
Qed.

Lemma get_current_prices_from_total coins acc s :
  ∃ prices s', get_current_prices_from coins acc s = (Ok prices, s') ∧
               same_records s s'.
Proof.
  revert acc s. induction coins as [|coin coins IH]; intros acc s.
  { by exists acc, s. }
  cbn [get_current_prices_from]. unfold bind, catch.
  pose proof (fetch_last_records coin s) as (Hst & Ho & Hd).
  destruct (fetch_last coin s) as [[last|e] s1]; cbn in Hst, Ho, Hd.
  - destruct (IH (dict_set coin last acc) s1) as (ps & s' & -> & H1 & H2 & H3).
    exists ps, s'. split; [done|]. repeat split; congruence.
  - destruct (IH acc s1) as (ps & s' & -> & H1 & H2 & H3).
    exists ps, s'. split; [done|]. repeat split; congruence.
Qed.

Lemma cycle_state s :
  ∃ items s1,
    get_current_prices COINS s = (Ok items, s1) ∧ same_records s s1 ∧
    st (cycle s).2 = st (check_trading_conditions items s1).2.
Proof.
  destruct (get_current_prices_from_total COINS [] s) as (items & s1 & Hg & Hs).
  exists items, s1. split; [done|]. split; [done|].
  unfold cycle, bind. fold (get_current_prices COINS). unfold get_current_prices.
  rewrite Hg.
  by destruct (check_trading_conditions items s1) as [[t|e] s2].
Qed.

(** C4. Holdings and buy prices stay paired: an asset that has a holding
    exactly when it has a buy price is still so after a decision step,
    however the step ends, and after any number of turns of the main loop;
    hence a state in which every asset is so stays such a state. *)
Theorem pairing_invariant :
  (∀ items (s : store W) coin,
     paired_at (st s) coin →
     paired_at (st (check_trading_conditions items s).2) coin) ∧
  (∀ n (s : store W) coin,
     paired_at (st s) coin → paired_at (st (cycles n s).2) coin) ∧
  (∀ items (s : store W),
     paired (st s) → paired (st (check_trading_conditions items s).2)) ∧
  (∀ n (s : store W), paired (st s) → paired (st (cycles n s).2)).
Proof.
  assert (∀ items (s : store W) coin,
            paired_at (st s) coin →
            paired_at (st (check_trading_conditions items s).2) coin)
    as Hstep.
  { intros items s coin Hp. rewrite check_trading_conditions_store.
    by apply check_coins_paired_at. }
  assert (∀ n (s : store W) coin,
            paired_at (st s) coin → paired_at (st (cycles n s).2) coin)
    as Hturns.
  { induction n as [|n IH]; intros s coin Hp; [done|].
    cbn [cycles]. unfold bind.
    destruct (cycle_state s) as (items & s1 & _ & (Hst & _) & Hc).
    assert (paired_at (st (cycle s).2) coin) as Hp'.
    { rewrite Hc. apply Hstep. by rewrite Hst. }
    destruct (cycle s) as [[[]|e] s2]; [by apply IH|done]. }
  split; [done|]. split; [done|]. split.
  - intros items s Hp coin. by apply Hstep.
  - intros n s Hp coin. by apply Hturns.
Qed.

(** ** The price dictionary *)

Lemma COINS_NoDup : NoDup COINS.
Proof. apply (bool_decide_unpack (NoDup COINS)). vm_compute. exact I. Qed.

Lemma dict_set_fresh {V} (key : string) (v : V) (d : dict V) :
  key ∉ d.*1 → dict_set key v d = d ++ [(key, v)].
Proof.
  induction d as [|[k w] d IH]; intros Hfresh; [done|].
  rewrite fmap_cons in Hfresh. cbn [fst] in Hfresh.
  apply not_elem_of_cons in Hfresh as [Hne Hfresh].
  cbn [dict_set]. rewrite decide_False by done.
  by rewrite IH.
Qed.

Lemma dict_set_keys {V} (key : string) (v : V) (d : dict V) :
  (dict_set key v d).*1 = if decide (key ∈ d.*1) then d.*1 else d.*1 ++ [key].
Proof.
  induction d as [|[k w] d IH]; [done|].
  cbn [dict_set]. rewrite fmap_cons. cbn [fst].
  destruct (decide (k = key)) as [->|Hne].
  - rewrite decide_True by left. done.
  - rewrite fmap_cons, IH. cbn [fst].
    destruct (decide (key ∈ d.*1)) as [Hin|Hnotin].
    + rewrite decide_True by (by right). done.
    + rewrite decide_False; [done|].
      intros [?|?]%elem_of_cons; congruence.
Qed.

Lemma dict_set_NoDup {V} (key : string) (v : V) (d : dict V) :
  NoDup d.*1 → NoDup (dict_set key v d).*1.
Proof.
  intros Hnd. rewrite dict_set_keys. case_decide; [done|].
  apply NoDup_app. split; [done|]. split; [|apply NoDup_singleton].
  intros x Hx ->%list_elem_of_singleton. done.
Qed.

Lemma get_current_prices_from_NoDup coins acc s :
  NoDup acc.*1 → ∀ items s',
  get_current_prices_from coins acc s = (Ok items, s') → NoDup items.*1.
Proof.
  revert acc s. induction coins as [|coin coins IH]; intros acc s Hnd items s'.
  { by intros [= <- <-]. }
  cbn [get_current_prices_from]. unfold bind, catch.
  destruct (fetch_last coin s) as [[last|e] s1].
  - apply IH. by apply dict_set_NoDup.
  - by apply IH.
Qed.

Lemma get_current_prices_from_app l1 l2 acc s :
  get_current_prices_from (l1 ++ l2) acc s =
    match get_current_prices_from l1 acc s with
    | (Ok acc1, s1) => get_current_prices_from l2 acc1 s1
    | (Raise e, s1) => (Raise e, s1)
    end.
Proof.
  revert acc s. induction l1 as [|coin l1 IH]; intros acc s; [done|].
  cbn [app get_current_prices_from]. unfold bind, catch.
  destruct (fetch_last coin s) as [[last|e] s1]; apply IH.
Qed.

(** With coins that are not yet in the dictionary and do not repeat, the
    loop appends what it would collect from an empty dictionary. *)
Lemma get_current_prices_from_acc coins acc s items s' :
  NoDup coins → (∀ c, c ∈ coins → c ∉ acc.*1) →
  get_current_prices coins s = (Ok items, s') →
  get_current_prices_from coins acc s = (Ok (acc ++ items), s') ∧
  (∀ c, c ∈ items.*1 → c ∈ coins).
Proof.
  unfold get_current_prices.
  revert acc s items s'. induction coins as [|coin coins IH];
    intros acc s items s' Hnd Hfresh.
  { intros [= <- <-]. rewrite app_nil_r. split; [done|].
    by intros c ?%elem_of_nil. }
  apply NoDup_cons in Hnd as [Hcoin Hnd].
  cbn [get_current_prices_from]. unfold bind, catch.
  destruct (fetch_last coin s) as [[last|e] s1].
  - cbn [dict_set]. intros Hrun.
    destruct (get_current_prices_from_total coins [] s1)
      as (rest & s2 & Hrest & _).
    destruct (IH [(coin, last)] s1 rest s2 Hnd) as [Hone Hkeys1]; [|done|].
    { intros c Hc ->%list_elem_of_singleton. done. }
    rewrite Hone in Hrun. injection Hrun as <- <-.
    rewrite dict_set_fresh by (apply Hfresh; left).
    destruct (IH (acc ++ [(coin, last)]) s1 rest s2 Hnd) as [-> _]; [|done|].
    { intros c Hc. rewrite fmap_app. intros [?|?%list_elem_of_singleton]%elem_of_app.
      - by apply (Hfresh c); [right|].
      - by subst. }
    split; [by rewrite <- (assoc_L (++))|].
    intros c [->|Hc]%elem_of_cons; [left|right; by apply Hkeys1].
  - intros Hrun.
    destruct (IH acc s1 items s' Hnd) as [-> Hkeys]; [|done|].
    { intros c Hc. apply Hfresh. by right. }
    split; [done|]. intros c Hc. right. by apply Hkeys.
Qed.

(** C7. One failed fetch does not end the batch.  [get_current_prices]
    always returns, and changes nothing in the records.  When the fetch for
    one of the monitored coins raises, the dictionary returned holds the
    prices collected before it and those collected after it, as if that
    coin were not monitored, and has no entry for it.  A decision step
    leaves a coin without an entry as it was, with no order for it; and so
    does the whole turn of the main loop.  Every coin that has an entry
    has its turn in a decision step that returns. *)
Theorem fetch_failure_skips_asset :
  (∀ coins (s : store W),
     ∃ items s', get_current_prices coins s = (Ok items, s') ∧
                 st s' = st s ∧ orders s' = orders s ∧ disk s' = disk s) ∧
  (∀ pre coin post (s : store W) items1 s1 e s2,
     NoDup (pre ++ coin :: post) →
     get_current_prices pre s = (Ok items1, s1) →
     fetch_last coin s1 = (Raise e, s2) →
     ∃ items2 s3,
       get_current_prices post s2 = (Ok items2, s3) ∧
       get_current_prices (pre ++ coin :: post) s
         = (Ok (items1 ++ items2), s3) ∧
       coin ∉ (items1 ++ items2).*1) ∧
  (∀ items (s : store W) coin,
     coin ∉ items.*1 →
     asset (st (check_trading_conditions items s).2) coin = asset (st s) coin ∧
     orders_for coin (placed_during s (check_trading_conditions items s).2)
       = []) ∧
  (∀ pre coin post (s : store W) items1 s1 e s2,
     COINS = pre ++ coin :: post →
     get_current_prices pre s = (Ok items1, s1) →
     fetch_last coin s1 = (Raise e, s2) →
     asset (st (cycle s).2) coin = asset (st s) coin) ∧
  (∀ items (s : store W) coin price t s',
     NoDup items.*1 → (coin, price) ∈ items →
     check_trading_conditions items s = (Ok t, s') →
     ∃ s1 s2, check_coin (coin, price) s1 = (Ok tt, s2) ∧
              asset (st s1) coin = asset (st s) coin ∧
              asset t coin = asset (st s2) coin).
Proof.
  assert (∀ pre coin post (s : store W) items1 s1 e s2,
     NoDup (pre ++ coin :: post) →
     get_current_prices pre s = (Ok items1, s1) →
     fetch_last coin s1 = (Raise e, s2) →
     ∃ items2 s3,
       get_current_prices post s2 = (Ok items2, s3) ∧
       get_current_prices (pre ++ coin :: post) s
         = (Ok (items1 ++ items2), s3) ∧
       coin ∉ (items1 ++ items2).*1) as Hskip.
  { intros pre coin post s items1 s1 e s2 Hnd Hpre Hfail.
    apply NoDup_app in Hnd as (Hndpre & Hdisj & Hndpost).
    apply NoDup_cons in Hndpost as [Hcoin Hndpost].
    destruct (get_current_prices_from_total post [] s2)
      as (items2 & s3 & Hpost & _).
    exists items2, s3. split; [done|].
    destruct (get_current_prices_from_acc pre [] s items1 s1) as [_ Hk1];
      [done|by intros c _ ?%elem_of_nil|done|].
    destruct (get_current_prices_from_acc post items1 s2 items2 s3)
      as [Hall Hk2]; [done| |done|].
    { intros c Hc Hc1. apply (Hdisj c); [by apply Hk1|by right]. }
    split.
    - unfold get_current_prices at 1.
      rewrite get_current_prices_from_app.
      fold (get_current_prices pre). rewrite Hpre.
      cbn [get_current_prices_from]. unfold bind, catch.
      by rewrite Hfail.
    - rewrite fmap_app. intros [Hc|Hc]%elem_of_app.
      + apply (Hdisj coin); [by apply Hk1|by left].
      + by apply Hcoin, Hk2. }
  assert (∀ items (s : store W) coin,
     coin ∉ items.*1 →
     asset (st (check_trading_conditions items s).2) coin = asset (st s) coin ∧
     orders_for coin (placed_during s (check_trading_conditions items s).2)
       = []) as Hquiet.
  { intros items s coin Hnotin. rewrite check_trading_conditions_store.
    pose proof (check_coins_quiet coin items s Hnotin) as Hq.
    split; [apply Hq|by apply quiet_placed]. }
  split; [|split; [done|split; [done|split]]].
  - intros coins s. apply get_current_prices_from_total.
  - intros pre coin post s items1 s1 e s2 Hcoins Hpre Hfail.
    assert (NoDup (pre ++ coin :: post)) as Hnd
      by (rewrite <- Hcoins; apply COINS_NoDup).
    destruct (Hskip pre coin post s items1 s1 e s2 Hnd Hpre Hfail)
      as (items2 & s3 & _ & Hall & Hnotin).
    destruct (cycle_state s) as (items & s4 & Hg & (Hst & _) & ->).
    rewrite Hcoins, Hall in Hg. injection Hg as <- <-.
    rewrite <- Hst. by apply Hquiet.
  - intros items s coin price t s' Hnodup Hin Hrun.
    pose proof (check_trading_conditions_state _ _ _ _ Hrun) as ->.
    destruct (decision_focus _ _ _ _ _ _ Hnodup Hin Hrun)
      as [(? & _)|(s1 & r1 & s2 & Ha1 & Hstep & Ha2 & _ & Hok)]; [done|].
    rewrite (Hok eq_refl) in Hstep. by exists s1, s2.
Qed.

(** ** The state file *)

Lemma mapM_float_items (l : list (string * float)) :
  mapM (λ kv : string * json, v ← float_of_json kv.2; Ok (kv.1, v))
       (prod_map id JFloat <$> l) = Ok l.
Proof.
  induction l as [|[k v] l IH]; [done|].
  cbn. rewrite IH. done.
Qed.

Lemma mapping_of_json_of_mapping (m : gmap string float) :
  mapping_of_json (json_of_mapping m) = Ok m.
Proof.
  unfold mapping_of_json, json_of_mapping.
  rewrite <- fmap_reverse, mapM_float_items. cbn. f_equal.
  symmetry. apply list_to_map_flip. by rewrite reverse_Permutation.
Qed.

Lemma state_of_json_of_state (t : state) : state_of_json (json_of_state t) = Ok t.
Proof.
  unfold state_of_json, json_of_state, dict_of_fields, getitem.
  cbn [reverse rev_append list_to_map foldr fst snd].
  repeat (rewrite lookup_insert_eq || rewrite lookup_insert_ne by done).
  cbn [mbind result_bind].
  rewrite !mapping_of_json_of_mapping. cbn [mbind result_bind].
  by destruct t.
Qed.

(** C9. Saving a state and loading the state file gives the state back:
    whatever the store and whatever was in the file before, [load_state]
    after [save_state t] returns [t], with the same holding, buy price and
    reference price for every asset. *)
Theorem save_then_load :
  ∀ (t : state) (s : store W),
    (save_state t s).1 = Ok tt ∧
    load_state (save_state t s).2 = (Ok t, (save_state t s).2) ∧
    (∀ t', load_state (save_state t s).2 = (Ok t', (save_state t s).2) →
           ∀ coin, asset t' coin = asset t coin).
Proof.
  intros t s.
  assert (load_state (save_state t s).2 = (Ok t, (save_state t s).2)) as Hload.
  { unfold load_state, save_state. cbn [snd disk].
    by rewrite lookup_insert_eq, state_of_json_of_state. }
  split; [done|]. split; [done|].
  intros t' Hload' coin. congruence.
Qed.

(** ** The reference price of an asset without holding *)

Lemma SFltb_trans (a b c : spec_float) :
  SFltb a b = true → SFltb b c = true → SFltb a c = true.
Proof.
  unfold SFltb.
  destruct a as [sa|sa| |sa ma ea], b as [sb|sb| |sb mb eb],
    c as [sc|sc| |sc mc ec]; cbn;
    repeat match goal with s : bool |- _ => destruct s end; cbn;
    try done.
  all: destruct (Z.compare_spec ea eb), (Z.compare_spec eb ec),
         (Z.compare_spec ea ec); try done; try lia; subst.
  all: change (PosDef.Pos.compare_cont Eq) with Pos.compare.
  all: destruct (Pos.compare_spec ma mb), (Pos.compare_spec mb mc),
         (Pos.compare_spec ma mc); cbn; try done; lia.
Qed.

Lemma ltb_trans (x y z : float) :
  PrimFloat.ltb x y = true → PrimFloat.ltb y z = true →
  PrimFloat.ltb x z = true.
Proof. rewrite !ltb_spec. apply SFltb_trans. Qed.

Lemma not_above_refl x : not_above x x.
Proof. by left. Qed.

Lemma not_above_trans x y z : not_above x y → not_above y z → not_above x z.
Proof.
  intros [->|Hxy] [->|Hyz]; [by left|by right|by right|].
  right. by eapply ltb_trans.
Qed.

(** In its turn, an asset that has no holding before and none after keeps
    its reference price or gets a lower one. *)
Lemma coin_step_flat_reference coin price s r s' x :
  coin_step coin price s r s' →
  holdings (st s) !! coin = None → holdings (st s') !! coin = None →
  reference_prices (st s) !! coin = Some x →
  ∃ y, reference_prices (st s') !! coin = Some y ∧ not_above y x.
Proof.
  intros Hstep Hflat Hflat' Href.
  destruct Hstep;
    repeat match goal with
           | H : buy_step _ _ _ _ _ |- _ => destruct H
           | H : sell_step _ _ _ _ _ _ |- _ => destruct H
           end;
    cbn in *; try congruence;
    try (exists x; split; [done|apply not_above_refl]).
  - rewrite lookup_insert_eq in Hflat'. done.
  - exists price. rewrite lookup_insert_eq. split; [done|].
    right. congruence.
Qed.

Lemma decision_flat_reference coin items s x :
  NoDup items.*1 →
  holdings (st s) !! coin = None →
  holdings (st (check_trading_conditions items s).2) !! coin = None →
  reference_prices (st s) !! coin = Some x →
  ∃ y, reference_prices (st (check_trading_conditions items s).2) !! coin
         = Some y ∧ not_above y x.
Proof.
  intros Hnodup Hflat Hflat' Href.
  destruct (decide (coin ∈ items.*1)) as [Hin|Hnotin].
  - apply list_elem_of_fmap in Hin as ([c price] & -> & Hin). cbn [fst] in *.
    destruct (check_trading_conditions items s) as [r s'] eqn:Hrun.
    cbn [snd] in *.
    destruct (decision_focus _ _ _ _ _ _ Hnodup Hin Hrun)
      as [(_ & Ha & _)|(s1 & r1 & s2 & Ha1 & Hstep & Ha2 & _)].
    + apply asset_eq in Ha as (_ & _ & ->). exists x.
      split; [done|apply not_above_refl].
    + apply asset_eq in Ha1 as (Hh1 & _ & Hr1).
      apply asset_eq in Ha2 as (Hh2 & _ & Hr2).
      rewrite Hr2. apply check_coin_sound in Hstep.
      eapply coin_step_flat_reference; [done|congruence..].
  - rewrite check_trading_conditions_store in *.
    destruct (check_coins_quiet coin items s Hnotin) as [Ha _].
    apply asset_eq in Ha as (_ & _ & ->). exists x.
    split; [done|apply not_above_refl].
Qed.

Lemma cycle_flat_reference coin s x :
  holdings (st s) !! coin = None →
  holdings (st (cycle s).2) !! coin = None →
  reference_prices (st s) !! coin = Some x →
  ∃ y, reference_prices (st (cycle s).2) !! coin = Some y ∧ not_above y x.
Proof.
  destruct (cycle_state s) as (items & s1 & Hg & (Hst & _) & ->).
  rewrite <- Hst. apply decision_flat_reference.
  eapply (get_current_prices_from_NoDup COINS [] s); [|exact Hg].
  apply NoDup_nil_2.
Qed.

(** The store after [n + 1] turns is the one after [n] turns, followed by
    one more turn unless the loop has ended. *)
Lemma cycles_S n s :
  cycles (S n) s =
    match cycles n s with
    | (Ok _, s') => cycle s'
    | (Raise e, s') => (Raise e, s')
    end.
Proof.
  revert s. induction n as [|n IH]; intros s.
  - cbn [cycles]. unfold bind, ret. by destruct (cycle s) as [[[]|e] s'].
  - change (cycles (S (S n)) s) with ((cycle ;; cycles (S n)) s).
    change (cycles (S n) s) with ((cycle ;; cycles n) s).
    unfold bind. destruct (cycle s) as [[[]|e] s1]; [apply IH|done].
Qed.

(** C5. An asset without a holding whose price is below its reference price
    without reaching the drop threshold: its turn records the price as
    reference price and does nothing else, and a decision step that returns
    ends with the price as the asset's reference price, without a holding
    and without an order for the asset.  Hence, along the turns of the main
    loop, as long as the asset has no holding at the end of each turn, its
    reference price after a later turn is the one after an earlier turn or
    a lower one. *)
Theorem reference_ratchets_down :
  (∀ (s : store W) coin price reference_price change,
     holdings (st s) !! coin = None →
     reference_prices (st s) !! coin = Some reference_price →
     price_change price reference_price = Ok change →
     PrimFloat.leb change (PrimFloat.opp PRICE_DROP_THRESHOLD) = false →
     PrimFloat.ltb price reference_price = true →
     check_coin (coin, price) s = (Ok tt, with_reference coin price s)) ∧
  (∀ items (s : store W) coin price reference_price change t s',
     NoDup items.*1 → (coin, price) ∈ items →
     holdings (st s) !! coin = None →
     reference_prices (st s) !! coin = Some reference_price →
     price_change price reference_price = Ok change →
     PrimFloat.leb change (PrimFloat.opp PRICE_DROP_THRESHOLD) = false →
     PrimFloat.ltb price reference_price = true →
     check_trading_conditions items s = (Ok t, s') →
     reference_prices t !! coin = Some price ∧
     holdings t !! coin = None ∧
     buy_prices t !! coin = buy_prices (st s) !! coin ∧
     orders_for coin (placed_during s s') = []) ∧
  (∀ n (s : store W) coin,
     (∀ k, k ≤ n → holdings (st (cycles k s).2) !! coin = None) →
     ∀ i j x, i ≤ j → j ≤ n →
       reference_prices (st (cycles i s).2) !! coin = Some x →
       ∃ y, reference_prices (st (cycles j s).2) !! coin = Some y ∧
            (y = x ∨ PrimFloat.ltb y x = true)).
Proof.
  split; [apply lower_price_is_reference|].
  split; [apply lower_price_is_reference|].
  intros n s coin Hflat i j x Hij Hjn Href.
  induction j as [|j IH].
  - assert (i = 0) as -> by lia. exists x. split; [done|by left].
  - destruct (decide (i = S j)) as [->|Hne].
    { exists x. split; [done|by left]. }
    destruct IH as (y & Hy & Hyx); [lia..|].
    pose proof (Hflat j ltac:(lia)) as Hflatj.
    pose proof (Hflat (S j) ltac:(lia)) as HflatSj.
    rewrite cycles_S in *.
    destruct (cycles j s) as [[[]|e] sj]; cbn [snd] in *.
    + destruct (cycle_flat_reference coin sj y Hflatj HflatSj Hy)
        as (z & Hz & Hzy).
      exists z. split; [done|]. by eapply not_above_trans.
    + by exists y.
Qed.

(** ** The amount of a buy order *)

Lemma coin_step_buy_prepared coin price s r s' amount accepted :
  coin_step coin price s r s' →
  (MarketBuy (symbol_of coin) amount, accepted) ∈ placed_during s s' →
  ∃ w1, order_prepared coin price (world s) amount w1.
Proof.
  intros Hstep Hin.
  destruct Hstep;
    repeat match goal with
           | H : buy_step _ _ _ _ _ |- _ => destruct H
           | H : sell_step _ _ _ _ _ _ |- _ => destruct H
           end;
    first [ rewrite placed_during_same in Hin by reflexivity
          | erewrite placed_during_app in Hin by reflexivity ];
    try (by apply elem_of_nil in Hin);
    apply list_elem_of_singleton in Hin; try discriminate Hin;
    injection Hin as -> ->; eauto.
Qed.

(** C6. The amount of a buy order.  Every buy order placed in a decision
    step for an asset is for the amount [round_amount (5 / price) p], where
    [p] comes from the ['amount'] entry of the precision of the asset's
    market as the exchange has just reported it; and once the exchange has
    reported it, the buy block places the order for that amount.  [p] is
    the entry itself when it is an integer, and 8 when it is [None], a
    float or a string.  For a natural [p], [round_amount x p] is
    [floor (x * 10^p + 0.5) / 10^p] in Python's arithmetic.  So [5 / 30000]
    at precision 4 gives 0.0002, where cutting off would give 0.0001. *)
Theorem buy_amount_rounding :
  (∀ items (s : store W) coin price r s' amount accepted,
     NoDup items.*1 → (coin, price) ∈ items →
     check_trading_conditions items s = (r, s') →
     (MarketBuy (symbol_of coin) amount, accepted) ∈ placed_during s s' →
     ∃ raw w markets w1 market x,
       PyNum.float_truediv 5%float price = Ok raw ∧
       load_markets w = (Ok markets, w1) ∧
       markets !! symbol_of coin = Some market ∧
       precision market !! "amount" = Some x ∧
       round_amount raw (amount_precision_of x) = Ok amount) ∧
  (∀ (s : store W) coin price raw markets w1 market x amount,
     PyNum.float_truediv 5%float price = Ok raw →
     load_markets (world s) = (Ok markets, w1) →
     markets !! symbol_of coin = Some market →
     precision market !! "amount" = Some x →
     round_amount raw (amount_precision_of x) = Ok amount →
     ∃ accepted,
       placed_during s (buy coin price s).2
         = [(MarketBuy (symbol_of coin) amount, accepted)]) ∧
  ((∀ p, amount_precision_of (PyNum (PyNum.Int p)) = p) ∧
   amount_precision_of PyNone = 8%Z ∧
   (∀ f, amount_precision_of (PyNum (PyNum.Float f)) = 8%Z) ∧
   (∀ t, amount_precision_of (PyStr t) = 8%Z)) ∧
  (∀ x p, (0 ≤ p)%Z →
     round_amount x p =
       (f ← PyNum.float_of_int (10 ^ p);
        n ← PyNum.math_floor
              (PrimFloat.add (PrimFloat.mul x f) 0.5%float);
        PyNum.int_truediv n (10 ^ p))) ∧
  (∃ raw, PyNum.float_truediv 5%float 30000%float = Ok raw ∧
          round_amount raw 4 = Ok 0.0002%float ∧
          truncate_amount raw 4 = Ok 0.0001%float).
Proof.
  split; [|split; [|split; [|split]]].
  - intros items s coin price r s' amount accepted Hnodup Hin Hrun Hlog.
    destruct (decision_order _ _ _ _ _ _ _ Hnodup Hin Hrun Hlog)
      as (s1 & r1 & s2 & _ & Hstep & _ & Hone & _); [done|].
    apply check_coin_sound in Hstep.
    destruct (coin_step_buy_prepared _ _ _ _ _ amount accepted Hstep)
      as (w1 & raw & markets & market & x & ?); [|by eauto 10].
    rewrite Hone. by left.
  - intros s coin price raw markets w1 market x amount Hraw Hload Hm Hx Hround.
    assert (order_prepared coin price (world s) amount w1) as Hprep
      by (by exists raw, markets, market, x).
    rewrite (buy_prepared _ _ _ _ _ Hprep).
    destruct (create_market_buy_order (symbol_of coin) amount w1)
      as [[[]|e] w2]; eexists; by apply placed_during_app.
  - done.
  - intros x p Hp. unfold round_amount, pow10.
    destruct (Z.leb_spec 0 p); [|lia]. cbn [mbind result_bind mul_factor].
    destruct (PyNum.float_of_int (10 ^ p)) as [f|e]; [|done].
    cbn [mbind result_bind]. by destruct (PyNum.math_floor _).
  - eexists. split; [reflexivity|]. split; vm_compute; reflexivity.
Qed.

(** ** Division by a recorded price *)

Lemma coin_step_nonzero coin price s r s' :
  coin_step coin price s r s' → nonzero_prices [coin] (st s) →
  r ≠ Raise ZeroDivisionError ∧ (paired (st s) → r = Ok tt).
Proof.
  intros Hstep Hnz.
  assert (∀ x, reference_prices (st s) !! coin = Some x ∨
               buy_prices (st s) !! coin = Some x → is_zero x = false) as Hnz'.
  { intros x. apply Hnz. by left. }
  destruct Hstep as [ |ref| | | |ref amount Hr Hh Hb|ref amount bp| | ];
    try done.
  - rewrite (Hnz' ref) in *; [done|by left].
  - split; [done|]. intros Hp.
    assert (is_Some (buy_prices (st s) !! coin)) as [? ?]
      by (apply Hp; eauto). congruence.
  - rewrite (Hnz' bp) in *; [done|by right].
Qed.

Lemma nonzero_prices_frame coin coins s s' :
  coin ∉ coins → focused coin s s' →
  nonzero_prices coins (st s) → nonzero_prices coins (st s').
Proof.
  intros Hnotin (Hframe & _) Hnz c x Hc Hx.
  assert (c ≠ coin) as Hne by (intros ->; done).
  apply Hframe, asset_eq in Hne as (_ & Hb & Hr).
  apply (Hnz c x Hc). by rewrite <- Hb, <- Hr.
Qed.

Lemma check_coins_nonzero items s :
  NoDup items.*1 → nonzero_prices items.*1 (st s) →
  (for_each check_coin items s).1 ≠ Raise ZeroDivisionError ∧
  (paired (st s) → (for_each check_coin items s).1 = Ok tt).
Proof.
  revert s. induction items as [|[coin price] items IH]; intros s Hnodup Hnz.
  { done. }
  rewrite fmap_cons in Hnodup, Hnz. cbn [fst] in Hnodup, Hnz.
  apply NoDup_cons in Hnodup as [Hnotin Hnodup].
  cbn [for_each]. unfold bind.
  destruct (check_coin (coin, price) s) as [r1 s1] eqn:Hturn.
  apply check_coin_sound in Hturn.
  destruct (coin_step_nonzero _ _ _ _ _ Hturn) as [Hr1 Hr1'].
  { intros c x Hc. apply list_elem_of_singleton in Hc as ->.
    apply Hnz. by left. }
  destruct r1 as [[]|e].
  - destruct (IH s1 Hnodup) as [IH1 IH2].
    { eapply nonzero_prices_frame; [done|by eapply coin_step_focused|].
      intros c x Hc. apply Hnz. by right. }
    split; [done|]. intros Hp. apply IH2.
    by eapply coin_step_paired.
  - split; [done|]. intros Hp. by specialize (Hr1' Hp).
Qed.

End Facts.


(** C10. Division by zero.  A decision step over a price dictionary, from a
    state whose recorded reference and buy prices are not zero, never
    raises [ZeroDivisionError]; from such a state in which holdings and buy
    prices are paired it returns.  The condition cannot be dropped: a
    price of zero is recorded as reference price on first sight, and the
    next decision step for that asset raises [ZeroDivisionError]. *)
Theorem no_division_by_zero :
  (∀ W (X : Exchange W) (L : Libm) items (s : store W),
     NoDup items.*1 →
     (∀ coin x, reference_prices (st s) !! coin = Some x → is_zero x = false) →
     (∀ coin x, buy_prices (st s) !! coin = Some x → is_zero x = false) →
     (check_trading_conditions items s).1 ≠ Raise ZeroDivisionError ∧
     (paired (st s) → is_ok (check_trading_conditions items s).1 = true)) ∧
  (let s0 := Sim.start empty_state (Sim.Sim [] ∅ true) in
   let s1 := (check_trading_conditions [("BTC", 0%float)] s0).2 in
   (check_trading_conditions [("BTC", 0%float)] s0).1 = Ok (st s1) ∧
   reference_prices (st s1) !! "BTC" = Some 0%float ∧
   (check_trading_conditions [("BTC", 1%float)] s1).1
     = Raise ZeroDivisionError).
Proof.
  split.
  - intros W X L items s Hnodup Href Hbuy.
    destruct (check_coins_nonzero items s Hnodup) as [H1 H2].
    { intros c x _ [Hx|Hx]; eauto. }
    rewrite check_trading_conditions_eq.
    destruct (for_each check_coin items s) as [[[]|e] s']; cbn [fst] in *.
    + split; [discriminate|reflexivity].
    + split; [intros [= ->]; by apply H1|].
      intros Hp. by specialize (H2 Hp).
  - vm_compute. done.
Qed.

(** * Further properties of the code *)

(** ** Prices in binary64 *)

Lemma is_zero_spec x : is_zero x = true → ∃ b, Prim2SF x = S754_zero b.
Proof.
  unfold is_zero. rewrite FloatAxioms.eqb_spec.
  change (Prim2SF 0) with (S754_zero false).
  destruct (Prim2SF x) as [b|b| |b m e];
    [by exists b|by destruct b|done|by destruct b].
Qed.

Lemma finite_nonzero_spec x :
  finite_nonzero x = true → ∃ b m e, Prim2SF x = S754_finite b m e.
Proof. unfold finite_nonzero. destruct (Prim2SF x); [done..|eauto]. Qed.

Lemma finite_nonzero_is_zero x : finite_nonzero x = true → is_zero x = false.
Proof.
  intros (b & m & e & Hx)%finite_nonzero_spec.
  unfold is_zero. rewrite FloatAxioms.eqb_spec, Hx. by destruct b.
Qed.

(** The change of a price of zero against any price is negative or not a
    number: it does not reach the rise threshold. *)
Lemma zero_price_no_rise price base :
  is_zero price = true →
  PrimFloat.leb PRICE_RISE_THRESHOLD
                (PrimFloat.div (PrimFloat.sub price base) base) = false.
Proof.
  intros [b Hprice]%is_zero_spec.
  rewrite leb_spec, div_spec, sub_spec, Hprice.
  change (Prim2SF PRICE_RISE_THRESHOLD)
    with (S754_finite false 7205759403792794 (-56)).
  destruct (Prim2SF base) as [sb|sb| |sb m e]; cbn.
  - by destruct b, sb.
  - by destruct sb.
  - done.
  - unfold SF64div, SFdiv.
    destruct (SFdiv_core_binary _ _ _ _ _ _) as [[mz ez] lz].
    unfold binary_round_aux.
    destruct (shr_fexp _ _ mz ez lz) as [mrs1 e1].
    destruct (shr_fexp _ _ _ e1 _) as [mrs2 e2].
    destruct (shr_m mrs2); [by destruct sb| |done].
    destruct (_ <=? _)%Z; by destruct sb.
Qed.

(** The change of a price against itself is zero. *)
Lemma same_price_change price :
  finite_nonzero price = true →
  ∃ b, Prim2SF (PrimFloat.div (PrimFloat.sub price price) price)
         = S754_zero b.
Proof.
  intros (b & m & e & Hx)%finite_nonzero_spec.
  rewrite div_spec, sub_spec, Hx. unfold SF64sub, SFsub.
  rewrite Z.sub_diag. cbn. eauto.
Qed.

Lemma ltb_irrefl x : PrimFloat.ltb x x = false.
Proof.
  rewrite ltb_spec. unfold SFltb, SFcompare.
  destruct (Prim2SF x) as [b|b| |b m e]; [done|by destruct b|done|].
  rewrite Z.compare_refl.
  change (PosDef.Pos.compare_cont Eq) with Pos.compare.
  rewrite Pos.compare_refl. by destruct b.
Qed.

Lemma same_price_no_drop price :
  finite_nonzero price = true →
  PrimFloat.leb (PrimFloat.div (PrimFloat.sub price price) price)
                (PrimFloat.opp PRICE_DROP_THRESHOLD) = false.
Proof.
  intros [b Hc]%same_price_change. rewrite leb_spec, Hc.
  change (Prim2SF (PrimFloat.opp PRICE_DROP_THRESHOLD))
    with (S754_finite true 7205759403792794 (-57)).
  done.
Qed.

Lemma same_price_no_rise price :
  finite_nonzero price = true →
  PrimFloat.leb PRICE_RISE_THRESHOLD
                (PrimFloat.div (PrimFloat.sub price price) price) = false.
Proof.
  intros [b Hc]%same_price_change. rewrite leb_spec, Hc.
  change (Prim2SF PRICE_RISE_THRESHOLD)
    with (S754_finite false 7205759403792794 (-56)).
  done.
Qed.

Lemma is_nan_spec x : is_nan x = true → Prim2SF x = S754_nan.
Proof. unfold is_nan. by destruct (Prim2SF x). Qed.

Lemma nan_is_zero x : is_nan x = true → is_zero x = false.
Proof.
  intros Hx%is_nan_spec. unfold is_zero. by rewrite FloatAxioms.eqb_spec, Hx.
Qed.

Lemma nan_base_change price base :
  is_nan base = true →
  Prim2SF (PrimFloat.div (PrimFloat.sub price base) base) = S754_nan.
Proof.
  intros Hb%is_nan_spec. rewrite div_spec, sub_spec, Hb.
  by destruct (Prim2SF price).
Qed.

Lemma leb_nan_l x y : Prim2SF x = S754_nan → PrimFloat.leb x y = false.
Proof. intros Hx. by rewrite leb_spec, Hx. Qed.

Lemma ltb_nan_r x y : is_nan y = true → PrimFloat.ltb x y = false.
Proof. intros Hy%is_nan_spec. rewrite ltb_spec, Hy. by destruct (Prim2SF x). Qed.

(** ** The order of binary64 numbers and the sign of their difference *)

Lemma digits2_pos_bounds (m : positive) :
  (2 ^ (Z.pos (digits2_pos m) - 1) ≤ Z.pos m < 2 ^ Z.pos (digits2_pos m))%Z.
Proof.
  induction m as [m IH|m IH|]; cbn [digits2_pos]; [| |by cbn].
  - rewrite Pos2Z.inj_succ.
    replace (Z.succ (Z.pos (digits2_pos m)) - 1)%Z
      with (Z.succ (Z.pos (digits2_pos m) - 1))%Z by lia.
    rewrite !Z.pow_succ_r by lia. lia.
  - rewrite Pos2Z.inj_succ.
    replace (Z.succ (Z.pos (digits2_pos m)) - 1)%Z
      with (Z.succ (Z.pos (digits2_pos m) - 1))%Z by lia.
    rewrite !Z.pow_succ_r by lia. lia.
Qed.

(** The mantissa of a finite binary64 number is below [2^53], and at least
    [2^52] unless the exponent is the least one. *)
Lemma valid_finite_bounds b m e :
  valid_binary (S754_finite b m e) = true →
  (Z.pos m < 2 ^ 53)%Z ∧ (-1074 ≤ e)%Z ∧
  ((-1074 < e)%Z → (2 ^ 52 ≤ Z.pos m)%Z).
Proof.
  unfold valid_binary, SpecFloat.valid_binary, bounded, canonical_mantissa,
    fexp, emin, emax, prec.
  intros [Hcan _]%andb_true_iff. apply Z.eqb_eq in Hcan.
  pose proof (digits2_pos_bounds m) as [Hlow Hhigh].
  assert (Z.pos (digits2_pos m) ≤ 53)%Z as Hd by lia.
  split; [|split; [lia|]].
  - eapply Z.lt_le_trans; [exact Hhigh|]. by apply Z.pow_le_mono_r.
  - intros He. assert (Z.pos (digits2_pos m) = 53)%Z as Heq by lia.
    by rewrite Heq in Hlow.
Qed.

Lemma iter_xO_value (m d : positive) :
  Z.pos (Pos.iter xO m d) = (Z.pos m * 2 ^ Z.pos d)%Z.
Proof.
  induction d as [|d IH] using Pos.peano_ind.
  - cbn. lia.
  - rewrite Pos.iter_succ, Pos2Z.inj_succ, Z.pow_succ_r by lia.
    rewrite Pos2Z.inj_xO, IH. lia.
Qed.

Lemma shl_align_value (m : positive) (e e' : Z) :
  (e' ≤ e)%Z → Z.pos (shl_align m e e').1 = (Z.pos m * 2 ^ (e - e'))%Z.
Proof.
  intros Hle. unfold shl_align.
  destruct (e' - e)%Z as [|d|d] eqn:Hd; cbn [fst]; [|lia|].
  - replace (e - e')%Z with 0%Z by lia. lia.
  - rewrite iter_xO_value. by replace (e - e')%Z with (Z.pos d) by lia.
Qed.

(** Of two positive finite numbers, the one with the smaller mantissa
    after alignment is the smaller one. *)
Lemma aligned_order mx ex my ey :
  valid_binary (S754_finite false mx ex) = true →
  valid_binary (S754_finite false my ey) = true →
  (Z.pos (shl_align my ey (Z.min ex ey)).1
     < Z.pos (shl_align mx ex (Z.min ex ey)).1)%Z →
  SFltb (S754_finite false my ey) (S754_finite false mx ex) = true.
Proof.
  intros (Hx & Hex & Hxn)%valid_finite_bounds
         (Hy & Hey & Hyn)%valid_finite_bounds.
  rewrite !shl_align_value by lia.
  unfold SFltb, SFcompare.
  destruct (Z.compare_spec ey ex) as [->|Hlt|Hgt]; [|done|].
  - rewrite Z.min_id, Z.sub_diag. cbn [Z.pow].
    change (PosDef.Pos.compare_cont Eq) with Pos.compare.
    intros Hm. by rewrite (proj2 (Pos.compare_lt_iff my mx)) by lia.
  - rewrite Z.min_l, Z.sub_diag by lia. cbn [Z.pow]. intros Hm. exfalso.
    assert (2 ^ 1 ≤ 2 ^ (ey - ex))%Z as Hpow
      by (apply Z.pow_le_mono_r; lia).
    specialize (Hyn ltac:(lia)).
    change (2 ^ 53)%Z with 9007199254740992%Z in *.
    change (2 ^ 52)%Z with 4503599627370496%Z in *.
    change (2 ^ 1)%Z with 2%Z in *. nia.
Qed.

Lemma binary_round_aux_signed b m e l :
  signed b (binary_round_aux prec emax b m e l).
Proof.
  unfold binary_round_aux.
  destruct (shr_fexp _ _ m e l) as [mrs1 e1].
  destruct (shr_fexp _ _ _ e1 _) as [mrs2 e2].
  destruct (shr_m mrs2); [done| |done]. by destruct (_ <=? _)%Z.
Qed.

Lemma binary_round_signed b m e : signed b (binary_round prec emax b m e).
Proof.
  unfold binary_round. destruct (shl_align _ _ _) as [mz ez].
  apply binary_round_aux_signed.
Qed.

Lemma SFdiv_signed b x my ey :
  signed b x → x ≠ S754_nan → signed b (SF64div x (S754_finite false my ey)).
Proof.
  destruct x as [c|c| |c m e]; cbn; intros Hc Hnan; try done.
  - by destruct c.
  - by destruct c.
  - subst c. unfold SFdiv.
    destruct (SFdiv_core_binary _ _ _ _ _ _) as [[mz ez] lz].
    replace (xorb b false) with b by by destruct b.
    apply binary_round_aux_signed.
Qed.

(** Thresholds: the rise threshold is positive, the drop threshold taken
    negative is negative. *)
Lemma rise_threshold_positive x :
  SFleb (Prim2SF PRICE_RISE_THRESHOLD) x = true →
  x = S754_infinity false ∨ ∃ m e, x = S754_finite false m e.
Proof.
  change (Prim2SF PRICE_RISE_THRESHOLD)
    with (S754_finite false 7205759403792794 (-56)).
  destruct x as [c|c| |c m e]; cbv beta iota delta [SFleb SFcompare];
    try done.
  - destruct c; [done|]. by left.
  - destruct c; [done|]. right. eauto.
Qed.

Lemma drop_threshold_negative x :
  SFleb x (Prim2SF (PrimFloat.opp PRICE_DROP_THRESHOLD)) = true →
  x = S754_infinity true ∨ ∃ m e, x = S754_finite true m e.
Proof.
  change (Prim2SF (PrimFloat.opp PRICE_DROP_THRESHOLD))
    with (S754_finite true 7205759403792794 (-57)).
  destruct x as [c|c| |c m e]; cbv beta iota delta [SFleb SFcompare];
    try done.
  - destruct c; [|done]. by left.
  - destruct c; [|done]. right. eauto.
Qed.

Lemma positive_spec b : SFltb (S754_zero false) b = true →
  b = S754_infinity false ∨ ∃ m e, b = S754_finite false m e.
Proof.
  destruct b as [c|c| |c m e]; cbn; try done.
  - destruct c; [done|]. by left.
  - destruct c; [done|]. right. eauto.
Qed.

(** The difference of two finite numbers, the second one positive. *)
Lemma SFsub_finite sp mp ep mb eb :
  let z := (cond_Zopp sp (Z.pos (shl_align mp ep (Z.min ep eb)).1)
            - Z.pos (shl_align mb eb (Z.min ep eb)).1)%Z in
  let d := SF64sub (S754_finite sp mp ep) (S754_finite false mb eb) in
  match z with
  | 0%Z => d = S754_zero false
  | Z.pos _ => signed false d
  | Z.neg _ => signed true d
  end.
Proof.
  cbn zeta. unfold SF64sub, SFsub. cbn [cond_Zopp].
  destruct (_ - _)%Z; cbn [binary_normalize]; [done|..];
    apply binary_round_signed.
Qed.

(** A change that reaches the rise threshold is the change of a price
    above the positive price it is measured against. *)
Lemma SF_rise_above (p b : spec_float) :
  valid_binary p = true → valid_binary b = true →
  SFltb (S754_zero false) b = true →
  SFleb (Prim2SF PRICE_RISE_THRESHOLD) (SF64div (SF64sub p b) b) = true →
  SFltb b p = true.
Proof.
  intros Hvp Hvb [->|(mb & eb & ->)]%positive_spec Hrise.
  { exfalso. apply rise_threshold_positive in Hrise.
    destruct p as [c|c| |c m e]; cbn in Hrise; try destruct c;
      destruct Hrise as [?|(? & ? & ?)]; done. }
  apply rise_threshold_positive in Hrise.
  assert (signed false (SF64div (SF64sub p (S754_finite false mb eb))
                                (S754_finite false mb eb)) ∧
          SF64div (SF64sub p (S754_finite false mb eb))
                  (S754_finite false mb eb) ≠ S754_nan ∧
          SF64div (SF64sub p (S754_finite false mb eb))
                  (S754_finite false mb eb) ≠ S754_zero false)
    as (Hsign & Hnan & Hzero).
  { destruct Hrise as [->|(m & e & ->)]; done. }
  clear Hrise.
  destruct p as [c|c| |sp mp ep].
  - exfalso. cbn in Hsign, Hnan.
    pose proof (binary_round_aux_signed true) as Haux.
    unfold SF64div, SFdiv in *. cbn in *.
    destruct (SFdiv_core_binary _ _ _ _ _ _) as [[mz ez] lz].
    specialize (Haux mz ez lz).
    destruct (binary_round_aux _ _ _ _ _ _); cbn in *; congruence.
  - cbn in Hsign. by destruct c.
  - done.
  - pose proof (SFsub_finite sp mp ep mb eb) as Hsub. cbn zeta in Hsub.
    destruct (_ - _)%Z as [|z|z] eqn:Hz.
    + rewrite Hsub in Hzero. done.
    + destruct sp.
      { cbn [cond_Zopp] in Hz. lia. }
      apply aligned_order; [done..|]. cbn [cond_Zopp] in Hz. lia.
    + exfalso.
      destruct (SF64sub _ _) as [c|c| |c m e] eqn:Hd; cbn in Hsub; subst.
      * by cbn in Hsign.
      * by cbn in Hsign.
      * by cbn in Hnan.
      * pose proof (SFdiv_signed true (S754_finite true m e) mb eb eq_refl)
          as Hs.
        specialize (Hs ltac:(done)).
        destruct (SF64div _ _); cbn in Hs, Hsign; congruence.
Qed.

(** A change that reaches the drop threshold is the change of a price
    below the positive price it is measured against. *)
Lemma SF_drop_below (p b : spec_float) :
  valid_binary p = true → valid_binary b = true →
  SFltb (S754_zero false) b = true →
  SFleb (SF64div (SF64sub p b) b)
        (Prim2SF (PrimFloat.opp PRICE_DROP_THRESHOLD)) = true →
  SFltb p b = true.
Proof.
  intros Hvp Hvb [->|(mb & eb & ->)]%positive_spec Hdrop.
  { exfalso. apply drop_threshold_negative in Hdrop.
    destruct p as [c|c| |c m e]; cbn in Hdrop; try destruct c;
      destruct Hdrop as [?|(? & ? & ?)]; done. }
  apply drop_threshold_negative in Hdrop.
  assert (signed true (SF64div (SF64sub p (S754_finite false mb eb))
                               (S754_finite false mb eb)) ∧
          SF64div (SF64sub p (S754_finite false mb eb))
                  (S754_finite false mb eb) ≠ S754_nan)
    as (Hsign & Hnan).
  { destruct Hdrop as [->|(m & e & ->)]; done. }
  clear Hdrop.
  destruct p as [c|c| |sp mp ep].
  - done.
  - cbn in Hsign. by destruct c.
  - done.
  - destruct sp; [done|].
    pose proof (SFsub_finite false mp ep mb eb) as Hsub. cbn zeta in Hsub.
    destruct (_ - _)%Z as [|z|z] eqn:Hz.
    + rewrite Hsub in Hsign. done.
    + exfalso.
      destruct (SF64sub _ _) as [c|c| |c m e] eqn:Hd; cbn in Hsub; subst.
      * by cbn in Hsign.
      * by cbn in Hsign.
      * by cbn in Hnan.
      * pose proof (SFdiv_signed false (S754_finite false m e) mb eb eq_refl)
          as Hs.
        specialize (Hs ltac:(done)).
        destruct (SF64div _ _); cbn in Hs, Hsign; congruence.
    + apply aligned_order; [done..|]. cbn [cond_Zopp] in Hz.
      rewrite (Z.min_comm eb ep). lia.
Qed.

Lemma rise_means_higher price base :
  PrimFloat.ltb 0 base = true →
  PrimFloat.leb PRICE_RISE_THRESHOLD
                (PrimFloat.div (PrimFloat.sub price base) base) = true →
  PrimFloat.ltb base price = true.
Proof.
  rewrite leb_spec, !ltb_spec, div_spec, sub_spec.
  change (Prim2SF 0) with (S754_zero false).
  apply SF_rise_above; apply Prim2SF_valid.
Qed.

Lemma drop_means_lower price base :
  PrimFloat.ltb 0 base = true →
  PrimFloat.leb (PrimFloat.div (PrimFloat.sub price base) base)
                (PrimFloat.opp PRICE_DROP_THRESHOLD) = true →
  PrimFloat.ltb price base = true.
Proof.
  rewrite leb_spec, !ltb_spec, div_spec, sub_spec.
  change (Prim2SF 0) with (S754_zero false).
  apply SF_drop_below; apply Prim2SF_valid.
Qed.

Section Further.
Context {W : Type} `{!Exchange W} `{!Libm}.
Implicit Types (s : store W) (coin : string) (price : float).
Implicit Types (items : dict float).

(** ** One turn of the main loop, step by step *)

Lemma check_coins_disk items s : disk (for_each check_coin items s).2 = disk s.
Proof.
  apply (for_each_invariant check_coin (λ s', disk s' = disk s)); [|done].
  intros [c p] s1 r s2 _ Hd Hstep.
  apply check_coin_sound, coin_step_focused in Hstep as (_ & -> & _). done.
Qed.

Lemma get_current_prices_from_keys coins acc s items s' :
  get_current_prices_from coins acc s = (Ok items, s') →
  ∀ c, c ∈ items.*1 → c ∈ acc.*1 ∨ c ∈ coins.
Proof.
  revert acc s. induction coins as [|coin coins IH]; intros acc s.
  { intros [= <- <-] c Hc. by left. }
  cbn [get_current_prices_from]. unfold bind, catch.
  destruct (fetch_last coin s) as [[last|e] s1]; intros Hrun c Hc.
  - destruct (IH _ _ Hrun c Hc) as [Hacc|Hin]; [|right; by right].
    rewrite dict_set_keys in Hacc. case_decide; [by left|].
    apply elem_of_app in Hacc as [?|Hone]; [by left|].
    apply list_elem_of_singleton in Hone as ->. right. left.
  - destruct (IH _ _ Hrun c Hc) as [Hacc|Hin]; [by left|right; by right].
Qed.

(** A turn of the main loop is a fetch of the prices, which leaves the
    records alone, a decision step, which leaves the disk alone, and the
    writing of the state file unless the decision step raised. *)
Lemma cycle_run s :
  ∃ items s1 r s2,
    get_current_prices COINS s = (Ok items, s1) ∧ same_records s s1 ∧
    NoDup items.*1 ∧ (∀ c, c ∈ items.*1 → c ∈ COINS) ∧
    check_trading_conditions items s1 = (r, s2) ∧ disk s2 = disk s ∧
    cycle s = match r with
              | Ok _ =>
                  (Ok tt, Store (st s2) (world s2) (orders s2)
                                (<[STATE_FILE := json_of_state (st s2)]> (disk s)))
              | Raise e => (Raise e, s2)
              end.
Proof.
  destruct (get_current_prices_from_total COINS [] s) as (items & s1 & Hg & Hs).
  destruct (check_trading_conditions items s1) as [r s2] eqn:Hrun.
  exists items, s1, r, s2. split; [done|]. split; [done|].
  split; [by eapply get_current_prices_from_NoDup, Hg; apply NoDup_nil_2|].
  split.
  { intros c Hc.
    destruct (get_current_prices_from_keys _ _ _ _ _ Hg c Hc) as [Hnil|?];
      [by apply elem_of_nil in Hnil|done]. }
  split; [done|].
  assert (disk s2 = disk s) as Hdisk.
  { pose proof (check_trading_conditions_store items s1) as Hst.
    rewrite Hrun in Hst. cbn [snd] in Hst. rewrite Hst, check_coins_disk.
    apply Hs. }
  split; [done|].
  unfold cycle, bind. fold (get_current_prices COINS).
  unfold get_current_prices. rewrite Hg, Hrun.
  destruct r as [t|e]; [|done].
  apply check_trading_conditions_state in Hrun as ->.
  unfold save_state. by rewrite Hdisk.
Qed.

(** A property of two stores that is reflexive and transitive, is kept by
    every decision turn for a coin, and does not look at the outside world
    and the disk, holds from the first store of a run of the main loop to
    its last. *)
Lemma cycles_invariant (R : store W → store W → Prop) :
  (∀ s, R s s) →
  (∀ s1 s2 s3, R s1 s2 → R s2 s3 → R s1 s3) →
  (∀ s s', st s' = st s → orders s' = orders s → R s s') →
  (∀ c price s r s', c ∈ COINS → coin_step c price s r s' → R s s') →
  ∀ n s, R s (cycles n s).2.
Proof.
  intros Hrefl Htrans Hrec Hstep.
  assert (∀ s, R s (cycle s).2) as Hcycle.
  { intros s.
    destruct (cycle_run s)
      as (items & s1 & r & s2 & _ & (Hst & Ho & _) & _ & Hkeys & Hrun & _ & ->).
    assert (R s1 s2) as H12.
    { pose proof (check_trading_conditions_store items s1) as Hs2.
      rewrite Hrun in Hs2. cbn [snd] in Hs2. rewrite Hs2.
      apply (for_each_invariant check_coin (R s1)); [|done].
      intros [c p] sa ra sb Hin Ha Hturn. eapply Htrans; [exact Ha|].
      eapply Hstep; [|by apply check_coin_sound].
      apply Hkeys, list_elem_of_fmap. by exists (c, p). }
    eapply Htrans; [by apply Hrec|]. eapply Htrans; [exact H12|].
    destruct r as [t|e]; [by apply Hrec|apply Hrefl]. }
  induction n as [|n IH]; intros s; [apply Hrefl|].
  cbn [cycles]. unfold bind.
  pose proof (Hcycle s) as H1.
  destruct (cycle s) as [[[]|e] s1]; [|done].
  eapply Htrans; [exact H1|apply IH].
Qed.

(** ** The position in a coin *)

Lemma replay_app coin h l h1 l' h2 :
  replay coin h l h1 → replay coin h1 l' h2 → replay coin h (l ++ l') h2.
Proof. induction 1; intros; cbn; [done|constructor; auto..]. Qed.

Lemma orders_for_one coin o : for_coin coin o → orders_for coin [o] = [o].
Proof. intros. apply orders_for_all. by apply Forall_singleton. Qed.

Lemma position_kept_refl coin s : position_kept coin s s.
Proof.
  exists []. rewrite app_nil_r. split; [done|]. split; [constructor|done].
Qed.

Lemma position_kept_trans coin s1 s2 s3 :
  position_kept coin s1 s2 → position_kept coin s2 s3 →
  position_kept coin s1 s3.
Proof.
  intros (n1 & Ho1 & Hr1 & Hb1) (n2 & Ho2 & Hr2 & Hb2).
  exists (n1 ++ n2). rewrite Ho2, Ho1, (assoc_L (++)). split; [done|]. split.
  - rewrite orders_for_app. by eapply replay_app.
  - intros [H1 H2]%Forall_app. rewrite Hb2, Hb1; done.
Qed.

Lemma position_kept_same coin s s' :
  orders s' = orders s →
  holdings (st s') !! coin = holdings (st s) !! coin →
  buy_prices (st s') !! coin = buy_prices (st s) !! coin →
  position_kept coin s s'.
Proof.
  intros Ho Hh Hb. exists []. rewrite app_nil_r. split; [done|].
  split; [|done]. rewrite Hh. constructor.
Qed.

Lemma quiet_position coin s s' : quiet coin s s' → position_kept coin s s'.
Proof.
  intros [(Hh & Hb & _)%asset_eq (new & Ho & Hf)].
  exists new. split; [done|]. split; [|done].
  rewrite (orders_for_none _ _ Hf), Hh. constructor.
Qed.

Lemma coin_step_position c price s r s' coin :
  coin_step c price s r s' → position_kept coin s s'.
Proof.
  intros Hstep. destruct (decide (c = coin)) as [->|Hne].
  2:{ apply quiet_position, (focused_quiet coin c); [done|].
      by eapply coin_step_focused. }
  destruct Hstep as [ | | ? ? ? ? ? Hflat ? ? Hbuy | | | | | ? ? ? ? ? ? ? Hheld ? ? ? Hsell | ];
    try (by apply position_kept_same).
  - destruct Hbuy as [e w1|a w1 e w2|a w1 w2].
    + by apply position_kept_same.
    + eexists. split; [done|]. split; [|done]. cbn [st].
      rewrite orders_for_one, Hflat by done.
      apply (replay_buy coin a false). constructor.
    + eexists. split; [done|]. split.
      * cbn [st bought holdings].
        rewrite orders_for_one, Hflat, lookup_insert_eq by done.
        apply (replay_buy coin a true). constructor.
      * intros Hnone%Forall_inv. exfalso. apply Hnone. by split.
  - destruct Hsell as [e w1|w1].
    + eexists. split; [done|]. split; [|done]. cbn [st].
      rewrite orders_for_one, Hheld by done.
      apply (replay_sell coin amount false). constructor.
    + eexists. split; [done|]. split.
      * cbn [st sold holdings].
        rewrite orders_for_one, Hheld, lookup_delete_eq by done.
        apply (replay_sell coin amount true). constructor.
      * intros Hnone%Forall_inv. exfalso. apply Hnone. by split.
Qed.

Lemma check_coins_position items s coin :
  position_kept coin s (for_each check_coin items s).2.
Proof.
  apply (for_each_invariant check_coin (position_kept coin s));
    [|apply position_kept_refl].
  intros [c p] s1 r s2 _ Hp Hstep.
  eapply position_kept_trans; [exact Hp|].
  eapply coin_step_position, check_coin_sound, Hstep.
Qed.

Lemma cycles_position n s coin : position_kept coin s (cycles n s).2.
Proof.
  apply (cycles_invariant (position_kept coin)).
  - apply position_kept_refl.
  - apply position_kept_trans.
  - intros s1 s2 Hst Ho. apply position_kept_same; [done|by rewrite Hst..].
  - intros c price s1 r s2 _. apply coin_step_position.
Qed.

Lemma position_kept_placed coin s s' :
  position_kept coin s s' →
  replay coin (holdings (st s) !! coin) (orders_for coin (placed_during s s'))
         (holdings (st s') !! coin) ∧
  ((∀ o, (o, true) ∈ placed_during s s' → order_symbol o ≠ symbol_of coin) →
   holdings (st s') !! coin = holdings (st s) !! coin ∧
   buy_prices (st s') !! coin = buy_prices (st s) !! coin).
Proof.
  intros (new & Ho & Hr & Hb). rewrite (placed_during_app _ _ _ Ho).
  split; [done|]. intros Hnone.
  assert (Forall (λ o, ¬ accepted_for coin o) new) as Hf.
  { apply Forall_forall. intros [o []] Hin [Hfor Hacc]; [|done].
    by apply (Hnone o). }
  split; [|by apply Hb].
  clear Ho Hb Hnone. revert Hf.
  assert (∀ l, Forall (λ o, ¬ accepted_for coin o) l →
               Forall (λ o, o.2 = false) (orders_for coin l)) as Hfilter.
  { intros l Hl. apply Forall_forall. intros [o b] [Hfor Hin]%elem_of_orders_for.
    rewrite Forall_forall in Hl. specialize (Hl _ Hin).
    destruct b; [|done]. by destruct Hl. }
  intros Hf%Hfilter. revert Hf.
  induction Hr as [h|a accepted log h' _ IH|a accepted log h' _ IH];
    [done|..]; intros [Hacc Hf]%Forall_cons; cbn in Hacc; subst accepted;
    by apply IH.
Qed.

(** ** The orders of a run *)

Lemma placed_within_refl coins s : placed_within coins 0 s s.
Proof. exists []. by rewrite app_nil_r. Qed.

Lemma placed_within_trans coins n m s1 s2 s3 :
  placed_within coins n s1 s2 → placed_within coins m s2 s3 →
  placed_within coins (n + m) s1 s3.
Proof.
  intros (n1 & Ho1 & Hl1 & Hf1) (n2 & Ho2 & Hl2 & Hf2).
  exists (n1 ++ n2). rewrite Ho2, Ho1, (assoc_L (++)). split; [done|].
  split; [rewrite length_app; lia|by apply Forall_app].
Qed.

Lemma placed_within_weaken coins coins' n m s s' :
  coins ⊆ coins' → n ≤ m →
  placed_within coins n s s' → placed_within coins' m s s'.
Proof.
  intros Hsub Hle (new & Ho & Hl & Hf). exists new.
  split; [done|]. split; [lia|].
  eapply Forall_impl; [exact Hf|]. intros o Ho'.
  apply list_elem_of_fmap in Ho' as (c & -> & Hc).
  apply list_elem_of_fmap. exists c. split; [done|by apply Hsub].
Qed.

Lemma coin_step_placed_within coin price s r s' :
  coin_step coin price s r s' → placed_within [coin] 1 s s'.
Proof.
  intros Hstep.
  destruct (focused_placed coin s s') as [Ho Hf];
    [by eapply coin_step_focused|].
  exists (placed_during s s'). split; [done|]. split.
  - apply coin_step_placed in Hstep.
    destruct (placed_during s s') as [|o1 [|o2 l]]; cbn; [lia..|].
    by destruct o1 as [[] []].
  - eapply Forall_impl; [exact Hf|]. intros o Hfor.
    apply list_elem_of_fmap. exists coin. split; [done|by left].
Qed.

Lemma check_coins_placed_within items s :
  placed_within items.*1 (length items) s (for_each check_coin items s).2.
Proof.
  revert s. induction items as [|[c p] items IH]; intros s.
  { apply placed_within_refl. }
  cbn [for_each]. unfold bind.
  destruct (check_coin (c, p) s) as [r1 s1] eqn:Hturn.
  apply check_coin_sound, coin_step_placed_within in Hturn.
  assert (placed_within ((c, p) :: items).*1 1 s s1) as H1.
  { eapply placed_within_weaken; [|done|exact Hturn].
    intros x ->%list_elem_of_singleton. rewrite fmap_cons. by left. }
  destruct r1 as [[]|e]; cbn [snd].
  - apply (placed_within_trans _ 1 (length items) s s1); [done|].
    eapply placed_within_weaken; [|done|apply IH].
    intros x Hx. rewrite fmap_cons. by right.
  - eapply placed_within_weaken; [done| |exact H1]. cbn. lia.
Qed.

Lemma cycle_placed_within s : placed_within COINS (length COINS) s (cycle s).2.
Proof.
  destruct (cycle_run s)
    as (items & s1 & r & s2 & _ & (Hst & Ho & _) & Hnd & Hkeys & Hrun & _ & ->).
  pose proof (check_coins_placed_within items s1) as (new & Hnew & Hlen & Hf).
  rewrite <- check_trading_conditions_store, Hrun in Hnew. cbn [snd] in Hnew.
  exists new. split.
  { destruct r; cbn [snd orders]; congruence. }
  split.
  - etrans; [exact Hlen|]. rewrite <- (length_fmap fst).
    apply submseteq_length, NoDup_submseteq; [done|].
    intros c Hc. by apply Hkeys.
  - eapply Forall_impl; [exact Hf|]. intros o Ho'.
    apply list_elem_of_fmap in Ho' as (c & -> & Hc).
    apply list_elem_of_fmap. exists c. split; [done|by apply Hkeys].
Qed.

Lemma cycles_placed_within n s :
  placed_within COINS (n * length COINS) s (cycles n s).2.
Proof.
  revert s. induction n as [|n IH]; intros s; [apply placed_within_refl|].
  cbn [cycles]. unfold bind.
  pose proof (cycle_placed_within s) as H1.
  destruct (cycle s) as [[[]|e] s1]; cbn [snd] in *.
  - change (S n * length COINS) with (length COINS + n * length COINS).
    by eapply placed_within_trans.
  - eapply placed_within_weaken; [done| |exact H1]. lia.
Qed.

Lemma coin_step_at_most_one coin price s r s' :
  coin_step coin price s r s' → length (placed_during s s') ≤ 1.
Proof.
  intros Hstep%coin_step_placed.
  destruct (placed_during s s') as [|o1 [|o2 l]]; cbn; [lia..|].
  by destruct o1 as [[] []].
Qed.

(** X1. The order log replays the position.  Over a decision step, and over
    any number of turns of the main loop, the orders for a coin in the log,
    replayed from the holding at the start, end in the holding at the end:
    every buy order was placed without a holding and, if accepted, made its
    amount the holding; every sell order was placed for the whole holding
    and, if accepted, left none. *)
Theorem position_replay :
  (∀ items s coin,
     replay coin (holdings (st s) !! coin)
       (orders_for coin (placed_during s (check_trading_conditions items s).2))
       (holdings (st (check_trading_conditions items s).2) !! coin)) ∧
  (∀ n s coin,
     replay coin (holdings (st s) !! coin)
       (orders_for coin (placed_during s (cycles n s).2))
       (holdings (st (cycles n s).2) !! coin)).
Proof.
  split.
  - intros items s coin. rewrite check_trading_conditions_store.
    apply position_kept_placed, check_coins_position.
  - intros n s coin. apply position_kept_placed, cycles_position.
Qed.

(** X2. Holdings change by accepted orders only.  Over any number of turns
    of the main loop in which the exchange accepted no order for a coin,
    the coin's holding and buy price are at the end what they were at the
    start. *)
Theorem no_accepted_order_no_change :
  ∀ n s coin,
    (∀ o, (o, true) ∈ placed_during s (cycles n s).2 →
          order_symbol o ≠ symbol_of coin) →
    holdings (st (cycles n s).2) !! coin = holdings (st s) !! coin ∧
    buy_prices (st (cycles n s).2) !! coin = buy_prices (st s) !! coin.
Proof.
  intros n s coin. apply position_kept_placed, cycles_position.
Qed.

(** X3. The orders of a decision step.  A decision step places at most one
    order for each item of the price dictionary, every order is for the
    USDT pair of a coin of the dictionary, and no coin gets two orders. *)
Theorem orders_of_a_step :
  ∀ items s,
    length (placed_during s (check_trading_conditions items s).2)
      ≤ length items ∧
    (∀ o, o ∈ placed_during s (check_trading_conditions items s).2 →
          ∃ coin price, (coin, price) ∈ items ∧
                        order_symbol o.1 = symbol_of coin) ∧
    (NoDup items.*1 →
     ∀ coin,
       length (orders_for coin
                 (placed_during s (check_trading_conditions items s).2)) ≤ 1).
Proof.
  intros items s.
  pose proof (check_coins_placed_within items s) as (new & Ho & Hlen & Hf).
  split; [|split].
  - by rewrite check_trading_conditions_store, (placed_during_app _ _ _ Ho).
  - rewrite check_trading_conditions_store, (placed_during_app _ _ _ Ho).
    intros o Hin. rewrite Forall_forall in Hf.
    apply Hf, list_elem_of_fmap in Hin as (c & Hsym & Hc).
    apply list_elem_of_fmap in Hc as ([c' p] & -> & Hin'). by exists c', p.
  - intros Hnodup coin.
    destruct (decide (coin ∈ items.*1)) as [Hin|Hnotin].
    + apply list_elem_of_fmap in Hin as ([c p] & -> & Hin). cbn [fst].
      destruct (check_trading_conditions items s) as [r s'] eqn:Hrun.
      cbn [snd].
      destruct (decision_focus _ _ _ _ _ _ Hnodup Hin Hrun)
        as [(_ & _ & Hlog)|(s1 & r1 & s2 & _ & Hstep & _ & Hlog & _)];
        rewrite Hlog; [cbn; lia|].
      eapply coin_step_at_most_one, check_coin_sound, Hstep.
    + rewrite check_trading_conditions_store.
      rewrite (quiet_placed _ _ _ (check_coins_quiet coin items s Hnotin)).
      cbn. lia.
Qed.

(** X4. The bot trades the monitored pairs only.  Over [n] turns of the
    main loop at most six orders a turn are placed, and every order is for
    the USDT pair of one of the six monitored coins. *)
Theorem only_monitored_pairs_traded :
  ∀ n s,
    length (placed_during s (cycles n s).2) ≤ n * 6 ∧
    ∀ o accepted,
      (o, accepted) ∈ placed_during s (cycles n s).2 →
      order_symbol o ∈ ["BTC/USDT"; "TON/USDT"; "ETH/USDT"; "XRP/USDT";
                        "ADA/USDT"; "DOGE/USDT"].
Proof.
  intros n s.
  destruct (cycles_placed_within n s) as (new & Ho & Hlen & Hf).
  rewrite (placed_during_app _ _ _ Ho). split; [exact Hlen|].
  intros o accepted Hin. rewrite Forall_forall in Hf.
  apply (Hf _ Hin).
Qed.

(** ** Errors that end a decision step *)

Lemma check_coin_raises coin price s e s' :
  check_coin (coin, price) s = (Raise e, s') →
  s' = s ∧
  ((e = ZeroDivisionError ∧
    ∃ x, is_zero x = true ∧
         ((holdings (st s) !! coin = None ∧
           reference_prices (st s) !! coin = Some x) ∨
          (is_Some (holdings (st s) !! coin) ∧
           buy_prices (st s) !! coin = Some x))) ∨
   (e = KeyError coin ∧ is_Some (holdings (st s) !! coin) ∧
    buy_prices (st s) !! coin = None)).
Proof.
  intros Hstep%check_coin_sound. inversion Hstep; subst.
  - split; [done|]. left. split; [done|]. eauto 10.
  - split; [done|]. right. eauto.
  - split; [done|]. left. split; [done|]. eauto 10.
Qed.


(** X6. A turn that raises ends the decision step.  When the turn of a coin
    raises, the decision step raises the same error with the store as it
    was before that turn, and the coins after it in the price dictionary
    have had no turn: their records are those of the start, and no order
    was placed for them. *)
Theorem turn_error_ends_step :
  ∀ pre coin price post s t s1 e s2,
    NoDup (pre ++ (coin, price) :: post).*1 →
    check_trading_conditions pre s = (Ok t, s1) →
    check_coin (coin, price) s1 = (Raise e, s2) →
    check_trading_conditions (pre ++ (coin, price) :: post) s = (Raise e, s1) ∧
    ∀ c, c ∈ post.*1 →
      asset (st s1) c = asset (st s) c ∧
      orders_for c (placed_during s s1) = [].
Proof.
  intros pre coin price post s t s1 e s2 Hnodup Hpre Hturn.
  destruct (check_coin_raises _ _ _ _ _ Hturn) as [-> _].
  rewrite check_trading_conditions_eq in Hpre.
  destruct (for_each check_coin pre s) as [[[]|e0] s0] eqn:Hloop; [|done].
  injection Hpre as _ <-. split.
  - rewrite check_trading_conditions_eq, for_each_app, Hloop.
    cbn [for_each]. unfold bind. by rewrite Hturn.
  - intros c Hc.
    rewrite fmap_app in Hnodup. apply NoDup_app in Hnodup as (_ & Hdisj & _).
    assert (c ∉ pre.*1) as Hnotin.
    { intros Hin. apply (Hdisj c Hin). rewrite fmap_cons. by right. }
    pose proof (check_coins_quiet c pre s Hnotin) as Hq.
    rewrite Hloop in Hq. cbn [snd] in Hq.
    split; [apply Hq|by apply quiet_placed].
Qed.

(** ** Orders that are not placed *)

Lemma buy_zero_price coin price s :
  is_zero price = true → buy coin price s = (Raise ZeroDivisionError, s).
Proof.
  intros Hz. unfold buy, bind, lift.
  rewrite float_of_int_AMOUNT_TO_BUY. cbn [mbind result_bind].
  unfold PyNum.float_truediv. unfold is_zero in Hz. by rewrite Hz.
Qed.

Lemma check_coin_drop coin price s ref change :
  holdings (st s) !! coin = None →
  reference_prices (st s) !! coin = Some ref →
  price_change price ref = Ok change →
  PrimFloat.leb change (PrimFloat.opp PRICE_DROP_THRESHOLD) = true →
  check_coin (coin, price) s = (Ok tt, (buy coin price s).2).
Proof.
  intros Hflat Href Hchange Hdrop.
  by rewrite (check_coin_flat _ _ _ _ Href Hflat), Hchange, Hdrop.
Qed.

(** X7. Without the market's precision there is no order.  When the price
    of a coin without a holding has fallen by the threshold, and the
    exchange fails to load its markets, or does not list the coin's USDT
    pair, or lists it without an amount precision, the turn returns with
    the state as it was and without an order. *)
Theorem unlisted_market_places_no_order :
  ∀ s coin price reference_price change,
    holdings (st s) !! coin = None →
    reference_prices (st s) !! coin = Some reference_price →
    price_change price reference_price = Ok change →
    PrimFloat.leb change (PrimFloat.opp PRICE_DROP_THRESHOLD) = true →
    is_zero price = false →
    (∀ e w1,
       load_markets (world s) = (Raise e, w1) →
       check_coin (coin, price) s
         = (Ok tt, Store (st s) w1 (orders s) (disk s))) ∧
    (∀ markets w1,
       load_markets (world s) = (Ok markets, w1) →
       markets !! symbol_of coin = None →
       check_coin (coin, price) s
         = (Ok tt, Store (st s) w1 (orders s) (disk s))) ∧
    (∀ markets w1 market,
       load_markets (world s) = (Ok markets, w1) →
       markets !! symbol_of coin = Some market →
       precision market !! "amount" = None →
       check_coin (coin, price) s
         = (Ok tt, Store (st s) w1 (orders s) (disk s))).
Proof.
  intros s coin price ref change Hflat Href Hchange Hdrop Hz.
  rewrite (check_coin_drop _ _ _ _ _ Hflat Href Hchange Hdrop).
  unfold buy, bind, lift, call_load_markets, getitem.
  rewrite float_of_int_AMOUNT_TO_BUY. cbn [mbind result_bind].
  unfold PyNum.float_truediv. unfold is_zero in Hz. rewrite Hz.
  split; [|split].
  - intros e w1 ->. done.
  - intros markets w1 -> Hnone. cbn [st world orders disk]. by rewrite Hnone.
  - intros markets w1 market -> Hsome Hnone. cbn [st world orders disk].
    by rewrite Hsome, Hnone.
Qed.

(** ** The prices of a turn *)

Lemma dict_set_elem {V} (key : string) (v : V) (d : dict V) x :
  x ∈ dict_set key v d → x = (key, v) ∨ x ∈ d.
Proof.
  induction d as [|[k w] d IH]; cbn [dict_set].
  { intros ->%list_elem_of_singleton. by left. }
  destruct (decide (k = key)) as [->|Hne].
  - intros [->|Hin]%elem_of_cons; [by left|right; by right].
  - intros [->|Hin]%elem_of_cons; [right; by left|].
    destruct (IH Hin) as [?|?]; [by left|right; by right].
Qed.


Lemma fetch_last_quoted coin s price s' :
  fetch_last coin s = (Ok price, s') → quoted coin price.
Proof.
  unfold fetch_last, bind, call_fetch_ticker, lift, getitem.
  destruct (fetch_ticker (symbol_of coin) (world s)) as [[t|e] w] eqn:Hfetch;
    cbn; [|done].
  destruct (_ !! "last") as [p|] eqn:Hlast; [|done].
  intros [= <- <-]. by exists (world s), t, w.
Qed.

Lemma get_current_prices_from_quoted coins acc s items s' :
  (∀ coin price, (coin, price) ∈ acc → quoted coin price) →
  get_current_prices_from coins acc s = (Ok items, s') →
  ∀ coin price, (coin, price) ∈ items → quoted coin price.
Proof.
  revert acc s. induction coins as [|c coins IH]; intros acc s Hacc.
  { by intros [= <- <-]. }
  cbn [get_current_prices_from]. unfold bind, catch.
  destruct (fetch_last c s) as [[last|e] s1] eqn:Hfetch.
  - apply IH. intros coin price [[= -> ->]|Hin]%dict_set_elem; [|by apply Hacc].
    by eapply fetch_last_quoted.
  - by apply IH.
Qed.

Lemma get_current_prices_sublist coins s items s' :
  NoDup coins → get_current_prices coins s = (Ok items, s') →
  items.*1 `sublist_of` coins.
Proof.
  unfold get_current_prices.
  revert s items s'. induction coins as [|c coins IH]; intros s items s' Hnd.
  { by intros [= <- <-]. }
  apply NoDup_cons in Hnd as [Hc Hnd].
  cbn [get_current_prices_from]. unfold bind, catch.
  destruct (fetch_last c s) as [[last|e] s1].
  - cbn [dict_set]. intros Hrun.
    destruct (get_current_prices_from_total coins [] s1)
      as (rest & s2 & Hrest & _).
    destruct (get_current_prices_from_acc coins [(c, last)] s1 rest s2 Hnd)
      as [Hall _]; [|done|].
    { intros x Hx ->%list_elem_of_singleton. done. }
    rewrite Hall in Hrun. injection Hrun as <- <-.
    cbn. apply sublist_skip. by eapply IH.
  - intros Hrun. apply sublist_cons. by eapply IH.
Qed.


(** X9. A fetched price gets its place.  When the fetch for one of the
    coins, none of which repeats, returns a price, the dictionary returned
    holds the prices collected before it, then this price for this coin,
    then the prices collected after it. *)
Theorem fetched_price_is_recorded :
  ∀ pre coin post s items1 s1 price s2,
    NoDup (pre ++ coin :: post) →
    get_current_prices pre s = (Ok items1, s1) →
    fetch_last coin s1 = (Ok price, s2) →
    ∃ items2 s3,
      get_current_prices post s2 = (Ok items2, s3) ∧
      get_current_prices (pre ++ coin :: post) s
        = (Ok (items1 ++ (coin, price) :: items2), s3).
Proof.
  intros pre coin post s items1 s1 price s2 Hnd Hpre Hfetch.
  apply NoDup_app in Hnd as (Hndpre & Hdisj & Hndpost).
  apply NoDup_cons in Hndpost as [Hcoin Hndpost].
  destruct (get_current_prices_from_total post [] s2)
    as (items2 & s3 & Hpost & _).
  exists items2, s3. split; [done|].
  destruct (get_current_prices_from_acc pre [] s items1 s1) as [_ Hk1];
    [done|by intros c _ ?%elem_of_nil|done|].
  assert (coin ∉ items1.*1) as Hfresh.
  { intros Hin. apply (Hdisj coin); [by apply Hk1|by left]. }
  destruct (get_current_prices_from_acc post (items1 ++ [(coin, price)])
              s2 items2 s3) as [Hall _]; [done| |done|].
  { intros c Hc. rewrite fmap_app. intros [Hc1|Hc1]%elem_of_app.
    - apply (Hdisj c); [by apply Hk1|by right].
    - apply list_elem_of_singleton in Hc1 as ->. done. }
  unfold get_current_prices at 1.
  rewrite get_current_prices_from_app.
  fold (get_current_prices pre). rewrite Hpre.
  cbn [get_current_prices_from]. unfold bind, catch. rewrite Hfetch.
  rewrite dict_set_fresh by done. rewrite Hall.
  by rewrite <- (assoc_L (++)).
Qed.

(** ** The start of the program *)

Lemma for_each_set_reference_price (items : dict float) s :
  for_each (λ item, set_reference_price item.1 item.2) items s =
    (Ok tt,
     Store (State (holdings (st s)) (buy_prices (st s))
                  (foldl (λ m item, <[item.1 := item.2]> m)
                         (reference_prices (st s)) items))
           (world s) (orders s) (disk s)).
Proof.
  revert s. induction items as [|[c p] items IH]; intros s.
  { by destruct s as [[h b r] w o d]. }
  cbn [for_each]. unfold bind, set_reference_price at 1. by rewrite IH.
Qed.

Lemma foldl_insert_list_to_map (items : dict float) :
  NoDup items.*1 →
  foldl (λ (m : gmap string float) item, <[item.1 := item.2]> m) ∅ items
    = list_to_map items.
Proof.
  induction items as [|[c p] items IH] using rev_ind; [done|].
  rewrite fmap_app. intros [Hnd [Hdisj _]]%NoDup_app.
  rewrite foldl_app, list_to_map_snoc, IH; [done..|].
  intros Hin. apply (Hdisj c Hin). by left.
Qed.

Lemma bootstrap_run s :
  if decide (reference_prices (st s) = ∅) then
    ∃ items s1,
      get_current_prices COINS s = (Ok items, s1) ∧
      bootstrap s =
        (Ok tt,
         Store (State (holdings (st s)) (buy_prices (st s)) (list_to_map items))
               (world s1) (orders s)
               (<[STATE_FILE :=
                    json_of_state (State (holdings (st s)) (buy_prices (st s))
                                         (list_to_map items))]> (disk s)))
  else bootstrap s = (Ok tt, s).
Proof.
  unfold bootstrap, bind, get_state. cbn [st].
  destruct (decide (reference_prices (st s) = ∅)) as [Hempty|Hne]; [|done].
  destruct (get_current_prices_from_total COINS [] s)
    as (items & s1 & Hg & (Hst & Ho & Hd)).
  exists items, s1. split; [done|].
  fold (get_current_prices COINS). unfold get_current_prices. rewrite Hg.
  rewrite for_each_set_reference_price. unfold save_state. cbn [st world orders disk].
  rewrite Hst, Ho, Hd, Hempty, foldl_insert_list_to_map; [done|].
  eapply get_current_prices_from_NoDup, Hg. apply NoDup_nil_2.
Qed.

(** X10. The first prices become the reference prices.  With a reference
    price on record the start of [main] fetches nothing and changes
    nothing.  With none, it fetches the prices of the monitored coins,
    records each price fetched as the coin's reference price, leaves
    holdings and buy prices alone, places no order, and writes the state to
    the state file. *)
Theorem bootstrap_takes_first_prices :
  ∀ s,
    (reference_prices (st s) ≠ ∅ → bootstrap s = (Ok tt, s)) ∧
    (reference_prices (st s) = ∅ →
     ∃ items s1 s',
       get_current_prices COINS s = (Ok items, s1) ∧
       bootstrap s = (Ok tt, s') ∧
       (∀ coin price,
          reference_prices (st s') !! coin = Some price ↔ (coin, price) ∈ items) ∧
       holdings (st s') = holdings (st s) ∧
       buy_prices (st s') = buy_prices (st s) ∧
       world s' = world s1 ∧ orders s' = orders s ∧
       disk s' = <[STATE_FILE := json_of_state (st s')]> (disk s)).
Proof.
  intros s. pose proof (bootstrap_run s) as Hrun.
  destruct (decide (reference_prices (st s) = ∅)) as [Hempty|Hne];
    split; try done.
  intros _. destruct Hrun as (items & s1 & Hg & ->).
  exists items, s1. eexists. split; [done|]. split; [done|].
  cbn [st world orders disk holdings buy_prices reference_prices].
  split; [|done].
  intros coin price. symmetry. apply elem_of_list_to_map.
  eapply get_current_prices_from_NoDup, Hg. apply NoDup_nil_2.
Qed.

(** ** The state file *)

Lemma load_state_saved (t : state) s :
  disk s !! STATE_FILE = Some (json_of_state t) → load_state s = (Ok t, s).
Proof.
  intros Hfile. unfold load_state. by rewrite Hfile, state_of_json_of_state.
Qed.

(** X11. A turn of the main loop writes the state file, unless it raises.
    After a turn that returns, the state file holds the state, so that
    loading it gives the state back, and nothing else on the disk has
    changed; a turn that raises has not written to the disk. *)
Theorem turn_saves_state :
  ∀ s r s',
    cycle s = (r, s') →
    match r with
    | Ok _ =>
        disk s' = <[STATE_FILE := json_of_state (st s')]> (disk s) ∧
        load_state s' = (Ok (st s'), s')
    | Raise _ => disk s' = disk s
    end.
Proof.
  intros s r s'.
  destruct (cycle_run s)
    as (items & s1 & r1 & s2 & _ & _ & _ & _ & _ & Hdisk & ->).
  destruct r1 as [t|e]; intros [= <- <-]; [|done].
  split; [done|]. apply load_state_saved. cbn [disk st].
  by rewrite lookup_insert_eq.
Qed.

Lemma startup_run s :
  match load_state s with
  | (Ok t, _) =>
      startup s = bootstrap (Store t (world s) (orders s) (disk s))
  | (Raise e, _) => startup s = (Raise e, s)
  end.
Proof.
  unfold startup, bind, load_state, put_state.
  destruct (disk s !! STATE_FILE) as [document|]; [|done].
  by destruct (state_of_json document).
Qed.

Lemma bootstrap_returns s : (bootstrap s).1 = Ok tt.
Proof.
  pose proof (bootstrap_run s) as Hrun. case_decide.
  - by destruct Hrun as (items & s1 & _ & ->).
  - by rewrite Hrun.
Qed.

Lemma main_run n s :
  main n s =
    match startup s with
    | (Ok _, s0) =>
        let s1 := (cycles n s0).2 in
        (Ok tt, Store (st s1) (world s1) (orders s1)
                      (<[STATE_FILE := json_of_state (st s1)]> (disk s1)))
    | (Raise e, s0) => (Raise e, s0)
    end.
Proof.
  unfold main, startup, bind, catch, get_state, save_state.
  destruct (load_state s) as [[t|e] sa]; [|done].
  destruct (put_state t sa) as [[[]|e] sb]; [|done].
  destruct (bootstrap sb) as [[[]|e] s0]; [|done].
  by destruct (cycles n s0) as [r s1].
Qed.

(** X12. [main] leaves the final state in the state file.  When the state
    file is absent or holds a state, [main] stopped after any number of
    turns returns, whether or not a turn raised, and the state file then
    holds the state it ended with: loading it gives that state back. *)
Theorem main_saves_final_state :
  ∀ n s t,
    (load_state s).1 = Ok t →
    ∃ s', main n s = (Ok tt, s') ∧
          disk s' !! STATE_FILE = Some (json_of_state (st s')) ∧
          load_state s' = (Ok (st s'), s').
Proof.
  intros n s t. rewrite main_run. pose proof (startup_run s) as Hstart.
  destruct (load_state s) as [[t'|e] sa]; cbn [fst]; [|done].
  intros _. rewrite Hstart.
  pose proof (bootstrap_returns (Store t' (world s) (orders s) (disk s)))
    as Hb.
  destruct (bootstrap _) as [r s0]. cbn [fst] in Hb. subst r.
  eexists. split; [done|]. cbn [disk st].
  assert (∀ d : gmap string json,
            <[STATE_FILE := json_of_state (st (cycles n s0).2)]> d
              !! STATE_FILE
            = Some (json_of_state (st (cycles n s0).2))) as Hfile
    by (intros d; apply lookup_insert_eq).
  split; [apply Hfile|]. apply load_state_saved, Hfile.
Qed.

(** ** The prices on record *)

Lemma coin_step_prices coin price s r s' :
  coin_step coin price s r s' →
  (reference_prices (st s') !! coin = reference_prices (st s) !! coin ∨
   reference_prices (st s') !! coin = Some price) ∧
  (buy_prices (st s') !! coin = buy_prices (st s) !! coin ∨
   buy_prices (st s') !! coin = None ∨
   buy_prices (st s') !! coin = Some price).
Proof.
  destruct 1;
    repeat match goal with
           | H : buy_step _ _ _ _ _ |- _ => destruct H
           | H : sell_step _ _ _ _ _ _ |- _ => destruct H
           end;
    cbn; rewrite ?lookup_insert_eq, ?lookup_delete_eq; auto.
Qed.

(** X13. Only observed prices are recorded.  After a decision step over a
    price dictionary, the reference price of a coin is the one on record
    before or the coin's price in the dictionary; and its buy price is the
    one on record before, or none, or the coin's price in the
    dictionary. *)
Theorem only_observed_prices_recorded :
  ∀ items s coin,
    NoDup items.*1 →
    (reference_prices (st (check_trading_conditions items s).2) !! coin
       = reference_prices (st s) !! coin ∨
     ∃ price, (coin, price) ∈ items ∧
       reference_prices (st (check_trading_conditions items s).2) !! coin
         = Some price) ∧
    (buy_prices (st (check_trading_conditions items s).2) !! coin
       = buy_prices (st s) !! coin ∨
     buy_prices (st (check_trading_conditions items s).2) !! coin = None ∨
     ∃ price, (coin, price) ∈ items ∧
       buy_prices (st (check_trading_conditions items s).2) !! coin
         = Some price).
Proof.
  intros items s coin Hnodup.
  destruct (decide (coin ∈ items.*1)) as [Hin|Hnotin].
  - apply list_elem_of_fmap in Hin as ([c price] & -> & Hin). cbn [fst].
    destruct (check_trading_conditions items s) as [r s'] eqn:Hrun.
    cbn [snd].
    destruct (decision_focus _ _ _ _ _ _ Hnodup Hin Hrun)
      as [(_ & Ha & _)|(s1 & r1 & s2 & Ha1 & Hstep & Ha2 & _)].
    + apply asset_eq in Ha as (_ & -> & ->). auto.
    + apply asset_eq in Ha1 as (_ & Hb1 & Hr1).
      apply asset_eq in Ha2 as (_ & -> & ->). rewrite <- Hb1, <- Hr1.
      apply check_coin_sound, coin_step_prices in Hstep as [Href Hbuy].
      split.
      * destruct Href as [?|?]; [by left|right; by exists price].
      * destruct Hbuy as [?|[?|?]]; [by left|right; by left|].
        right. right. by exists price.
  - rewrite check_trading_conditions_store.
    destruct (check_coins_quiet coin items s Hnotin) as [Ha _].
    apply asset_eq in Ha as (_ & -> & ->). auto.
Qed.

(** ** The price of an order *)

Lemma price_change_value price base change :
  price_change price base = Ok change →
  change = PrimFloat.div (PrimFloat.sub price base) base.
Proof.
  unfold price_change, PyNum.float_truediv.
  destruct (PrimFloat.eqb base 0); [done|]. by intros [= <-].
Qed.

Lemma coin_step_order coin price s r s' o accepted :
  coin_step coin price s r s' → (o, accepted) ∈ placed_during s s' →
  (∃ amount reference_price change,
     o = MarketBuy (symbol_of coin) amount ∧
     holdings (st s) !! coin = None ∧
     reference_prices (st s) !! coin = Some reference_price ∧
     price_change price reference_price = Ok change ∧
     PrimFloat.leb change (PrimFloat.opp PRICE_DROP_THRESHOLD) = true) ∨
  (∃ amount buy_price change,
     o = MarketSell (symbol_of coin) amount ∧
     holdings (st s) !! coin = Some amount ∧
     buy_prices (st s) !! coin = Some buy_price ∧
     price_change price buy_price = Ok change ∧
     PrimFloat.leb PRICE_RISE_THRESHOLD change = true).
Proof.
  intros Hstep Hin.
  destruct Hstep;
    repeat match goal with
           | H : buy_step _ _ _ _ _ |- _ => destruct H
           | H : sell_step _ _ _ _ _ _ |- _ => destruct H
           end;
    first [ rewrite placed_during_same in Hin by reflexivity
          | erewrite placed_during_app in Hin by reflexivity ];
    try (by apply elem_of_nil in Hin);
    apply list_elem_of_singleton in Hin; injection Hin as -> ->;
    eauto 12.
Qed.

(** X14. A sell is above the buy price.  In the turn of a coin that is held
    at a positive buy price, an order, accepted or not, is a sell order
    for the whole holding at a price above the buy price; and so is every
    sell order for the coin in a decision step. *)
Theorem sells_only_above_buy_price :
  (∀ s coin price amount buy_price r s' o accepted,
     holdings (st s) !! coin = Some amount →
     buy_prices (st s) !! coin = Some buy_price →
     PrimFloat.ltb 0 buy_price = true →
     check_coin (coin, price) s = (r, s') →
     (o, accepted) ∈ placed_during s s' →
     o = MarketSell (symbol_of coin) amount ∧
     PrimFloat.ltb buy_price price = true) ∧
  (∀ items s coin price buy_price r s' amount accepted,
     NoDup items.*1 → (coin, price) ∈ items →
     buy_prices (st s) !! coin = Some buy_price →
     PrimFloat.ltb 0 buy_price = true →
     check_trading_conditions items s = (r, s') →
     (MarketSell (symbol_of coin) amount, accepted) ∈ placed_during s s' →
     holdings (st s) !! coin = Some amount ∧
     PrimFloat.ltb buy_price price = true).
Proof.
  split.
  - intros s coin price amount bp r s' o accepted Hheld Hbuy Hpos Hturn Hin.
    apply check_coin_sound in Hturn.
    destruct (coin_step_order _ _ _ _ _ _ _ Hturn Hin)
      as [(a & ref & change & -> & Hflat & _)
         |(a & bp' & change & -> & Hheld' & Hbuy' & Hchange & Hrise)];
      [congruence|].
    split; [congruence|].
    assert (bp' = bp) as -> by congruence.
    apply price_change_value in Hchange as ->.
    by apply rise_means_higher.
  - intros items s coin price bp r s' amount accepted Hnodup Hin Hbuy Hpos
      Hrun Hlog.
    destruct (decision_order _ _ _ _ _ _ _ Hnodup Hin Hrun Hlog)
      as (s1 & r1 & s2 & Ha1 & Hstep & _ & Hone & _); [done|].
    apply asset_eq in Ha1 as (Hh & Hb & _).
    apply check_coin_sound in Hstep.
    destruct (coin_step_order _ _ _ _ _ (MarketSell (symbol_of coin) amount)
                accepted Hstep)
      as [(a & ref & change & Ho & _)
         |(a & bp' & change & Ho & Hheld' & Hbuy' & Hchange & Hrise)];
      [rewrite Hone; by left|done|].
    injection Ho as <-. rewrite <- Hh. split; [done|].
    assert (bp' = bp) as -> by congruence.
    apply price_change_value in Hchange as ->.
    by apply rise_means_higher.
Qed.

(** X15. A buy is below the reference price.  In the turn of a coin without
    a holding whose reference price is positive, an order, accepted or
    not, is a buy order at a price below the reference price; and so is
    every buy order for the coin in a decision step. *)
Theorem buys_only_below_reference_price :
  (∀ s coin price reference_price r s' o accepted,
     holdings (st s) !! coin = None →
     reference_prices (st s) !! coin = Some reference_price →
     PrimFloat.ltb 0 reference_price = true →
     check_coin (coin, price) s = (r, s') →
     (o, accepted) ∈ placed_during s s' →
     (∃ amount, o = MarketBuy (symbol_of coin) amount) ∧
     PrimFloat.ltb price reference_price = true) ∧
  (∀ items s coin price reference_price r s' amount accepted,
     NoDup items.*1 → (coin, price) ∈ items →
     reference_prices (st s) !! coin = Some reference_price →
     PrimFloat.ltb 0 reference_price = true →
     check_trading_conditions items s = (r, s') →
     (MarketBuy (symbol_of coin) amount, accepted) ∈ placed_during s s' →
     holdings (st s) !! coin = None ∧
     PrimFloat.ltb price reference_price = true).
Proof.
  split.
  - intros s coin price ref r s' o accepted Hflat Href Hpos Hturn Hin.
    apply check_coin_sound in Hturn.
    destruct (coin_step_order _ _ _ _ _ _ _ Hturn Hin)
      as [(a & ref' & change & -> & _ & Href' & Hchange & Hdrop)
         |(a & bp & change & -> & Hheld & _)];
      [|congruence].
    split; [by exists a|].
    assert (ref' = ref) as -> by congruence.
    apply price_change_value in Hchange as ->.
    by apply drop_means_lower.
  - intros items s coin price ref r s' amount accepted Hnodup Hin Href Hpos
      Hrun Hlog.
    destruct (decision_order _ _ _ _ _ _ _ Hnodup Hin Hrun Hlog)
      as (s1 & r1 & s2 & Ha1 & Hstep & _ & Hone & _); [done|].
    apply asset_eq in Ha1 as (Hh & _ & Hr).
    apply check_coin_sound in Hstep.
    destruct (coin_step_order _ _ _ _ _ (MarketBuy (symbol_of coin) amount)
                accepted Hstep)
      as [(a & ref' & change & _ & Hflat & Href' & Hchange & Hdrop)
         |(a & bp & change & Ho & _)];
      [rewrite Hone; by left| |done].
    rewrite <- Hh. split; [done|].
    assert (ref' = ref) as -> by congruence.
    apply price_change_value in Hchange as ->.
    by apply drop_means_lower.
Qed.

(** X16. A buy and the sell that follows leave the books as they were.
    When the turn of a coin without holding and buy price places a buy
    order that is accepted, and the next turn of that coin places a sell
    order that is accepted, the sell is for the amount bought, and the
    holdings and the buy prices of all coins are again those from before
    the buy; of the reference prices, only that of the coin has changed, to
    the sale price.  The sale price is above the price of the buy, when
    that was positive. *)
Theorem buy_then_sell_restores_books :
  ∀ s coin price1 s1 amount1 price2 s2 amount2,
    holdings (st s) !! coin = None →
    buy_prices (st s) !! coin = None →
    check_coin (coin, price1) s = (Ok tt, s1) →
    placed_during s s1 = [(MarketBuy (symbol_of coin) amount1, true)] →
    check_coin (coin, price2) s1 = (Ok tt, s2) →
    placed_during s1 s2 = [(MarketSell (symbol_of coin) amount2, true)] →
    amount2 = amount1 ∧
    holdings (st s2) = holdings (st s) ∧
    buy_prices (st s2) = buy_prices (st s) ∧
    reference_prices (st s2) = <[coin := price2]> (reference_prices (st s)) ∧
    (PrimFloat.ltb 0 price1 = true → PrimFloat.ltb price1 price2 = true).
Proof.
  intros s coin price1 s1 amount1 price2 s2 amount2 Hflat Hnobuy
    Hturn1 Hlog1 Hturn2 Hlog2.
  apply check_coin_sound in Hturn1, Hturn2.
  pose proof (coin_step_placed _ _ _ _ _ Hturn1) as Hplaced1.
  pose proof (coin_step_placed _ _ _ _ _ Hturn2) as Hplaced2.
  rewrite Hlog1 in Hplaced1. rewrite Hlog2 in Hplaced2.
  destruct Hplaced1 as [_ Hst1]. destruct Hplaced2 as (_ & Hheld & Hst2).
  assert (buy_prices (st s1) !! coin = Some price1) as Hbuy1.
  { rewrite Hst1. cbn. apply lookup_insert_eq. }
  rewrite Hst1 in Hheld. cbn in Hheld. rewrite lookup_insert_eq in Hheld.
  injection Hheld as <-. split; [done|].
  rewrite Hst2, Hst1. cbn.
  rewrite !delete_insert_eq, !delete_id by done.
  rewrite insert_insert_eq. do 3 (split; [done|]).
  intros Hpos.
  destruct (coin_step_order _ _ _ _ _ (MarketSell (symbol_of coin) amount1)
              true Hturn2)
    as [(a & ref & change & Ho & _)
       |(a & bp & change & _ & _ & Hbuy & Hchange & Hrise)];
    [rewrite Hlog2; by left|done|].
  assert (bp = price1) as -> by congruence.
  apply price_change_value in Hchange as ->.
  by apply rise_means_higher.
Qed.

(** ** Errors in rounding *)

(** X17. What [round_amount] can raise.  With a precision that is not
    negative, [round_amount] raises nothing but [OverflowError] and
    [ValueError]; in particular it does not divide by zero. *)
Theorem round_amount_errors :
  ∀ amount precision e,
    (0 ≤ precision)%Z →
    round_amount amount precision = Raise e →
    e = OverflowError ∨ e = ValueError.
Proof.
  intros amount precision e Hp. unfold round_amount, pow10.
  destruct (Z.leb_spec 0 precision); [|lia].
  cbn [mbind result_bind mul_factor div_factor].
  unfold PyNum.float_of_int.
  destruct (binary_normalize _ _ _ _ _); cbn [mbind result_bind];
    try (intros [= <-]; by left).
  all: unfold PyNum.math_floor;
    destruct (Prim2SF _); cbn [mbind result_bind];
    try (intros [= <-]; auto; fail).
  all: unfold PyNum.int_truediv;
    destruct (Z.eqb_spec (10 ^ precision) 0) as [Hzero|_];
    [pose proof (Z.pow_pos_nonneg 10 precision); lia|].
  all: repeat case_match; intros [= <-]; auto.
Qed.

Lemma turn_disk s r s' :
  cycle s = (r, s') →
  match r with
  | Ok _ => disk s' = <[STATE_FILE := json_of_state (st s')]> (disk s)
  | Raise _ => disk s' = disk s
  end.
Proof.
  destruct (cycle_run s)
    as (items & s1 & r1 & s2 & _ & _ & _ & _ & _ & Hdisk & ->).
  by destruct r1 as [t|e]; intros [= <- <-].
Qed.

(** ** Stopping and starting again *)



Lemma disk_blind_ret {A} (a : A) : disk_blind (ret a : M W A).
Proof. done. Qed.

Lemma disk_blind_lift {A} (r : result A) : disk_blind (lift r : M W A).
Proof. done. Qed.

Lemma disk_blind_bind {A B} (c : M W A) (k : A → M W B) :
  disk_blind c → (∀ a, disk_blind (k a)) → disk_blind (bind c k).
Proof.
  intros Hc Hk d s. unfold bind. rewrite Hc.
  destruct (c s) as [[a|e] s1]; cbn [fst snd]; [apply Hk|done].
Qed.

Lemma disk_blind_catch {A} (c : M W A) : disk_blind c → disk_blind (catch c).
Proof.
  intros Hc d s. unfold catch. rewrite Hc. by destruct (c s) as [r s1].
Qed.

Lemma disk_blind_for_each {A} (body : A → M W unit) l :
  (∀ a, disk_blind (body a)) → disk_blind (for_each body l).
Proof.
  intros Hbody. induction l as [|a l IH]; [done|].
  cbn [for_each]. by apply disk_blind_bind.
Qed.

Lemma disk_blind_get_state : disk_blind (@get_state W).
Proof. done. Qed.

Lemma disk_blind_set_holding coin v : disk_blind (@set_holding W coin v).
Proof. done. Qed.

Lemma disk_blind_set_buy_price coin v : disk_blind (@set_buy_price W coin v).
Proof. done. Qed.

Lemma disk_blind_set_reference_price coin v :
  disk_blind (@set_reference_price W coin v).
Proof. done. Qed.

Lemma disk_blind_del_holding coin : disk_blind (@del_holding W coin).
Proof.
  intros d s. unfold del_holding. cbn [st with_disk].
  by destruct (holdings (st s) !! coin).
Qed.

Lemma disk_blind_del_buy_price coin : disk_blind (@del_buy_price W coin).
Proof.
  intros d s. unfold del_buy_price. cbn [st with_disk].
  by destruct (buy_prices (st s) !! coin).
Qed.

Lemma disk_blind_fetch_ticker symbol : disk_blind (call_fetch_ticker symbol).
Proof.
  intros d s. unfold call_fetch_ticker. cbn [world with_disk].
  by destruct (fetch_ticker symbol (world s)).
Qed.

Lemma disk_blind_load_markets : disk_blind call_load_markets.
Proof.
  intros d s. unfold call_load_markets. cbn [world with_disk].
  by destruct (load_markets (world s)).
Qed.

Lemma disk_blind_buy_order symbol amount :
  disk_blind (call_create_market_buy_order symbol amount).
Proof.
  intros d s. unfold call_create_market_buy_order. cbn [world with_disk].
  by destruct (create_market_buy_order symbol amount (world s)).
Qed.

Lemma disk_blind_sell_order symbol amount :
  disk_blind (call_create_market_sell_order symbol amount).
Proof.
  intros d s. unfold call_create_market_sell_order. cbn [world with_disk].
  by destruct (create_market_sell_order symbol amount (world s)).
Qed.

Create HintDb disk_blind.
Hint Resolve disk_blind_ret disk_blind_lift
  disk_blind_get_state disk_blind_set_holding disk_blind_set_buy_price
  disk_blind_set_reference_price disk_blind_del_holding
  disk_blind_del_buy_price disk_blind_fetch_ticker disk_blind_load_markets
  disk_blind_buy_order disk_blind_sell_order : disk_blind.

Ltac solve_disk_blind :=
  repeat first
    [ apply disk_blind_bind; [|intros ?]
    | apply disk_blind_catch
    | apply disk_blind_for_each; intros ?
    | progress auto with disk_blind
    | match goal with
      | |- disk_blind (match ?x with _ => _ end) => destruct x
      | |- disk_blind (if ?b then _ else _) => destruct b
      end ].

Lemma disk_blind_fetch_last coin : disk_blind (fetch_last coin).
Proof. unfold fetch_last. solve_disk_blind. Qed.

Lemma disk_blind_get_current_prices_from coins acc :
  disk_blind (get_current_prices_from coins acc).
Proof.
  revert acc. induction coins as [|coin coins IH]; intros acc; [done|].
  cbn [get_current_prices_from].
  apply disk_blind_bind; [apply disk_blind_catch, disk_blind_fetch_last|].
  intros [last|e]; apply IH.
Qed.

Lemma disk_blind_check_coin item : disk_blind (check_coin item).
Proof. unfold check_coin, buy, sell. destruct item. solve_disk_blind. Qed.

Lemma disk_blind_check_trading_conditions items :
  disk_blind (check_trading_conditions items).
Proof.
  unfold check_trading_conditions.
  apply disk_blind_bind; [|intros; apply disk_blind_get_state].
  apply disk_blind_for_each, disk_blind_check_coin.
Qed.

Lemma with_disk_same s s' :
  st s = st s' → world s = world s' → orders s = orders s' →
  s = with_disk (disk s) s'.
Proof. destruct s, s'. cbn. by intros -> -> ->. Qed.

Lemma cycle_with_disk d s :
  cycle (with_disk d s) =
    match cycle s with
    | (Ok _, s') =>
        (Ok tt, with_disk (<[STATE_FILE := json_of_state (st s')]> d) s')
    | (Raise e, s') => (Raise e, with_disk d s')
    end.
Proof.
  unfold cycle, bind, get_current_prices.
  rewrite (disk_blind_get_current_prices_from COINS [] d s).
  destruct (get_current_prices_from COINS [] s) as [[items|e] s1];
    cbn [fst snd]; [|done].
  rewrite (disk_blind_check_trading_conditions items d s1).
  destruct (check_trading_conditions items s1) as [[t|e] s2] eqn:Hrun;
    [|done].
  by apply check_trading_conditions_state in Hrun as ->.
Qed.

Lemma same_but_file_with_disk x s :
  same_but_file (with_disk (<[STATE_FILE := x]> (disk s)) s) s.
Proof. repeat split. intros y. cbn. apply insert_insert_eq. Qed.

Lemma cycle_same_but_file s s' :
  same_but_file s s' →
  (cycle s).1 = (cycle s').1 ∧ same_but_file (cycle s).2 (cycle s').2.
Proof.
  intros (Hst & Hw & Ho & Hfile).
  rewrite (with_disk_same s s' Hst Hw Ho), cycle_with_disk.
  destruct (cycle s') as [[[]|e] s1] eqn:Hrun; cbn [fst snd]; (split; [done|]).
  - pose proof (turn_disk s' (Ok tt) s1 Hrun) as Hd. cbn in Hd.
    repeat split. intros x. cbn [disk with_disk]. rewrite Hd.
    by rewrite !insert_insert_eq.
  - pose proof (turn_disk s' (Raise e) s1 Hrun) as Hd. cbn in Hd.
    repeat split. intros x. cbn [disk with_disk]. by rewrite Hd.
Qed.

Lemma cycles_same_but_file n s s' :
  same_but_file s s' →
  (cycles n s).1 = (cycles n s').1 ∧
  same_but_file (cycles n s).2 (cycles n s').2.
Proof.
  revert s s'. induction n as [|n IH]; intros s s' Hsame; [done|].
  cbn [cycles]. unfold bind.
  destruct (cycle_same_but_file s s' Hsame) as [Hr Hs].
  destruct (cycle s) as [[[]|e] s1], (cycle s') as [[[]|e'] s1'];
    cbn [fst snd] in *; try done.
  by apply IH.
Qed.

Lemma cycles_add n m s :
  cycles (n + m) s =
    match cycles n s with
    | (Ok _, s') => cycles m s'
    | (Raise e, s') => (Raise e, s')
    end.
Proof.
  revert s. induction n as [|n IH]; intros s; [done|].
  cbn [cycles Nat.add]. unfold bind.
  destruct (cycle s) as [[[]|e] s1]; [apply IH|done].
Qed.


(** ** A main loop that goes on *)


Lemma coin_step_all_nonzero c price s r s' :
  coin_step c price s r s' → is_zero price = false →
  all_nonzero (st s) → all_nonzero (st s').
Proof.
  intros Hstep Hprice Hnz coin x Hx.
  destruct (decide (coin = c)) as [->|Hne].
  - destruct (coin_step_prices _ _ _ _ _ Hstep) as [Href Hbuy].
    destruct Hx as [Hx|Hx].
    + destruct Href as [Href|Href]; rewrite Href in Hx.
      * apply (Hnz c x). by left.
      * by injection Hx as <-.
    + destruct Hbuy as [Hbuy|[Hbuy|Hbuy]]; rewrite Hbuy in Hx.
      * apply (Hnz c x). by right.
      * done.
      * by injection Hx as <-.
  - apply coin_step_focused in Hstep as [Hframe _].
    apply Hframe, asset_eq in Hne as (_ & Hb & Hr).
    apply (Hnz coin x). by rewrite <- Hb, <- Hr.
Qed.

Lemma check_coins_all_nonzero items s :
  (∀ coin price, (coin, price) ∈ items → is_zero price = false) →
  all_nonzero (st s) → all_nonzero (st (for_each check_coin items s).2).
Proof.
  intros Hitems.
  apply (for_each_invariant check_coin (λ s, all_nonzero (st s))).
  intros [c p] s1 r s2 Hin Hnz Hstep.
  eapply coin_step_all_nonzero; [by apply check_coin_sound|by eapply Hitems|done].
Qed.

Lemma cycle_goes_on s :
  (∀ coin price, quoted coin price → is_zero price = false) →
  paired (st s) → all_nonzero (st s) →
  (cycle s).1 = Ok tt ∧ paired (st (cycle s).2) ∧ all_nonzero (st (cycle s).2).
Proof.
  intros Hquotes Hp Hnz.
  destruct (cycle_run s)
    as (items & s1 & r & s2 & Hg & (Hst & _) & Hnd & _ & Hrun & _ & ->).
  pose proof (check_trading_conditions_store items s1) as Hs2.
  rewrite Hrun in Hs2. cbn [snd] in Hs2.
  rewrite <- Hst in Hp, Hnz.
  assert (paired (st s2) ∧ all_nonzero (st s2)) as [Hp2 Hnz2].
  { rewrite Hs2. split.
    - intros coin. by apply check_coins_paired_at.
    - apply check_coins_all_nonzero; [|done].
      intros coin price Hin. apply (Hquotes coin).
      eapply (get_current_prices_from_quoted COINS []); [|exact Hg|exact Hin].
      by intros c p ?%elem_of_nil. }
  destruct (check_coins_nonzero items s1 Hnd) as [_ Hok].
  { intros c x _. apply Hnz. }
  specialize (Hok Hp). rewrite check_trading_conditions_eq in Hrun.
  destruct (for_each check_coin items s1) as [[[]|e] s3]; [|done].
  by injection Hrun as <- <-.
Qed.

Lemma cycles_go_on n s :
  (∀ coin price, quoted coin price → is_zero price = false) →
  paired (st s) → all_nonzero (st s) →
  (cycles n s).1 = Ok tt ∧ paired (st (cycles n s).2) ∧
  all_nonzero (st (cycles n s).2).
Proof.
  intros Hq. revert s. induction n as [|n IH]; intros s Hp Hnz; [done|].
  cbn [cycles]. unfold bind.
  destruct (cycle_goes_on s Hq Hp Hnz) as (Hr & Hp1 & Hnz1).
  destruct (cycle s) as [[[]|e] s1]; [|done]. by apply IH.
Qed.

Lemma quotes_nonzero :
  (∀ w symbol ticker w' price,
     fetch_ticker symbol w = (Ok ticker, w') →
     ticker !! "last" = Some price → is_zero price = false) →
  ∀ coin price, quoted coin price → is_zero price = false.
Proof. intros Hquotes coin price (w & ticker & w' & Hfetch & Hlast). eauto. Qed.



(** ** Prices that trade nothing *)

(** X21. A price of zero trades nothing.  In the turn of a coin whose price
    is quoted as zero no order is placed and the exchange is not called:
    without a holding, the amount [5 / price] of a buy cannot be computed,
    inside the [try] block; with a holding, the change against the buy
    price does not reach the rise threshold, whatever the buy price.
    Holdings and buy prices stay as they are, and the coin's reference
    price stays or becomes zero. *)
Theorem zero_price_never_trades :
  ∀ s coin price r s',
    is_zero price = true →
    check_coin (coin, price) s = (r, s') →
    world s' = world s ∧ orders s' = orders s ∧ disk s' = disk s ∧
    holdings (st s') = holdings (st s) ∧
    buy_prices (st s') = buy_prices (st s) ∧
    (reference_prices (st s') = reference_prices (st s) ∨
     reference_prices (st s') = <[coin := price]> (reference_prices (st s))) ∧
    (r = Ok tt ∨ r = Raise ZeroDivisionError ∨ r = Raise (KeyError coin)).
Proof.
  intros s coin price r s' Hz.
  destruct (holdings (st s) !! coin) as [amount|] eqn:Hheld.
  - intros Hstep%check_coin_sound.
    inversion Hstep; subst; cbn; try congruence; eauto 10.
    match goal with
    | H : price_change _ _ = Ok _ |- _ => apply price_change_value in H as ->
    end.
    by rewrite zero_price_no_rise in *.
  - destruct (reference_prices (st s) !! coin) as [ref|] eqn:Href.
    + rewrite (check_coin_flat _ _ _ _ Href Hheld).
      destruct (price_change price ref) as [change|e] eqn:Hchange.
      * destruct (PrimFloat.leb change _).
        -- rewrite (buy_zero_price _ _ _ Hz). intros [= <- <-]. cbn. eauto 10.
        -- destruct (PrimFloat.ltb price ref); intros [= <- <-]; cbn; eauto 10.
      * intros [= <- <-]. unfold price_change, PyNum.float_truediv in Hchange.
        destruct (PrimFloat.eqb ref 0); [|done]. injection Hchange as <-.
        eauto 10.
    + rewrite (check_coin_first _ _ _ Href). intros [= <- <-]. cbn. eauto 10.
Qed.

(** X22. An unchanged price does nothing.  In the turn of a coin whose
    price, a finite number other than zero, is the reference price on
    record, and also the buy price if there is a holding, nothing is
    ordered and nothing is recorded: the turn returns with the store as it
    was.  So a turn at the price that the turn before has recorded does
    nothing. *)
Theorem unchanged_price_does_nothing :
  ∀ s coin price,
    finite_nonzero price = true →
    reference_prices (st s) !! coin = Some price →
    holdings (st s) !! coin = None ∨
    (is_Some (holdings (st s) !! coin) ∧
     buy_prices (st s) !! coin = Some price) →
    check_coin (coin, price) s = (Ok tt, s).
Proof.
  intros s coin price Hfin Href [Hflat|[[amount Hheld] Hbuy]].
  - rewrite (check_coin_flat _ _ _ _ Href Hflat).
    rewrite (price_change_nonzero _ _ (finite_nonzero_is_zero _ Hfin)).
    by rewrite same_price_no_drop, ltb_irrefl.
  - rewrite (check_coin_held _ _ _ _ _ _ Href Hheld Hbuy).
    rewrite (price_change_nonzero _ _ (finite_nonzero_is_zero _ Hfin)).
    by rewrite same_price_no_rise.
Qed.


Lemma coin_step_blocked coin price s r s' :
  coin_step coin price s r s' → blocked coin s → r = Ok tt ∧ s' = s.
Proof.
  intros Hstep [Hflat (ref & Href & Hnan)].
  inversion Hstep; subst; try congruence; try done.
  - assert (ref0 = ref) as -> by congruence.
    rewrite nan_is_zero in *; done.
  - assert (ref0 = ref) as -> by congruence.
    match goal with
    | H : price_change _ _ = Ok _ |- _ => apply price_change_value in H as ->
    end.
    rewrite leb_nan_l in *; [done|by apply nan_base_change].
  - assert (ref0 = ref) as -> by congruence.
    rewrite ltb_nan_r in *; done.
Qed.

(** X23. A reference price that is not a number blocks the coin.  A coin
    without holding whose reference price on record is NaN is never bought
    and never gets another reference price: its turn returns with the
    store as it was, whatever the price; and over any number of turns of
    the main loop its records stay as they are and no order is placed for
    it. *)
Theorem nan_reference_blocks_coin :
  (∀ s coin price reference_price,
     holdings (st s) !! coin = None →
     reference_prices (st s) !! coin = Some reference_price →
     is_nan reference_price = true →
     check_coin (coin, price) s = (Ok tt, s)) ∧
  (∀ n s coin reference_price,
     holdings (st s) !! coin = None →
     reference_prices (st s) !! coin = Some reference_price →
     is_nan reference_price = true →
     asset (st (cycles n s).2) coin = asset (st s) coin ∧
     orders_for coin (placed_during s (cycles n s).2) = []).
Proof.
  split.
  - intros s coin price ref Hflat Href Hnan.
    destruct (check_coin (coin, price) s) as [r s'] eqn:Hturn.
    apply check_coin_sound in Hturn.
    destruct (coin_step_blocked _ _ _ _ _ Hturn) as [-> ->]; [|done].
    split; [done|]. by exists ref.
  - intros n s coin ref Hflat Href Hnan.
    assert (blocked coin s → quiet coin s (cycles n s).2) as Hq.
    { apply (cycles_invariant (λ s s', blocked coin s → quiet coin s s')).
      - intros s1 _. apply quiet_refl.
      - intros s1 s2 s3 H12 H23 Hb. specialize (H12 Hb).
        eapply quiet_trans; [exact H12|]. apply H23.
        destruct H12 as [(Hh & _ & Hr)%asset_eq _].
        unfold blocked. by rewrite Hh, Hr.
      - intros s1 s2 Hst Ho _. split; [by rewrite Hst|].
        exists []. by rewrite app_nil_r.
      - intros c price s1 r s2 _ Hstep Hb.
        destruct (decide (c = coin)) as [->|Hne].
        + destruct (coin_step_blocked _ _ _ _ _ Hstep Hb) as [_ ->].
          apply quiet_refl.
        + apply (focused_quiet coin c); [done|].
          by eapply coin_step_focused. }
    destruct Hq as [Ha Hlog]; [split; [done|by exists ref]|].
    split; [done|]. apply quiet_placed. by split.
Qed.

End Further.

(** * Concrete runs *)

Import Sim.

(** BTC watched at 100 falls to 95: the accepted order for 0.0526 BTC
    becomes the holding. *)
Lemma buy_on_drop_witness :
  asset (st (check_trading_conditions [("BTC", 95%float)] (watching accepting)).2)
        "BTC"
    = (Some 0.0526%float, Some 95%float, Some 95%float) ∧
  holdings (st (watching accepting)) !! "BTC" = None ∧
  ∃ reference_price change,
    reference_prices (st (watching accepting)) !! "BTC" = Some reference_price ∧
    price_change 95%float reference_price = Ok change ∧
    PrimFloat.leb change (PrimFloat.opp PRICE_DROP_THRESHOLD) = true.
Proof.
  apply (proj2 buy_on_drop [("BTC", 95%float)] (watching accepting) "BTC"
           95%float
           (check_trading_conditions [("BTC", 95%float)] (watching accepting)).1
           (check_trading_conditions [("BTC", 95%float)] (watching accepting)).2
           0.0526%float).
  - apply NoDup_singleton.
  - left.
  - apply surjective_pairing.
  - vm_compute. left.
Defined.

(** BTC held since 95 is sold at 104.50, and kept at 104.49. *)
Lemma sell_on_rise_witness :
  (0.0526%float = 0.0526%float ∧
   asset (st (check_trading_conditions [("BTC", 104.50%float)]
                (holding accepting)).2) "BTC"
     = (None, None, Some 104.50%float) ∧
   orders_for "BTC"
     (placed_during (holding accepting)
        (check_trading_conditions [("BTC", 104.50%float)]
           (holding accepting)).2)
     = [(MarketSell (symbol_of "BTC") 0.0526%float, true)] ∧
   ∃ buy_price change,
     buy_prices (st (holding accepting)) !! "BTC" = Some buy_price ∧
     price_change 104.50%float buy_price = Ok change ∧
     PrimFloat.leb PRICE_RISE_THRESHOLD change = true) ∧
  check_coin ("BTC", 104.49%float) (holding accepting)
    = (Ok tt, holding accepting).
Proof.
  split.
  - apply (proj1 sell_on_rise [("BTC", 104.50%float)] (holding accepting)
             "BTC" 104.50%float 0.0526%float
             (check_trading_conditions [("BTC", 104.50%float)]
                (holding accepting)).1
             (check_trading_conditions [("BTC", 104.50%float)]
                (holding accepting)).2
             0.0526%float).
    + apply NoDup_singleton.
    + left.
    + reflexivity.
    + apply surjective_pairing.
    + vm_compute. left.
  - apply (proj2 (proj1 (proj2 sell_on_rise) (holding accepting) "BTC"
                    104.49%float 0.0526%float 95%float 95%float
                    (PrimFloat.div (PrimFloat.sub 104.49 95) 95)%float
                    eq_refl eq_refl eq_refl eq_refl)).
    reflexivity.
Defined.

(** Bought at 3.8, the price risen by the threshold of ten percent is
    4.18, in decimal and as Python computes [3.8 * (1 + 0.10)].  The price
    change computed for it is 0.09999999999999998, below the threshold, and
    the decision step, with an exchange that accepts every order, places
    none and leaves the holding. *)
Lemma boundary_price_not_sold :
  let s := start (State {["BTC" := 1%float]} {["BTC" := 3.8%float]}
                        {["BTC" := 3.8%float]}) accepting in
  PrimFloat.mul 3.8%float (PrimFloat.add 1%float PRICE_RISE_THRESHOLD)
    = 4.18%float ∧
  price_change 4.18%float 3.8%float = Ok 0.09999999999999998%float ∧
  PrimFloat.leb PRICE_RISE_THRESHOLD 0.09999999999999998%float = false ∧
  check_trading_conditions [("BTC", 4.18%float)] s = (Ok (st s), s) ∧
  asset (st s) "BTC" = (Some 1%float, Some 3.8%float, Some 3.8%float).
Proof. vm_compute. repeat split. Qed.

(** The same fall with an exchange that refuses the order. *)
Lemma failed_order_keeps_state_witness :
  asset (st (check_trading_conditions [("BTC", 95%float)]
               (watching refusing)).2) "BTC"
    = asset (st (watching refusing)) "BTC".
Proof.
  apply (proj2 (proj2 failed_order_keeps_state) [("BTC", 95%float)]
           (watching refusing) "BTC" 95%float
           (check_trading_conditions [("BTC", 95%float)] (watching refusing)).1
           (check_trading_conditions [("BTC", 95%float)] (watching refusing)).2
           (MarketBuy "BTC/USDT" 0.0526%float)).
  - apply NoDup_singleton.
  - left.
  - apply surjective_pairing.
  - vm_compute. left.
  - reflexivity.
Defined.

(** After the buy at 95, BTC has a holding and a buy price. *)
Lemma pairing_invariant_witness :
  is_Some (holdings (st (check_trading_conditions [("BTC", 95%float)]
                           (watching accepting)).2) !! "BTC") ↔
  is_Some (buy_prices (st (check_trading_conditions [("BTC", 95%float)]
                             (watching accepting)).2) !! "BTC").
Proof.
  apply (proj1 pairing_invariant [("BTC", 95%float)] (watching accepting)
           "BTC").
  unfold paired_at. reflexivity.
Defined.

(** Quoted at 100, 98 and 99 without a buy: the reference price after the
    third turn is not above the one after the first. *)
Lemma reference_ratchets_down_witness :
  ∃ y, reference_prices (st (cycles 3 (start empty_state three_quotes)).2)
         !! "BTC" = Some y ∧
       (y = 100%float ∨ PrimFloat.ltb y 100%float = true).
Proof.
  apply (proj2 (proj2 reference_ratchets_down) 3
           (start empty_state three_quotes) "BTC") with (i := 1).
  - intros k Hk.
    destruct k as [|[|[|[|k]]]]; [vm_compute; reflexivity..|lia].
  - lia.
  - lia.
  - vm_compute. reflexivity.
Defined.

(** BTC watched at 40000 falls to 30000: the order is for 0.0002 BTC. *)
Lemma buy_amount_rounding_witness :
  ∃ raw w markets w1 market x,
    PyNum.float_truediv 5%float 30000%float = Ok raw ∧
    load_markets w = (Ok markets, w1) ∧
    markets !! symbol_of "BTC" = Some market ∧
    precision market !! "amount" = Some x ∧
    round_amount raw (amount_precision_of x) = Ok 0.0002%float.
Proof.
  apply (proj1 buy_amount_rounding [("BTC", 30000%float)]
           (start (State ∅ ∅ {["BTC" := 40000%float]}) accepting) "BTC"
           30000%float
           (check_trading_conditions [("BTC", 30000%float)]
              (start (State ∅ ∅ {["BTC" := 40000%float]}) accepting)).1
           (check_trading_conditions [("BTC", 30000%float)]
              (start (State ∅ ∅ {["BTC" := 40000%float]}) accepting)).2
           0.0002%float true).
  - apply NoDup_singleton.
  - left.
  - apply surjective_pairing.
  - vm_compute. left.
Defined.

(** Of the coins A, B and C the second cannot be fetched: the prices of A
    and C are returned. *)
Lemma fetch_failure_skips_asset_witness :
  ∃ items2 s3,
    get_current_prices ["C"]
      (fetch_last "B" (get_current_prices ["A"] (start empty_state second_fails)).2).2
      = (Ok items2, s3) ∧
    get_current_prices (["A"] ++ "B" :: ["C"]) (start empty_state second_fails)
      = (Ok ([("A", 1%float)] ++ items2), s3) ∧
    "B" ∉ ([("A", 1%float)] ++ items2).*1.
Proof.
  apply (proj1 (proj2 fetch_failure_skips_asset) ["A"] "B" ["C"]
           (start empty_state second_fails) [("A", 1%float)]
           (get_current_prices ["A"] (start empty_state second_fails)).2
           (ExchangeError "timeout")).
  - apply (bool_decide_unpack (NoDup ["A"; "B"; "C"])). vm_compute. exact I.
  - vm_compute. reflexivity.
  - vm_compute. reflexivity.
Defined.

(** A first price of 100 for BTC. *)
Lemma first_price_is_reference_witness :
  reference_prices
    (check_trading_conditions [("BTC", 100%float)] (start empty_state accepting)).2.(st)
    !! "BTC" = Some 100%float ∧
  holdings
    (check_trading_conditions [("BTC", 100%float)] (start empty_state accepting)).2.(st)
    !! "BTC" = holdings (st (start empty_state accepting)) !! "BTC" ∧
  buy_prices
    (check_trading_conditions [("BTC", 100%float)] (start empty_state accepting)).2.(st)
    !! "BTC" = buy_prices (st (start empty_state accepting)) !! "BTC" ∧
  orders_for "BTC"
    (placed_during (start empty_state accepting)
       (check_trading_conditions [("BTC", 100%float)]
          (start empty_state accepting)).2) = [].
Proof.
  apply (proj2 first_price_is_reference [("BTC", 100%float)]
           (start empty_state accepting) "BTC" 100%float).
  - apply NoDup_singleton.
  - left.
  - reflexivity.
  - vm_compute. reflexivity.
Defined.

(** Saving the state that holds BTC and loading it again. *)
Lemma save_then_load_witness :
  load_state (save_state (st (holding accepting)) (watching accepting)).2
    = (Ok (st (holding accepting)),
       (save_state (st (holding accepting)) (watching accepting)).2).
Proof.
  apply (save_then_load (st (holding accepting)) (watching accepting)).
Defined.

(** BTC held since 95 and quoted at 0: the step returns. *)
Lemma no_division_by_zero_witness :
  (check_trading_conditions [("BTC", 0%float)] (holding accepting)).1
    ≠ Raise ZeroDivisionError ∧
  is_ok (check_trading_conditions [("BTC", 0%float)] (holding accepting)).1
    = true.
Proof.
  destruct (proj1 no_division_by_zero sim _ _ [("BTC", 0%float)]
              (holding accepting)) as [Hnever Hreturns].
  - apply NoDup_singleton.
  - intros coin x Hx. cbn in Hx.
    apply lookup_singleton_Some in Hx as [_ <-]. reflexivity.
  - intros coin x Hx. cbn in Hx.
    apply lookup_singleton_Some in Hx as [_ <-]. reflexivity.
  - split; [exact Hnever|]. apply Hreturns.
    intros coin. unfold paired_at. cbn.
    destruct (decide (coin = "BTC")) as [->|Hne].
    + rewrite !lookup_singleton_eq. by split.
    + rewrite !lookup_singleton_ne by done. by split.
Defined.

(** ** Concrete runs for the further properties *)

(** Three turns in which BTC is quoted at 100, 90 and 110: bought in the
    second turn and sold in the third, BTC ends without holding. *)
Lemma position_replay_witness :
  replay "BTC" (holdings (st tape_start) !! "BTC")
    (orders_for "BTC"
       (placed_during tape_start (@cycles nat tape_exchange _ 3 tape_start).2))
    (holdings (st (@cycles nat tape_exchange _ 3 tape_start).2) !! "BTC").
Proof.
  apply (proj2 (@position_replay nat tape_exchange _) 3 tape_start "BTC").
Defined.

(** BTC watched at 100 falls to 95 and the exchange refuses the order:
    after the turn BTC is still without holding and buy price. *)
Lemma no_accepted_order_no_change_witness :
  holdings (st (cycles 1 (watching (falling false))).2) !! "BTC"
    = holdings (st (watching (falling false))) !! "BTC" ∧
  buy_prices (st (cycles 1 (watching (falling false))).2) !! "BTC"
    = buy_prices (st (watching (falling false))) !! "BTC".
Proof.
  apply (no_accepted_order_no_change 1 (watching (falling false)) "BTC").
  intros o Hin. vm_compute in Hin.
  apply list_elem_of_singleton in Hin. discriminate Hin.
Defined.

(** The decision step at 95 places one order for BTC. *)
Lemma orders_of_a_step_witness :
  length (orders_for "BTC"
            (placed_during (watching accepting)
               (check_trading_conditions [("BTC", 95%float)]
                  (watching accepting)).2)) ≤ 1.
Proof.
  apply (proj2 (proj2 (orders_of_a_step [("BTC", 95%float)]
                         (watching accepting)))).
  apply NoDup_singleton.
Defined.

(** The order of that turn is for BTC/USDT. *)
Lemma only_monitored_pairs_traded_witness :
  order_symbol (MarketBuy "BTC/USDT" 0.0526%float)
    ∈ ["BTC/USDT"; "TON/USDT"; "ETH/USDT"; "XRP/USDT"; "ADA/USDT";
       "DOGE/USDT"].
Proof.
  apply (proj2 (only_monitored_pairs_traded 1 (watching (falling true)))
           (MarketBuy "BTC/USDT" 0.0526%float) true).
  vm_compute. left.
Defined.


(** TON, BTC and ETH are quoted; the turn of BTC raises, and ETH has no
    turn. *)
Lemma turn_error_ends_step_witness :
  check_trading_conditions
    ([("TON", 5%float)] ++ ("BTC", 1%float) :: [("ETH", 2%float)])
    zero_reference
    = (Raise ZeroDivisionError,
       (check_trading_conditions [("TON", 5%float)] zero_reference).2) ∧
  ∀ c, c ∈ [("ETH", 2%float)].*1 →
    asset (st (check_trading_conditions [("TON", 5%float)] zero_reference).2) c
      = asset (st zero_reference) c ∧
    orders_for c
      (placed_during zero_reference
         (check_trading_conditions [("TON", 5%float)] zero_reference).2) = [].
Proof.
  apply (turn_error_ends_step [("TON", 5%float)] "BTC" 1%float
           [("ETH", 2%float)] zero_reference
           (st (check_trading_conditions [("TON", 5%float)] zero_reference).2)
           (check_trading_conditions [("TON", 5%float)] zero_reference).2
           ZeroDivisionError
           (check_trading_conditions [("TON", 5%float)] zero_reference).2).
  - apply (bool_decide_unpack (NoDup ["TON"; "BTC"; "ETH"])).
    vm_compute. exact I.
  - vm_compute. reflexivity.
  - vm_compute. reflexivity.
Defined.

(** TON falls from 100 to 95 at an exchange that lists BTC only. *)
Lemma unlisted_market_places_no_order_witness :
  check_coin ("TON", 95%float) watching_ton
    = (Ok tt, Store (st watching_ton) (world watching_ton)
                    (orders watching_ton) (disk watching_ton)).
Proof.
  apply (proj1 (proj2 (unlisted_market_places_no_order watching_ton "TON"
                         95%float 100%float
                         (PrimFloat.div (PrimFloat.sub 95 100) 100)%float
                         eq_refl eq_refl eq_refl eq_refl eq_refl))
           (markets accepting) (world watching_ton));
    reflexivity.
Defined.


(** The price fetched for A comes first in the dictionary. *)
Lemma fetched_price_is_recorded_witness :
  ∃ items2 s3,
    get_current_prices ["B"; "C"]
      (fetch_last "A" (start empty_state second_fails)).2 = (Ok items2, s3) ∧
    get_current_prices ([] ++ "A" :: ["B"; "C"]) (start empty_state second_fails)
      = (Ok ([] ++ ("A", 1%float) :: items2), s3).
Proof.
  apply (fetched_price_is_recorded [] "A" ["B"; "C"]
           (start empty_state second_fails) []
           (start empty_state second_fails) 1%float
           (fetch_last "A" (start empty_state second_fails)).2).
  - apply (bool_decide_unpack (NoDup ["A"; "B"; "C"])). vm_compute. exact I.
  - reflexivity.
  - vm_compute. reflexivity.
Defined.

(** A first start with BTC quoted at 100. *)
Lemma bootstrap_takes_first_prices_witness :
  ∃ items s1 s',
    get_current_prices COINS (start empty_state three_quotes) = (Ok items, s1) ∧
    bootstrap (start empty_state three_quotes) = (Ok tt, s') ∧
    (∀ coin price,
       reference_prices (st s') !! coin = Some price ↔ (coin, price) ∈ items) ∧
    holdings (st s') = holdings (st (start empty_state three_quotes)) ∧
    buy_prices (st s') = buy_prices (st (start empty_state three_quotes)) ∧
    world s' = world s1 ∧
    orders s' = orders (start empty_state three_quotes) ∧
    disk s' = <[STATE_FILE := json_of_state (st s')]>
                (disk (start empty_state three_quotes)).
Proof.
  apply (proj2 (bootstrap_takes_first_prices (start empty_state three_quotes))).
  reflexivity.
Defined.

(** The first turn of that run writes the state file. *)
Lemma turn_saves_state_witness :
  disk (cycle (start empty_state three_quotes)).2
    = <[STATE_FILE :=
          json_of_state (st (cycle (start empty_state three_quotes)).2)]>
        (disk (start empty_state three_quotes)) ∧
  load_state (cycle (start empty_state three_quotes)).2
    = (Ok (st (cycle (start empty_state three_quotes)).2),
       (cycle (start empty_state three_quotes)).2).
Proof.
  apply (turn_saves_state (start empty_state three_quotes) (Ok tt)
           (cycle (start empty_state three_quotes)).2).
  vm_compute. reflexivity.
Defined.

(** [main] run for two turns without a state file. *)
Lemma main_saves_final_state_witness :
  ∃ s', main 2 (start empty_state three_quotes) = (Ok tt, s') ∧
        disk s' !! STATE_FILE = Some (json_of_state (st s')) ∧
        load_state s' = (Ok (st s'), s').
Proof.
  apply (main_saves_final_state 2 (start empty_state three_quotes)
           empty_state).
  reflexivity.
Defined.

(** After the decision step at 95 the prices on record for BTC are 95. *)
Lemma only_observed_prices_recorded_witness :
  (reference_prices
     (st (check_trading_conditions [("BTC", 95%float)] (watching accepting)).2)
     !! "BTC" = reference_prices (st (watching accepting)) !! "BTC" ∨
   ∃ price, (("BTC", price) : string * float) ∈ [("BTC", 95%float)] ∧
     reference_prices
       (st (check_trading_conditions [("BTC", 95%float)] (watching accepting)).2)
       !! "BTC" = Some price) ∧
  (buy_prices
     (st (check_trading_conditions [("BTC", 95%float)] (watching accepting)).2)
     !! "BTC" = buy_prices (st (watching accepting)) !! "BTC" ∨
   buy_prices
     (st (check_trading_conditions [("BTC", 95%float)] (watching accepting)).2)
     !! "BTC" = None ∨
   ∃ price, (("BTC", price) : string * float) ∈ [("BTC", 95%float)] ∧
     buy_prices
       (st (check_trading_conditions [("BTC", 95%float)] (watching accepting)).2)
       !! "BTC" = Some price).
Proof.
  apply (only_observed_prices_recorded [("BTC", 95%float)]
           (watching accepting) "BTC").
  apply NoDup_singleton.
Defined.

(** BTC held since 95 is sold at 104.50, above 95. *)
Lemma sells_only_above_buy_price_witness :
  MarketSell "BTC/USDT" 0.0526%float = MarketSell (symbol_of "BTC") 0.0526%float ∧
  PrimFloat.ltb 95%float 104.50%float = true.
Proof.
  apply (proj1 sells_only_above_buy_price (holding accepting) "BTC"
           104.50%float 0.0526%float 95%float
           (check_coin ("BTC", 104.50%float) (holding accepting)).1
           (check_coin ("BTC", 104.50%float) (holding accepting)).2
           (MarketSell "BTC/USDT" 0.0526%float) true).
  - reflexivity.
  - reflexivity.
  - reflexivity.
  - apply surjective_pairing.
  - vm_compute. left.
Defined.

(** BTC watched at 100 is bought at 95, below 100. *)
Lemma buys_only_below_reference_price_witness :
  (∃ amount, MarketBuy "BTC/USDT" 0.0526%float
             = MarketBuy (symbol_of "BTC") amount) ∧
  PrimFloat.ltb 95%float 100%float = true.
Proof.
  apply (proj1 buys_only_below_reference_price (watching accepting) "BTC"
           95%float 100%float
           (check_coin ("BTC", 95%float) (watching accepting)).1
           (check_coin ("BTC", 95%float) (watching accepting)).2
           (MarketBuy "BTC/USDT" 0.0526%float) true).
  - reflexivity.
  - reflexivity.
  - reflexivity.
  - apply surjective_pairing.
  - vm_compute. left.
Defined.

(** BTC watched at 100 is bought at 95 and sold at 104.50. *)
Lemma buy_then_sell_restores_books_witness :
  0.0526%float = 0.0526%float ∧
  holdings
    (st (check_coin ("BTC", 104.50%float)
           (check_coin ("BTC", 95%float) (watching accepting)).2).2)
    = holdings (st (watching accepting)) ∧
  buy_prices
    (st (check_coin ("BTC", 104.50%float)
           (check_coin ("BTC", 95%float) (watching accepting)).2).2)
    = buy_prices (st (watching accepting)) ∧
  reference_prices
    (st (check_coin ("BTC", 104.50%float)
           (check_coin ("BTC", 95%float) (watching accepting)).2).2)
    = <["BTC" := 104.50%float]> (reference_prices (st (watching accepting))) ∧
  (PrimFloat.ltb 0 95%float = true →
   PrimFloat.ltb 95%float 104.50%float = true).
Proof.
  apply (buy_then_sell_restores_books (watching accepting) "BTC" 95%float
           (check_coin ("BTC", 95%float) (watching accepting)).2
           0.0526%float 104.50%float
           (check_coin ("BTC", 104.50%float)
              (check_coin ("BTC", 95%float) (watching accepting)).2).2
           0.0526%float).
  - reflexivity.
  - reflexivity.
  - vm_compute. reflexivity.
  - vm_compute. reflexivity.
  - vm_compute. reflexivity.
  - vm_compute. reflexivity.
Defined.

(** An infinite amount cannot be rounded. *)
Lemma round_amount_errors_witness :
  OverflowError = OverflowError ∨ OverflowError = ValueError.
Proof.
  apply (round_amount_errors infinity 2 OverflowError).
  - lia.
  - vm_compute. reflexivity.
Defined.




(** BTC held since 95 and quoted at zero: nothing happens. *)
Lemma zero_price_never_trades_witness :
  world (holding accepting) = world (holding accepting) ∧
  orders (holding accepting) = orders (holding accepting) ∧
  disk (holding accepting) = disk (holding accepting) ∧
  holdings (st (holding accepting)) = holdings (st (holding accepting)) ∧
  buy_prices (st (holding accepting)) = buy_prices (st (holding accepting)) ∧
  (reference_prices (st (holding accepting))
     = reference_prices (st (holding accepting)) ∨
   reference_prices (st (holding accepting))
     = <["BTC" := 0%float]> (reference_prices (st (holding accepting)))) ∧
  (Ok tt = Ok tt ∨ Ok tt = Raise ZeroDivisionError ∨
   Ok tt = Raise (KeyError "BTC")).
Proof.
  apply (zero_price_never_trades (holding accepting) "BTC" 0%float
           (Ok tt) (holding accepting)).
  - reflexivity.
  - vm_compute. reflexivity.
Defined.

(** BTC held since 95 and quoted at 95: nothing happens. *)
Lemma unchanged_price_does_nothing_witness :
  check_coin ("BTC", 95%float) (holding accepting) = (Ok tt, holding accepting).
Proof.
  apply (unchanged_price_does_nothing (holding accepting) "BTC" 95%float).
  - reflexivity.
  - reflexivity.
  - right. split; [by exists 0.0526%float|reflexivity].
Defined.

(** BTC with a reference price that is not a number, quoted at 50. *)
Lemma nan_reference_blocks_coin_witness :
  check_coin ("BTC", 50%float) nan_reference = (Ok tt, nan_reference).
Proof.
  apply (proj1 nan_reference_blocks_coin nan_reference "BTC" 50%float nan);
    reflexivity.
Defined.
